(** * The medicine-reminder store and poller of health_app.py

    A shallow embedding of the reminder subsystem of [health_app.py]:
    the [reminders] table and its four helpers ([add_reminder_to_db],
    [get_reminders_from_db], [delete_reminder_from_db],
    [mark_reminder_notified]), the body of [reminder_check_loop], and the
    two GUI handlers that create reminders.  It is followed by the
    appointment code (the roster, the [appointments] table, the booking
    form), the guidance lookup, the symptom checker and the chatbot.

    Conventions of the embedding.
    - A Python [str] is a [string]; each character stands for one code
      point below 256.  On that range the character classes of [re] and
      of [str.strip] are exactly the ones written out below, and SQLite's
      BINARY collation (byte order of the UTF-8 encoding) is the
      code-point order, i.e. [String.leb].
    - The database file is always reachable and the wx application is
      alive: [wx.CallAfter] only queues, and [sqlite3] raises only what
      the statements themselves give rise to, [OverflowError] for an [int]
      that is no 64-bit INTEGER and [OperationalError] when AUTOINCREMENT
      has no rowid left.
    - Each helper call is one committed transaction.  A pass of the poller
      runs to its end, or to the point where the process dies, without a
      handler of the GUI thread running in between. *)

From Stdlib Require Import ZArith List Bool Lia.
From Stdlib Require Import Ascii String.
From Stdlib Require Import Sorted Permutation.
From Stdlib Require Floats.PrimFloat Floats.FloatOps Floats.SpecFloat.
From Stdlib Require Numbers.Cyclic.Int63.Uint63.
Import ListNotations.

Open Scope string_scope.
Open Scope Z_scope.

(** ** Characters *)

Definition code (c : ascii) : Z := Z.of_N (N_of_ascii c).

Definition in_range (lo hi : Z) (c : ascii) : bool :=
  (lo <=? code c) && (code c <=? hi).

(** [\d] of a [str] pattern: the decimal digits. *)
Definition is_digit (c : ascii) : bool := in_range 48 57 c.

Definition digit_value (c : ascii) : Z := code c - 48.

(** [\s] of a [str] pattern and the characters removed by [str.strip()]:
    TAB..CR, FS..US, SPACE, NEL and NBSP. *)
Definition is_space (c : ascii) : bool :=
  in_range 9 13 c || in_range 28 32 c
  || (code c =? 133) || (code c =? 160).

(** ** datetime.datetime *)

Record datetime : Type := mk_datetime {
  year : Z; month : Z; day : Z;
  hour : Z; minute : Z; second : Z; microsecond : Z
}.

Definition lex (c1 c2 : comparison) : comparison :=
  match c1 with Eq => c2 | _ => c1 end.

(** Naive datetimes compare field by field, most significant first. *)
Definition datetime_compare (a b : datetime) : comparison :=
  lex (year a ?= year b)
 (lex (month a ?= month b)
 (lex (day a ?= day b)
 (lex (hour a ?= hour b)
 (lex (minute a ?= minute b)
 (lex (second a ?= second b)
      (microsecond a ?= microsecond b)))))).

(** [a >= b] *)
Definition datetime_ge (a b : datetime) : bool :=
  match datetime_compare a b with Lt => false | _ => true end.

(** [a > b] *)
Definition datetime_gt (a b : datetime) : bool :=
  match datetime_compare a b with Gt => true | _ => false end.

Definition is_leap (y : Z) : bool :=
  (y mod 4 =? 0) && (negb (y mod 100 =? 0) || (y mod 400 =? 0)).

Definition days_in_month (y m : Z) : Z :=
  if m =? 2 then (if is_leap y then 29 else 28)
  else if (m =? 4) || (m =? 6) || (m =? 9) || (m =? 11) then 30
  else 31.

(** ** datetime.datetime.strptime(text, "%Y-%m-%d %H:%M")

    [_strptime] turns the format into the regular expression

      (?P<Y>\d\d\d\d)-(?P<m>1[0-2]|0[1-9]|[1-9])-
      (?P<d>3[0-1]|[1-2]\d|0[1-9]|[1-9]| [1-9])\s+
      (?P<H>2[0-3]|[0-1]\d|\d):(?P<M>[0-5]\d|\d)

    matches it at the start of the text, raises [ValueError] when there is
    no match or when the match stops before the end of the text, converts
    the groups with [int] and builds the date, which raises [ValueError]
    for year 0 and for a day the month does not have.

    A matcher returns every way of matching, in the order in which the
    backtracking engine tries them; the engine keeps the first. *)

Definition matcher (A : Type) : Type := string -> list (A * string).

Definition m_ret {A} (a : A) : matcher A := fun s => [(a, s)].

Definition m_bind {A B} (p : matcher A) (f : A -> matcher B) : matcher B :=
  fun s => flat_map (fun '(a, rest) => f a rest) (p s).

Definition m_alt {A} (p q : matcher A) : matcher A := fun s => (p s ++ q s)%list.

Notation "x <- p ;; q" := (m_bind p (fun x => q))
  (at level 61, p at next level, right associativity).
Infix "<|>" := m_alt (at level 60, right associativity).

(** One character satisfying [ok]. *)
Definition m_char (ok : ascii -> bool) : matcher ascii :=
  fun s => match s with
           | String c rest => if ok c then [(c, rest)] else []
           | EmptyString => []
           end.

Definition m_lit (c : ascii) : matcher ascii := m_char (Ascii.eqb c).

(** A digit in a range, as its value. *)
Definition m_dig (lo hi : Z) : matcher Z :=
  c <- m_char (fun c => is_digit c && (lo <=? digit_value c) && (digit_value c <=? hi)) ;;
  m_ret (digit_value c).

(** [\s+], greedy: the longest run first, then the shorter ones. *)
Fixpoint m_spaces (s : string) : list (unit * string) :=
  match s with
  | String c rest =>
      if is_space c then (m_spaces rest ++ [(tt, rest)])%list else []
  | EmptyString => []
  end.

Definition two (lo1 hi1 lo2 hi2 : Z) : matcher Z :=
  a <- m_dig lo1 hi1 ;; b <- m_dig lo2 hi2 ;; m_ret (10 * a + b).

Definition re_Y : matcher Z :=
  a <- m_dig 0 9 ;; b <- m_dig 0 9 ;; c <- m_dig 0 9 ;; d <- m_dig 0 9 ;;
  m_ret (1000 * a + 100 * b + 10 * c + d).

Definition re_m : matcher Z :=
  two 1 1 0 2 <|> two 0 0 1 9 <|> m_dig 1 9.

Definition re_d : matcher Z :=
  two 3 3 0 1 <|> two 1 2 0 9 <|> two 0 0 1 9 <|> m_dig 1 9
  <|> (_ <- m_lit " " ;; m_dig 1 9).

Definition re_H : matcher Z :=
  two 2 2 0 3 <|> two 0 1 0 9 <|> m_dig 0 9.

Definition re_M : matcher Z :=
  two 0 5 0 9 <|> m_dig 0 9.

Definition format_regex : matcher datetime :=
  Y <- re_Y ;; _ <- m_lit "-" ;;
  m <- re_m ;; _ <- m_lit "-" ;;
  d <- re_d ;; _ <- m_spaces ;;
  H <- re_H ;; _ <- m_lit ":" ;;
  M <- re_M ;;
  m_ret (mk_datetime Y m d H M 0 0).

(** [None] stands for the [ValueError] that [strptime] raises. *)
Definition strptime (text : string) : option datetime :=
  match format_regex text with
  | [] => None
  | (t, rest) :: _ =>
      match rest with
      | EmptyString =>
          if (1 <=? year t) && (day t <=? days_in_month (year t) (month t))
          then Some t else None
      | String _ _ => None
      end
  end.

(** [str.strip()] *)
Fixpoint lstrip (s : string) : string :=
  match s with
  | String c rest => if is_space c then lstrip rest else s
  | EmptyString => EmptyString
  end.

Fixpoint rstrip (s : string) : string :=
  match s with
  | EmptyString => EmptyString
  | String c rest =>
      match rstrip rest with
      | EmptyString => if is_space c then EmptyString else String c EmptyString
      | rest' => String c rest'
      end
  end.

Definition strip (s : string) : string := rstrip (lstrip s).

(** ** The [reminders] table

    One [row] per record of

      CREATE TABLE reminders (id INTEGER PRIMARY KEY AUTOINCREMENT,
        med_name TEXT NOT NULL, dose TEXT, remind_datetime TEXT NOT NULL,
        notified INTEGER DEFAULT 0, note TEXT)

    which is also the dict that [get_reminders_from_db] builds from it. *)

Record row : Type := mk_row {
  id : Z;
  med_name : string;
  dose : string;
  remind_datetime : string;
  notified : Z;
  note : string
}.

(** The table in rowid order, and the counter that AUTOINCREMENT keeps in
    [sqlite_sequence]: the largest rowid the table has ever held. *)
Record database : Type := mk_database {
  reminders : list row;
  sqlite_sequence : Z
}.

(** [init_db] on a new file. *)
Definition init_db : database := mk_database [] 0.

(** What a call does to its caller: it returns a value or raises an
    exception, named by its class.  The helpers have no [return] statement,
    so the value they hand back is [None]. *)
Inductive value : Type :=
| PyNone
| PyInt (n : Z).

Inductive outcome : Type :=
| Returned (v : value)
| Raised (exc : string).

(** An INTEGER of SQLite is a signed 64-bit integer.  A Python [int]
    outside that range cannot be bound to a [?]: [execute] raises
    [OverflowError] before the statement runs. *)
Definition min_integer : Z := -9223372036854775808.
Definition max_integer : Z := 9223372036854775807.

Definition sqlite_integer (n : Z) : bool :=
  (min_integer <=? n) && (n <=? max_integer).

(** *** The four SQL statements *)

(** INSERT INTO reminders (med_name, dose, remind_datetime, notified, note)
    VALUES (?, ?, ?, 0, ?).  AUTOINCREMENT gives the row one more than the
    largest rowid the table has ever held. *)
Definition sql_insert (med dos dt nt : string) (d : database) : database :=
  let rowid := sqlite_sequence d + 1 in
  mk_database (reminders d ++ [mk_row rowid med dos dt 0 nt]) rowid.

(** DELETE FROM reminders WHERE id = ? *)
Definition sql_delete (rem_id : Z) (d : database) : database :=
  mk_database (filter (fun r => negb (id r =? rem_id)) (reminders d))
              (sqlite_sequence d).

Definition set_notified (r : row) : row :=
  mk_row (id r) (med_name r) (dose r) (remind_datetime r) 1 (note r).

(** UPDATE reminders SET notified = 1 WHERE id = ? *)
Definition sql_update (rem_id : Z) (d : database) : database :=
  mk_database
    (map (fun r => if id r =? rem_id then set_notified r else r) (reminders d))
    (sqlite_sequence d).

(** ORDER BY remind_datetime: the rows are read in rowid order and sorted on
    the text under the BINARY collation; rows with equal text stay in rowid
    order, as SQLite's sorter leaves them. *)
Fixpoint insert_row (r : row) (l : list row) : list row :=
  match l with
  | [] => [r]
  | x :: rest =>
      if String.leb (remind_datetime r) (remind_datetime x)
      then r :: l
      else x :: insert_row r rest
  end.

Fixpoint order_by_remind_datetime (l : list row) : list row :=
  match l with
  | [] => []
  | r :: rest => insert_row r (order_by_remind_datetime rest)
  end.

Definition pending (r : row) : bool := notified r =? 0.

(** SELECT ... FROM reminders [WHERE notified=0] ORDER BY remind_datetime *)
Definition sql_select (include_notified : bool) (d : database) : list row :=
  order_by_remind_datetime
    (if include_notified then reminders d else filter pending (reminders d)).

(** *** The helpers of health_app.py *)

(** Each helper opens a connection, executes its statement, commits and
    closes.  When [execute] raises, nothing was committed: the table is as
    before.  The INSERT fails when AUTOINCREMENT has no rowid left, the
    counter being at the largest INTEGER: SQLite answers SQLITE_FULL, which
    [sqlite3] raises as [OperationalError]. *)
Definition add_reminder_to_db (med_name dose remind_dt_str note : string)
    (d : database) : outcome * database :=
  if sqlite_integer (sqlite_sequence d + 1) then
    (Returned PyNone, sql_insert med_name dose remind_dt_str note d)
  else (Raised "OperationalError", d).

Definition get_reminders_from_db (include_notified : bool) (d : database)
    : list row :=
  sql_select include_notified d.

Definition delete_reminder_from_db (rem_id : Z) (d : database)
    : outcome * database :=
  if sqlite_integer rem_id then (Returned PyNone, sql_delete rem_id d)
  else (Raised "OverflowError", d).

Definition mark_reminder_notified (rem_id : Z) (d : database)
    : outcome * database :=
  if sqlite_integer rem_id then (Returned PyNone, sql_update rem_id d)
  else (Raised "OverflowError", d).

(** The two views the specification names. *)
Definition listPending (d : database) : list row :=
  get_reminders_from_db false d.

Definition listAll (d : database) : list row :=
  get_reminders_from_db true d.

(** The value of the [notified] column read as a truth value, as
    [refresh_reminders_list] reads it. *)
Definition fired (r : row) : bool := negb (notified r =? 0).

(** The row stored under a rowid. *)
Definition lookup (rem_id : Z) (d : database) : option row :=
  find (fun r => id r =? rem_id) (reminders d).

(** ** One pass of [reminder_check_loop]

    The body of [while True] up to the [sleep].  The loop reads the clock
    and the pending rows once, and what it then does with a row depends on
    that row and on [now] only, so the pass is the list of its effects in
    program order, run against the database and the queue of callables
    handed to [wx.CallAfter].  Each [show_popup] is identified with the row
    it captured ([rem=r]).  The rowids the loop hands to
    [mark_reminder_notified] were read from the table: they are INTEGERs,
    for which the helper returns. *)

Inductive effect : Type :=
| MarkNotified (rem_id : Z)
| CallAfter (rem : row).

Fixpoint check_rows (now : datetime) (rows : list row) : list effect :=
  match rows with
  | [] => []
  | r :: rest =>
      match strptime (remind_datetime r) with
      | None => check_rows now rest
      | Some rem_dt =>
          if datetime_ge now rem_dt
          then MarkNotified (id r) :: CallAfter r :: check_rows now rest
          else check_rows now rest
      end
  end.

Record world : Type := mk_world {
  db : database;
  call_after : list row
}.

Definition perform (w : world) (e : effect) : world :=
  match e with
  | MarkNotified rem_id =>
      mk_world (snd (mark_reminder_notified rem_id (db w))) (call_after w)
  | CallAfter rem =>
      mk_world (db w) (call_after w ++ [rem])
  end.

Definition run (es : list effect) (w : world) : world := fold_left perform es w.

Definition cycle_effects (now : datetime) (w : world) : list effect :=
  check_rows now (get_reminders_from_db false (db w)).

Definition poll_cycle (now : datetime) (w : world) : world :=
  run (cycle_effects now w) w.

(** A pass that the process does not survive: only the first [k] effects
    took place. *)
Definition crashed_cycle (k : nat) (now : datetime) (w : world) : world :=
  run (firstn k (cycle_effects now w)) w.

(** The next start of the program: the table is on disk, the queue is not. *)
Definition restart (w : world) : world := mk_world (db w) [].

(** Number of notifications queued for a rowid. *)
Definition dispatched (rem_id : Z) (w : world) : nat :=
  List.length (filter (fun r => id r =? rem_id) (call_after w)).

(** ** The GUI handlers that create and delete reminders *)

Record message_box : Type := MessageBox {
  message : string;
  caption : string
}.

(** What a handler of the reminder forms leaves behind: the message box it
    shows, or the exception it lets escape. *)
Inductive shown : Type :=
| Shows (box : message_box)
| Escapes (exc : string).

Definition is_empty (s : string) : bool :=
  match s with EmptyString => true | _ => false end.

Record reminder_form : Type := mk_form {
  rem_med_name : string;
  rem_dose : string;
  rem_datetime : string;
  rem_note : string
}.

Definition on_add_reminder (f : reminder_form) (d : database)
    : shown * database :=
  let name := strip (rem_med_name f) in
  let dose := strip (rem_dose f) in
  let dt_str := strip (rem_datetime f) in
  let note := strip (rem_note f) in
  if is_empty name || is_empty dt_str then
    (Shows (MessageBox "Enter medicine name and date/time." "Error"), d)
  else
    match strptime dt_str with
    | None =>
        (Shows (MessageBox "Date/time must be in format YYYY-MM-DD HH:MM"
                  "Error"), d)
    | Some _ =>
        match add_reminder_to_db name dose dt_str note d with
        | (Returned _, d') => (Shows (MessageBox "Reminder added." "OK"), d')
        | (Raised exc, d') => (Escapes exc, d')
        end
    end.

Record quick_form : Type := mk_quick {
  quick_med_name : string;
  quick_dose : string;
  quick_dt : string
}.

Definition on_quick_add_reminder (f : quick_form) (d : database)
    : shown * database :=
  let med := strip (quick_med_name f) in
  let dose := strip (quick_dose f) in
  let dt := strip (quick_dt f) in
  let note := "" in
  if is_empty med || is_empty dt then
    (Shows (MessageBox "Enter medicine name and date/time (YYYY-MM-DD HH:MM)."
              "Error"), d)
  else
    match strptime dt with
    | None =>
        (Shows (MessageBox "Date/time must be in format YYYY-MM-DD HH:MM"
                  "Error"), d)
    | Some _ =>
        match add_reminder_to_db med dose dt note d with
        | (Returned _, d') => (Shows (MessageBox "Reminder added." "OK"), d')
        | (Raised exc, d') => (Escapes exc, d')
        end
    end.

(** [on_delete_reminder], once a row is selected and the dialog confirmed;
    an exception of the helper escapes and leaves the table as it is. *)
Definition on_delete_reminder (rem_id : Z) (d : database) : database :=
  snd (delete_reminder_from_db rem_id d).

(** ** What the running program does to the world *)

Inductive action : Type :=
| AddReminder (f : reminder_form)
| QuickAddReminder (f : quick_form)
| DeleteReminder (rem_id : Z)
| Poll (now : datetime).

Definition step (w : world) (a : action) : world :=
  match a with
  | AddReminder f => mk_world (snd (on_add_reminder f (db w))) (call_after w)
  | QuickAddReminder f =>
      mk_world (snd (on_quick_add_reminder f (db w))) (call_after w)
  | DeleteReminder rem_id =>
      mk_world (on_delete_reminder rem_id (db w)) (call_after w)
  | Poll now => poll_cycle now w
  end.

(** The worlds the program goes through, the first one included. *)
Fixpoint trajectory (w : world) (acts : list action) : list world :=
  match acts with
  | [] => [w]
  | a :: rest => w :: trajectory (step w a) rest
  end.

Definition execute (acts : list action) (w : world) : world :=
  fold_left step acts w.

(** ** The integrity of the table *)

(** The integrity the table has by construction: rowids are INTEGERs of
    SQLite and ascend (PRIMARY KEY, rowid order), none exceeds the
    AUTOINCREMENT counter, and [notified] holds one of the two values the
    program writes. *)
Definition row_ok (seq : Z) (r : row) : Prop :=
  sqlite_integer (id r) = true
  /\ id r <= seq /\ (notified r = 0 \/ notified r = 1).

Definition db_ok (d : database) : Prop :=
  StronglySorted Z.lt (map id (reminders d))
  /\ Forall (row_ok (sqlite_sequence d)) (reminders d).

(** ** Notions the statements are written with *)

(** The order of the ORDER BY clause on two rows. *)
Definition text_le (a b : row) : Prop :=
  String.leb (remind_datetime a) (remind_datetime b) = true.

Fixpoint has_shape (sh : list (ascii -> bool)) (s : string) : bool :=
  match sh, s with
  | [], EmptyString => true
  | p :: sh', String c s' => p c && has_shape sh' s'
  | _, _ => false
  end.

(** The text is written [dddd-dd-dd dd:dd]. *)
Definition padded (s : string) : bool :=
  has_shape
    [is_digit; is_digit; is_digit; is_digit; Ascii.eqb "-";
     is_digit; is_digit; Ascii.eqb "-"; is_digit; is_digit; Ascii.eqb " ";
     is_digit; is_digit; Ascii.eqb ":"; is_digit; is_digit] s.

(** Rows earlier in the list have earlier (or equal) parsed times. *)
Definition time_le (a b : row) : Prop :=
  forall ta tb,
    strptime (remind_datetime a) = Some ta ->
    strptime (remind_datetime b) = Some tb ->
    datetime_ge tb ta = true.

(** The test the loop makes on a row: the text parses, and [now >= rem_dt]. *)
Definition due (now : datetime) (r : row) : bool :=
  match strptime (remind_datetime r) with
  | Some rem_dt => datetime_ge now rem_dt
  | None => false
  end.

(** The rowids marked by a list of effects, and the rows queued by it. *)
Fixpoint marks (es : list effect) : list Z :=
  match es with
  | [] => []
  | MarkNotified i :: rest => i :: marks rest
  | CallAfter _ :: rest => marks rest
  end.

Fixpoint calls (es : list effect) : list row :=
  match es with
  | [] => []
  | MarkNotified _ :: rest => calls rest
  | CallAfter r :: rest => r :: calls rest
  end.

(** What marking the rowids [ids] does to a row. *)
Definition mark_row (ids : list Z) (r : row) : row :=
  if existsb (Z.eqb (id r)) ids then set_notified r else r.

(** What a pass run at [now] does to a row of a well-formed table: it
    marks the row when it is pending and passes the test. *)
Definition fire (now : datetime) (r : row) : row :=
  if pending r && due now r then set_notified r else r.

(** The notifications a pass adds for one rowid. *)
Definition fresh_calls (i : Z) (now : datetime) (d : database) : nat :=
  match lookup i d with
  | Some r => if pending r && due now r then 1%nat else 0%nat
  | None => 0%nat
  end.

(** How many rows of a list have the rowid. *)
Definition count_id (i : Z) (l : list row) : nat :=
  List.length (filter (fun r => id r =? i) l).

(** The row functions that leave a row as it is or set its flag. *)
Definition flags (g : row -> row) : Prop :=
  forall r, g r = r \/ g r = set_notified r.

(** ** The life of a rowid

    A rowid is first unused (above the AUTOINCREMENT counter), then names a
    pending row, then a fired row, then nothing again; every action of
    the program moves it forward or leaves it. *)

Definition phase (i : Z) (w : world) : nat :=
  match lookup i (db w) with
  | Some r => if fired r then 2%nat else 1%nat
  | None => if i <=? sqlite_sequence (db w) then 3%nat else 0%nat
  end.

(** The [notified] flag of a rowid, when it names a row. *)
Definition fired_at (i : Z) (w : world) : option bool :=
  option_map fired (lookup i (db w)).

(** The flag is false in [w] and true in [w']. *)
Definition rises (i : Z) (w w' : world) : bool :=
  match fired_at i w, fired_at i w' with
  | Some false, Some true => true
  | _, _ => false
  end.

(** The flag is true in [w] and false in [w']. *)
Definition falls (i : Z) (w w' : world) : bool :=
  match fired_at i w, fired_at i w' with
  | Some true, Some false => true
  | _, _ => false
  end.

(** How many consecutive pairs of a list of worlds satisfy [p]. *)
Fixpoint count_steps (p : world -> world -> bool) (ws : list world) : nat :=
  match ws with
  | [] => 0%nat
  | w :: rest =>
      match rest with
      | [] => 0%nat
      | w' :: _ => ((if p w w' then 1 else 0) + count_steps p rest)%nat
      end
  end.

(** What one action does to one rowid: where it stands afterwards, and how
    many notifications were queued for it. *)
Record step_ok (i : Z) (w : world) (a : action) : Prop := {
  step_db_ok : db_ok (db (step w a));
  step_forward : (phase i w <= phase i (step w a))%nat;
  step_queue :
    dispatched i (step w a)
    = (dispatched i w
       + if (phase i w =? 1)%nat && (phase i (step w a) =? 2)%nat
         then 1 else 0)%nat;
  step_cause :
    phase i w = 1%nat -> phase i (step w a) = 2%nat ->
    exists now r rem_dt,
      a = Poll now /\ lookup i (db w) = Some r
      /\ strptime (remind_datetime r) = Some rem_dt
      /\ datetime_ge now rem_dt = true
}.

(** What a group of the regular expression can have consumed: two digits,
    one digit, or a blank and a digit. *)
Inductive took (s : string) (v : Z) (s' : string) : Prop :=
| took_two (c1 c2 : ascii) :
    s = String c1 (String c2 s') ->
    is_digit c1 = true -> is_digit c2 = true ->
    v = 10 * digit_value c1 + digit_value c2 -> took s v s'
| took_one (c1 : ascii) :
    s = String c1 s' -> is_digit c1 = true -> v = digit_value c1 ->
    took s v s'
| took_blank (c : ascii) :
    s = String " " (String c s') -> v = digit_value c -> took s v s'.

(** ** Concrete tables and times *)

(** The spec's scenario: Aspirin due at 08:00, polled at 08:05. *)
Definition aspirin_db : database :=
  snd (add_reminder_to_db "Aspirin" "1 tablet" "2024-01-01 08:00" "" init_db).

Definition aspirin : row :=
  mk_row 1 "Aspirin" "1 tablet" "2024-01-01 08:00" 0 "".

Definition t_0805 : datetime := mk_datetime 2024 1 1 8 5 0 0.

Definition t_0759 : datetime := mk_datetime 2024 1 1 7 59 0 0.

Definition aspirin_world : world := mk_world aspirin_db [].

Definition aspirin_form : reminder_form :=
  mk_form "  Aspirin " "1 tablet" " 2024-01-01 08:00  " "".

(** A reminder that was due long before the program is started. *)
Definition insulin : row :=
  mk_row 1 "Insulin" "10 units" "1999-12-31 23:59" 0 "".

Definition insulin_db : database :=
  snd (add_reminder_to_db "Insulin" "10 units" "1999-12-31 23:59" "" init_db).

(** A row whose text is no timestamp. *)
Definition tomorrow : row := mk_row 1 "Iron" "1 pill" "tomorrow" 0 "".

Definition tomorrow_db : database :=
  snd (add_reminder_to_db "Iron" "1 pill" "tomorrow" "" init_db).

(** Two zero-padded reminders, stored latest first. *)
Definition two_db : database :=
  snd (add_reminder_to_db "Iron" "1 pill" "2024-01-01 08:00" ""
    (snd (add_reminder_to_db "Aspirin" "1 tablet" "2024-10-01 21:30" ""
       init_db))).

Definition busy_day : list action :=
  [Poll t_0759; Poll t_0805;
   AddReminder (mk_form "Iron" "1 pill" "2024-01-02 09:00" "");
   Poll t_0805; DeleteReminder 1; Poll t_0805].

(** ** Notions for the further properties *)

(** What the two forms check before they store a reminder. *)
Definition entered_ok (r : row) : Prop :=
  med_name r <> "" /\ strptime (remind_datetime r) <> None.

(** ** Doctors and their schedules *)

Record doctor : Type := mk_doctor {
  d_id : Z;
  d_name : string;
  d_specialty : string;
  schedule : list Z
}.

(** Weekdays are numbered from Monday = 0 to Sunday = 6. *)
Definition DOCTORS : list doctor :=
  [ mk_doctor 1 "Dr. Meera Sharma" "Child Specialist" [0; 1; 2; 3; 4];
    mk_doctor 2 "Dr. Ravi Patil" "General Physician" [0; 1; 2; 3; 4; 5];
    mk_doctor 3 "Dr. Aisha Khan" "Dermatologist" [1; 3; 5];
    mk_doctor 4 "Dr. Kartik Rao" "Orthopedic" [0; 2; 4] ].

Definition find_doctor_by_id (did : Z) : option doctor :=
  find (fun d => d_id d =? did) DOCTORS.

(** ** datetime.date and its weekday *)

Record pydate : Type := mk_date {
  date_year : Z; date_month : Z; date_day : Z
}.

(** Days before January 1st of the year. *)
Definition days_before_year (y : Z) : Z :=
  let y := y - 1 in y * 365 + y / 4 - y / 100 + y / 400.

Definition DAYS_BEFORE_MONTH : list Z :=
  [0; 0; 31; 59; 90; 120; 151; 181; 212; 243; 273; 304; 334].

(** Days of the year before the first day of the month. *)
Definition days_before_month (y m : Z) : Z :=
  nth (Z.to_nat m) DAYS_BEFORE_MONTH 0
  + (if (2 <? m) && is_leap y then 1 else 0).

(** [date.toordinal()]: January 1st of year 1 is day 1. *)
Definition toordinal (d : pydate) : Z :=
  days_before_year (date_year d)
  + days_before_month (date_year d) (date_month d) + date_day d.

(** [date.weekday()] *)
Definition weekday (d : pydate) : Z := (toordinal d + 6) mod 7.

Definition is_doctor_available_on (doc : doctor) (date_obj : pydate) : bool :=
  let w := weekday date_obj in
  existsb (Z.eqb w) (schedule doc).

(** ** strptime with the formats of the booking form *)

(** [datetime.datetime.strptime(text, "%Y-%m-%d").date()]: the expression is
    that of the date part above, and the match must reach the end. *)
Definition date_regex : matcher pydate :=
  Y <- re_Y ;; _ <- m_lit "-" ;;
  m <- re_m ;; _ <- m_lit "-" ;;
  d <- re_d ;;
  m_ret (mk_date Y m d).

Definition strptime_date (text : string) : option pydate :=
  match date_regex text with
  | [] => None
  | (t, rest) :: _ =>
      match rest with
      | EmptyString =>
          if (1 <=? date_year t)
             && (date_day t <=? days_in_month (date_year t) (date_month t))
          then Some t else None
      | String _ _ => None
      end
  end.

(** [datetime.datetime.strptime(text, "%H:%M")]: the date is 1900-01-01. *)
Definition time_regex : matcher datetime :=
  H <- re_H ;; _ <- m_lit ":" ;;
  M <- re_M ;;
  m_ret (mk_datetime 1900 1 1 H M 0 0).

Definition strptime_time (text : string) : option datetime :=
  match time_regex text with
  | [] => None
  | (t, rest) :: _ =>
      match rest with
      | EmptyString => Some t
      | String _ _ => None
      end
  end.

(** ** The [appointments] table

      CREATE TABLE appointments (id INTEGER PRIMARY KEY AUTOINCREMENT,
        patient_name TEXT NOT NULL, doctor_id INTEGER NOT NULL,
        specialty TEXT NOT NULL, date TEXT NOT NULL, time TEXT NOT NULL,
        notes TEXT) *)

Record appointment : Type := mk_appointment {
  app_id : Z;
  patient_name : string;
  doctor_id : Z;
  specialty : string;
  app_date : string;
  app_time : string;
  notes : string
}.

Record appointments_db : Type := mk_appointments_db {
  appointments : list appointment;
  appointments_seq : Z
}.

Definition no_appointments : appointments_db := mk_appointments_db [] 0.

(** A stable insertion sort, for the ORDER BY of a scan in rowid order. *)
Section StableSort.
Context {A : Type} (leb : A -> A -> bool).

Fixpoint insert_by (x : A) (l : list A) : list A :=
  match l with
  | [] => [x]
  | y :: rest => if leb x y then x :: l else y :: insert_by x rest
  end.

Fixpoint sort_by (l : list A) : list A :=
  match l with
  | [] => []
  | x :: rest => insert_by x (sort_by rest)
  end.
End StableSort.

(** ORDER BY date, time: the date texts in byte order, then the time texts. *)
Definition date_time_leb (a b : appointment) : bool :=
  match String.compare (app_date a) (app_date b) with
  | Lt => true
  | Gt => false
  | Eq => String.leb (app_time a) (app_time b)
  end.

Definition add_appointment
    (patient_name : string) (doctor_id : Z)
    (specialty date_str time_str notes : string) (t : appointments_db)
    : outcome * appointments_db :=
  let rowid := appointments_seq t + 1 in
  if negb (sqlite_integer doctor_id) then (Raised "OverflowError", t)
  else if negb (sqlite_integer rowid) then (Raised "OperationalError", t)
  else
    (Returned PyNone,
     mk_appointments_db
       (appointments t
        ++ [mk_appointment rowid patient_name doctor_id specialty
              date_str time_str notes])
       rowid).

Definition get_appointments (t : appointments_db) : list appointment :=
  sort_by date_time_leb (appointments t).

Definition delete_appointment (id : Z) (t : appointments_db)
    : outcome * appointments_db :=
  if sqlite_integer id then
    (Returned PyNone,
     mk_appointments_db
       (filter (fun a => negb (app_id a =? id)) (appointments t))
       (appointments_seq t))
  else (Raised "OverflowError", t).

(** ** The booking form *)

(** [l[i]] of a Python list: a negative index counts from the end, an index
    out of range raises [IndexError] ([None]). *)
Definition py_index {A} (l : list A) (i : Z) : option A :=
  let n := Z.of_nat (List.length l) in
  if (0 <=? i) && (i <? n) then nth_error l (Z.to_nat i)
  else if (- n <=? i) && (i <? 0) then nth_error l (Z.to_nat (i + n))
  else None.

(** What a handler leaves behind: the text it puts in its status label, or
    the exception it lets escape. *)
Inductive handled : Type :=
| Label (status : string)
| Uncaught (exc : string).

Record book_form : Type := mk_book_form {
  book_name : string;
  book_doctor : Z;
  book_specialty : string;
  book_date : string;
  book_time : string;
  book_notes : string
}.

(** The doctor the form stands for: the one selected, unless a specialty is
    chosen and some doctor has it. *)
Definition chosen_doctor (doc : doctor) (specialty_choice : string)
    : doctor :=
  if is_empty specialty_choice then doc
  else
    match find (fun d => String.eqb (d_specialty d) specialty_choice) DOCTORS with
    | Some alt => alt
    | None => doc
    end.

(** The test of the loop over [get_appointments()]. *)
Definition same_slot (doc : doctor) (date_s time_s : string)
    (a : appointment) : bool :=
  (doctor_id a =? d_id doc)
  && String.eqb (app_date a) date_s && String.eqb (app_time a) time_s.

Definition on_book_appointment (f : book_form) (t : appointments_db)
    : handled * appointments_db :=
  let name := strip (book_name f) in
  let doc_idx := book_doctor f in
  let specialty_choice := book_specialty f in
  let date_s := strip (book_date f) in
  let time_s := strip (book_time f) in
  let notes := strip (book_notes f) in
  if is_empty name then (Label "Patient name is required.", t)
  else
    match strptime_date date_s, strptime_time time_s with
    | Some date_obj, Some _ =>
        match py_index DOCTORS doc_idx with
        | None => (Uncaught "IndexError", t)
        | Some doctor0 =>
            let doctor := chosen_doctor doctor0 specialty_choice in
            if negb (is_doctor_available_on doctor date_obj) then
              (Label (d_name doctor ++ " is not scheduled on that date."), t)
            else if existsb (same_slot doctor date_s time_s)
                      (get_appointments t) then
              (Label "That time is already booked with the selected doctor.", t)
            else
              match add_appointment name (d_id doctor) (d_specialty doctor)
                      date_s time_s notes t with
              | (Returned _, t') => (Label "Appointment booked!", t')
              | (Raised exc, t') => (Uncaught exc, t')
              end
        end
    | _, _ => (Label "Invalid date or time format.", t)
    end.

(** [on_delete_selected], once a row is selected and the dialog confirmed;
    an exception of the helper escapes and leaves the table as it is. *)
Definition on_delete_selected (id : Z) (t : appointments_db)
    : appointments_db :=
  snd (delete_appointment id t).

(** What the user does in the two appointment tabs. *)
Inductive desk_action : Type :=
| Book (f : book_form)
| DeleteSelected (id : Z).

Definition desk_step (t : appointments_db) (a : desk_action)
    : appointments_db :=
  match a with
  | Book f => snd (on_book_appointment f t)
  | DeleteSelected id => on_delete_selected id t
  end.

Definition desk_run (acts : list desk_action) (t : appointments_db)
    : appointments_db :=
  fold_left desk_step acts t.

(** The doctor, date text and time text of an appointment. *)
Definition slot (a : appointment) : Z * string * string :=
  (doctor_id a, app_date a, app_time a).

(** What the booking form has checked of a stored appointment. *)
Definition booked_ok (a : appointment) : Prop :=
  patient_name a <> ""
  /\ strptime_time (app_time a) <> None
  /\ exists doc date_obj,
       find_doctor_by_id (doctor_id a) = Some doc
       /\ specialty a = d_specialty doc
       /\ strptime_date (app_date a) = Some date_obj
       /\ is_doctor_available_on doc date_obj = true.

(** The order of [get_appointments] on two rows. *)
Definition date_time_le (a b : appointment) : Prop :=
  date_time_leb a b = true.

(** The label of a successful booking. *)
Definition booked : handled := Label "Appointment booked!".

Definition monday_form : book_form :=
  mk_book_form " Asha " 0 "" "2024-01-01" "10:00" "first visit".

(** A form that selects the first doctor and chooses another specialty. *)
Definition tuesday_form : book_form :=
  mk_book_form "Ravi" 0 "Dermatologist" "2024-01-02" "9:30" "".

Definition desk_day : list desk_action :=
  [Book monday_form; Book monday_form; Book tuesday_form;
   DeleteSelected 1; Book monday_form].

(** ** str.lower, the substring test and re.findall(r"\w+", ...) *)

(** [str.lower()], character by character: A..Z and the capital letters of
    Latin-1 move 32 places up. *)
Definition lower_char (c : ascii) : ascii :=
  if in_range 65 90 c || in_range 192 214 c || in_range 216 222 c
  then ascii_of_N (N_of_ascii c + 32) else c.

Fixpoint lower (s : string) : string :=
  match s with
  | EmptyString => EmptyString
  | String c rest => String (lower_char c) (lower rest)
  end.

(** [sub in s] *)
Fixpoint py_in (sub s : string) : bool :=
  String.prefix sub s
  || match s with
     | EmptyString => false
     | String _ rest => py_in sub rest
     end.

(** [\w] of a [str] pattern: letters, digits and the underscore. *)
Definition is_word (c : ascii) : bool :=
  in_range 48 57 c || in_range 65 90 c || (code c =? 95) || in_range 97 122 c
  || (code c =? 170) || in_range 178 179 c || (code c =? 181)
  || in_range 185 186 c || in_range 188 190 c
  || in_range 192 214 c || in_range 216 246 c || in_range 248 255 c.

(** The run of word characters at the head of [s], and the runs after it. *)
Fixpoint scan_words (s : string) : string * list string :=
  match s with
  | EmptyString => (EmptyString, [])
  | String c rest =>
      let '(run, ws) := scan_words rest in
      if is_word c then (String c run, ws)
      else (EmptyString, if is_empty run then ws else run :: ws)
  end.

(** [re.findall(r"\w+", s)]: the maximal runs of word characters. *)
Definition findall_words (s : string) : list string :=
  let '(run, ws) := scan_words s in
  if is_empty run then ws else run :: ws.

(** ** Disease guidance *)

(** The keys of [DISEASE_GUIDANCE], in the order of the dict.  The lookup
    returns a key together with the entry stored under it, so its result is
    identified with the key. *)
Definition DISEASE_GUIDANCE : list string :=
  ["diabetes"; "hypertension"; "obesity"; "asthma"; "gerd"; "anemia"].

(** [len(set(a) & set(b))] *)
Definition common_words (a b : list string) : Z :=
  Z.of_nat (List.length
    (nodup string_dec (filter (fun w => existsb (String.eqb w) b) a))).

(** The loop that keeps the key with the greatest count of common words. *)
Definition best_overlap (q_words : list string) : option string * Z :=
  fold_left
    (fun '(best, best_score) key =>
       let score := common_words q_words (findall_words key) in
       if best_score <? score then (Some key, score) else (best, best_score))
    DISEASE_GUIDANCE (None, 0).

Definition related (q key : string) : bool := py_in q key || py_in key q.

Definition lookup_disease_guidance (query : string) : option string :=
  if is_empty query then None
  else
    let q := lower (strip query) in
    if existsb (String.eqb q) DISEASE_GUIDANCE then Some q
    else
      match find (related q) DISEASE_GUIDANCE with
      | Some key => Some key
      | None =>
          let '(best, best_score) := best_overlap (findall_words q) in
          if 0 <? best_score then best else None
      end.

(** ** Python floats

    A Python [float] is an IEEE binary64 number, here a primitive float. *)

(** The float of a small non-negative [int]. *)
Definition float_of_int (n : Z) : PrimFloat.float :=
  PrimFloat.of_uint63 (Uint63.of_Z n).

(** [int(x)] of a finite float: the integer part, towards zero. *)
Definition int_of_float (x : PrimFloat.float) : Z :=
  match FloatOps.Prim2SF x with
  | SpecFloat.S754_finite s m e =>
      let v := if 0 <=? e then Z.pos m * 2 ^ e else Z.pos m / 2 ^ (- e) in
      if s then - v else v
  | _ => 0
  end.

(** ** The symptom checker *)

(** The dict of rules, in its order. *)
Definition SYMPTOM_RULES : list (string * list string) :=
  [ ("fever", ["Flu"; "Viral infection"; "COVID-19 (consider testing)"]);
    ("cough", ["Common cold"; "Bronchitis"; "COVID-19"]);
    ("rash", ["Allergic reaction"; "Dermatitis"; "Chickenpox (if spots)"]);
    ("stomach", ["Gastritis"; "Food poisoning"; "Appendicitis (severe, see doc)"]);
    ("headache", ["Migraine"; "Tension headache"; "Dehydration"]);
    ("pain", ["Muscle strain"; "Sprain"; "Orthopedic issue (if joints)"]);
    ("sore throat", ["Strep throat"; "Common cold"]);
    ("breath", ["Asthma"; "Bronchitis"; "Pneumonia (if severe)"]) ].

(** [found[c] = found.get(c, 0) + 1] on a dict, which keeps its keys in the
    order of their first insertion. *)
Fixpoint bump (c : string) (found : list (string * Z)) : list (string * Z) :=
  match found with
  | [] => [(c, 1)]
  | (k, n) :: rest =>
      if String.eqb k c then (k, n + 1) :: rest else (k, n) :: bump c rest
  end.

(** The loop over the rules; [hit symptom] is [symptom in text_lower]. *)
Definition count_conditions (hit : string -> bool) : list (string * Z) :=
  fold_left
    (fun found '(symptom, conds) =>
       if hit symptom then fold_left (fun f c => bump c f) conds found
       else found)
    SYMPTOM_RULES [].

(** The key [-x[1]] of the sort: greater counts first. *)
Definition score_leb (a b : string * Z) : bool := - snd a <=? - snd b.

(** [int((score / total) * 100)] *)
Definition confidence (score total : Z) : Z :=
  int_of_float
    (PrimFloat.mul (PrimFloat.div (float_of_int score) (float_of_int total))
       (float_of_int 100)).

Definition rank_conditions (found : list (string * Z)) : list (string * Z) :=
  match found with
  | [] => [("No matches found", 0)]
  | _ =>
      let sorted_found := sort_by score_leb found in
      let total := fold_right Z.add 0 (map snd found) in
      map (fun '(cond, score) => (cond, confidence score total)) sorted_found
  end.

Definition analyze_symptoms (text : string) : list (string * Z) :=
  let text_lower := lower text in
  rank_conditions (count_conditions (fun symptom => py_in symptom text_lower)).

(** The conditions of the rules whose symptom is hit. *)
Definition hit_conditions (hit : string -> bool) : list string :=
  flat_map (fun '(symptom, conds) => if hit symptom then conds else [])
    SYMPTOM_RULES.


(** Decidable forms of the statements about a ranking. *)
Fixpoint descending (l : list Z) : bool :=
  match l with
  | [] => true
  | a :: rest => forallb (fun b => b <=? a) rest && descending rest
  end.

Definition mem (c : string) (l : list string) : bool :=
  existsb (String.eqb c) l.

Fixpoint distinct (l : list string) : bool :=
  match l with
  | [] => true
  | c :: rest => negb (mem c rest) && distinct rest
  end.

Definition same_members (l1 l2 : list string) : bool :=
  forallb (fun c => mem c l2) l1 && forallb (fun c => mem c l1) l2.


(** ** The chatbot *)

(** [upper()] and the test for a cased character, on ASCII text: they are
    applied to the day names and to the lowered specialties only. *)
Definition upper_char (c : ascii) : ascii :=
  if in_range 97 122 c then ascii_of_N (N_of_ascii c - 32) else c.

Definition is_letter (c : ascii) : bool :=
  in_range 65 90 c || in_range 97 122 c.

(** [str.capitalize()] *)
Definition capitalize (s : string) : string :=
  match s with
  | EmptyString => EmptyString
  | String c rest => String (upper_char c) (lower rest)
  end.

(** [str.title()]: upper case after a character that is not cased, lower
    case after one that is. *)
Fixpoint title_from (prev_cased : bool) (s : string) : string :=
  match s with
  | EmptyString => EmptyString
  | String c rest =>
      String (if prev_cased then lower_char c else upper_char c)
        (title_from (is_letter c) rest)
  end.

Definition title (s : string) : string := title_from false s.

(** The dash of the replies, U+2014, is outside Latin-1: it is written as
    the three bytes of the source file.  The replies are only produced, the
    code never reads them. *)
Definition dash : string := "—".

Definition newline : string := String "010"%char EmptyString.

(** The dict [days], in its order. *)
Definition days : list (string * Z) :=
  [ ("monday", 0); ("tuesday", 1); ("wednesday", 2); ("thursday", 3);
    ("friday", 4); ("saturday", 5); ("sunday", 6) ].

Definition day_abbreviations : list string :=
  ["Mon"; "Tue"; "Wed"; "Thu"; "Fri"; "Sat"; "Sun"].

(** The elements of [set(d["specialty"].lower() for d in DOCTORS)]; the order
    in which a loop meets them is not fixed, it changes with the hash seed
    of the process. *)
Definition specialities_set : list string :=
  nodup string_dec (map (fun d => lower (d_specialty d)) DOCTORS).

(** The line of one doctor in the list of all of them. *)
Definition doctor_line (d : doctor) : string :=
  let days_names :=
    String.concat ", "
      (map (fun i => match py_index day_abbreviations i with
                     | Some a => a
                     | None => ""
                     end)
         (schedule d)) in
  d_name d ++ " " ++ dash ++ " " ++ d_specialty d
    ++ " (Scheduled: " ++ days_names ++ ")".

(** The replies that do not depend on a day. *)
Definition small_talk (m : string) : string :=
  if String.prefix "book" m || (py_in "book" m && py_in "appointment" m) then
    "I can help book " ++ dash
      ++ " open the 'Book Appointment' tab and enter patient name, choose doctor or specialty, date and time. I'll save it there."
  else if py_in "doctors" m || py_in "specialist" m || py_in "specialists" m
  then
    "Available doctors:" ++ newline
      ++ String.concat newline (map doctor_line DOCTORS)
  else if py_in "hello" m || py_in "hi" m then
    "Hi " ++ dash
      ++ " I'm the local assistant. Ask me about doctor availability or how to book an appointment."
  else
    "Sorry, I didn't understand. Try asking: 'Will child specialist be available on Sunday?' or 'How do I book an appointment?'".

(** The reply about a doctor found by name. *)
Definition doctor_reply (d : doctor) (day_name : string) (day_idx : Z)
    : string :=
  let available := existsb (Z.eqb day_idx) (schedule d) in
  if available then
    "Yes " ++ dash ++ " " ++ d_name d ++ " (" ++ d_specialty d
      ++ ") is scheduled on " ++ capitalize day_name ++ "."
  else
    "No " ++ dash ++ " " ++ d_name d ++ " is not scheduled on "
      ++ capitalize day_name ++ ".".

(** The reply about a specialty. *)
Definition specialty_reply (s : string) (day_name : string) (day_idx : Z)
    : string :=
  let available_docs :=
    filter (fun d => String.eqb (lower (d_specialty d)) s
                     && existsb (Z.eqb day_idx) (schedule d))
      DOCTORS in
  match available_docs with
  | _ :: _ =>
      let names := String.concat ", " (map d_name available_docs) in
      "Yes. " ++ names ++ " are scheduled on " ++ capitalize day_name
        ++ " for " ++ title s ++ "."
  | [] =>
      "No doctors for " ++ title s ++ " are scheduled on "
        ++ capitalize day_name ++ "."
  end.

(** The three searches of [chatbot_reply]: each loop stops at the first
    element found in the message. *)
Definition day_found (m : string) : option (string * Z) :=
  find (fun '(name, _) => py_in name m) days.

Definition specialty_found (specialities : list string) (m : string)
    : option string :=
  find (fun s => py_in s m) specialities.

Definition doctor_found (m : string) : option doctor :=
  find (fun d => py_in (lower (d_name d)) m) DOCTORS.

(** [chatbot_reply(message)], in a process whose loop over the set of
    specialties meets them in the order [specialities].  The test
    [day_found and (specialty_found or doctor_found)] holds with a doctor
    found, or with a specialty found that is not the empty text. *)
Definition chatbot_reply (specialities : list string) (message : string)
    : string :=
  let m := strip (lower message) in
  match day_found m, doctor_found m, specialty_found specialities m with
  | Some (day_name, day_idx), Some d, _ => doctor_reply d day_name day_idx
  | Some (day_name, day_idx), None, Some s =>
      if is_empty s then small_talk m
      else specialty_reply s day_name day_idx
  | _, _, _ => small_talk m
  end.


(** The Monday form again, with the date and the time written without
    zero padding. *)
Definition monday_form_unpadded : book_form :=
  mk_book_form "Asha" 0 "" "2024-1-1" "10:0" "".


(** Two reminders entered through the form, September written without its
    zero. *)
Definition unpadded_entries : list action :=
  [AddReminder (mk_form "Iron" "1 pill" "2024-9-01 08:00" "");
   AddReminder (mk_form "Zinc" "" "2024-10-01 08:00" "")].

(** A run over the Aspirin table that enters two reminders, is refused a
    third, and polls. *)
Definition full_day : list action :=
  [AddReminder (mk_form " Iron " "1 pill" "2024-01-02 09:00" "");
   AddReminder (mk_form "" "" "tomorrow" "");
   QuickAddReminder (mk_quick "Zinc" "" "2024-1-3 7:05");
   Poll t_0805].

(** * Properties *)

(** ** The model on concrete inputs *)

Example strptime_padded :
  strptime "2024-01-01 08:00" = Some (mk_datetime 2024 1 1 8 0 0 0).
Proof. reflexivity. Qed.

Example strptime_unpadded :
  strptime "2024-9-1  8:5" = Some (mk_datetime 2024 9 1 8 5 0 0).
Proof. reflexivity. Qed.

Example strptime_space_day :
  strptime "2024-09- 1 08:05" = Some (mk_datetime 2024 9 1 8 5 0 0).
Proof. reflexivity. Qed.

Example strptime_accepts :
  map strptime ["2024-02-29 08:00"; "2000-02-29 00:00"; "0001-01-01 00:00";
                "2024-12-31 23:59"; "2024-10-1 8:7"]
  = [Some (mk_datetime 2024 2 29 8 0 0 0); Some (mk_datetime 2000 2 29 0 0 0 0);
     Some (mk_datetime 1 1 1 0 0 0 0); Some (mk_datetime 2024 12 31 23 59 0 0);
     Some (mk_datetime 2024 10 1 8 7 0 0)].
Proof. reflexivity. Qed.

Example strptime_rejects :
  forallb (fun text => match strptime text with None => true | _ => false end)
    ["2024-02-30 08:00"; "2023-02-29 08:00"; "1900-02-29 00:00";
     "2024-04-31 00:00"; "2024-01-01 24:00"; "2024-01-01 08:60";
     "2024-01-01 8:75"; "2024-01-01 08:00:00"; "2024-1-1 08:007";
     "0000-01-01 08:00"; "2024-13-01 08:00"; "2024-00-10 08:00";
     "2024-01-00 08:00"; "2024-1-32 8:00"; "2024-01-01T08:00";
     "2024-01-0108:00"; "2024- 1-01 08:00"; "2024-01-  1 08:00";
     " 2024-01-01 08:00"; "2024-01-01 08:00 "; "+024-01-01 08:00";
     "2024-01-01 -8:00"; "tomorrow"; ""]
  = true.
Proof. reflexivity. Qed.

(** The characters that may stand between the date and the time. *)
Example strptime_separators :
  filter (fun n => match strptime ("2024-01-01"
                                   ++ String (ascii_of_nat n) "08:00") with
                   | Some _ => true
                   | None => false
                   end) (seq 0 256)
  = [9; 10; 11; 12; 13; 28; 29; 30; 31; 32; 133; 160]%nat.
Proof. vm_compute. reflexivity. Qed.

Example strip_ex : strip "  Aspirin 1  " = "Aspirin 1".
Proof. reflexivity. Qed.

Example aspirin_first_poll :
  poll_cycle t_0805 (mk_world aspirin_db [])
  = mk_world (mk_database [set_notified aspirin] 1) [aspirin].
Proof. reflexivity. Qed.

(** A pass over a due row, a row whose text is no timestamp and a row due
    later marks and queues the first and passes over the other two. *)
Example mixed_pass :
  let d := snd (add_reminder_to_db "C" "" "2024-01-01 09:00" ""
             (snd (add_reminder_to_db "B" "" "tomorrow" ""
                (snd (add_reminder_to_db "A" "" "2024-1-1 8:00" "" init_db))))) in
  cycle_effects t_0805 (mk_world d [])
  = [MarkNotified 1; CallAfter (mk_row 1 "A" "" "2024-1-1 8:00" 0 "")]
  /\ map id (listPending (db (poll_cycle t_0805 (mk_world d [])))) = [3; 2].
Proof. split; reflexivity. Qed.

Example aspirin_second_poll :
  poll_cycle t_0805 (poll_cycle t_0805 (mk_world aspirin_db []))
  = mk_world (mk_database [set_notified aspirin] 1) [aspirin].
Proof. reflexivity. Qed.

(** ** The text order of the ORDER BY clause *)

Lemma string_compare_le_trans (a b c : string) :
  String.compare a b <> Gt -> String.compare b c <> Gt ->
  String.compare a c <> Gt.
Proof.
  revert b c.
  induction a as [|x a IH]; intros [|y b] [|z c]; simpl; try congruence.
  unfold Ascii.compare.
  destruct (N.compare_spec (N_of_ascii x) (N_of_ascii y)) as [Exy|Lxy|Gxy];
    destruct (N.compare_spec (N_of_ascii y) (N_of_ascii z)) as [Eyz|Lyz|Gyz];
    try congruence; intros Hab Hbc.
  - rewrite Exy, Eyz, N.compare_refl. now apply IH with b.
  - rewrite Exy. now apply N.compare_lt_iff in Lyz; rewrite Lyz.
  - rewrite <- Eyz. now apply N.compare_lt_iff in Lxy; rewrite Lxy.
  - assert (H : (N_of_ascii x < N_of_ascii z)%N) by lia.
    apply N.compare_lt_iff in H. now rewrite H.
Qed.

Lemma leb_trans (a b c : string) :
  String.leb a b = true -> String.leb b c = true -> String.leb a c = true.
Proof.
  unfold String.leb. intros Hab Hbc.
  pose proof (string_compare_le_trans a b c) as H.
  destruct (String.compare a b), (String.compare b c), (String.compare a c);
    try reflexivity; try discriminate; exfalso; apply H; congruence.
Qed.

Lemma text_le_trans (a b c : row) : text_le a b -> text_le b c -> text_le a c.
Proof. unfold text_le. apply leb_trans. Qed.

Lemma text_le_total (a b : row) : text_le a b \/ text_le b a.
Proof. unfold text_le. apply String.leb_total. Qed.

Lemma not_leb_text_le (a b : row) :
  String.leb (remind_datetime a) (remind_datetime b) = false -> text_le b a.
Proof.
  intros H. destruct (text_le_total a b) as [H'|H']; [|exact H'].
  unfold text_le in H'. congruence.
Qed.

(** ** ORDER BY: a stable sort *)

Lemma insert_row_perm (r : row) (l : list row) :
  Permutation (insert_row r l) (r :: l).
Proof.
  induction l as [|x l IH]; simpl; [reflexivity|].
  destruct (String.leb _ _); [reflexivity|].
  rewrite IH. apply perm_swap.
Qed.

Lemma order_by_perm (l : list row) :
  Permutation (order_by_remind_datetime l) l.
Proof.
  induction l as [|r l IH]; simpl; [reflexivity|].
  rewrite insert_row_perm. now constructor.
Qed.

Lemma order_by_In (r : row) (l : list row) :
  In r (order_by_remind_datetime l) <-> In r l.
Proof.
  split; apply Permutation_in;
    [apply order_by_perm | symmetry; apply order_by_perm].
Qed.

Lemma insert_row_sorted (r : row) (l : list row) :
  StronglySorted text_le l -> StronglySorted text_le (insert_row r l).
Proof.
  induction 1 as [|x l Hl IH Hx]; simpl.
  - repeat constructor.
  - destruct (String.leb _ _) eqn:E.
    + constructor; [now constructor|].
      constructor; [exact E|].
      eapply Forall_impl; [|exact Hx].
      intros y Hy. now apply text_le_trans with x.
    + constructor; [exact IH|].
      rewrite (Forall_forall (text_le x)). intros y Hy.
      apply (Permutation_in _ (insert_row_perm r l)) in Hy.
      destruct Hy as [<-|Hy].
      * now apply not_leb_text_le.
      * rewrite Forall_forall in Hx. now apply Hx.
Qed.

Lemma order_by_sorted (l : list row) :
  StronglySorted text_le (order_by_remind_datetime l).
Proof.
  induction l; simpl; [constructor | now apply insert_row_sorted].
Qed.

Lemma insert_row_below (r : row) (l : list row) :
  Forall (text_le r) l -> insert_row r l = r :: l.
Proof.
  destruct 1 as [|x l Hx _]; simpl; [reflexivity|].
  unfold text_le in Hx. now rewrite Hx.
Qed.

Lemma Forall_filter {A} (P : A -> Prop) (f : A -> bool) (l : list A) :
  Forall P l -> Forall P (filter f l).
Proof.
  rewrite !Forall_forall. intros H x Hx.
  apply filter_In in Hx. now apply H.
Qed.

(** Filtering commutes with the insertion into a sorted list. *)
Lemma filter_insert_row (f : row -> bool) (r : row) (l : list row) :
  StronglySorted text_le l ->
  filter f (insert_row r l)
  = if f r then insert_row r (filter f l) else filter f l.
Proof.
  induction 1 as [|x l Hl IH Hx]; simpl.
  - now destruct (f r).
  - destruct (String.leb (remind_datetime r) (remind_datetime x)) eqn:E.
    + simpl. destruct (f r); [|reflexivity].
      symmetry. apply insert_row_below.
      change (Forall (text_le r) (filter f (x :: l))).
      apply Forall_filter. constructor; [exact E|].
      eapply Forall_impl; [|exact Hx].
      intros y Hy. now apply text_le_trans with x.
    + simpl. rewrite IH.
      destruct (f x), (f r); simpl; try reflexivity.
      now rewrite E.
Qed.

Lemma filter_order_by (f : row -> bool) (l : list row) :
  filter f (order_by_remind_datetime l)
  = order_by_remind_datetime (filter f l).
Proof.
  induction l as [|r l IH]; simpl; [reflexivity|].
  rewrite filter_insert_row by apply order_by_sorted.
  rewrite IH. now destruct (f r).
Qed.

(** ** Rowids identify rows *)

Lemma sorted_ids_NoDup (l : list Z) : StronglySorted Z.lt l -> NoDup l.
Proof.
  induction 1 as [|a l _ IH Ha]; constructor; [|exact IH].
  intros Hin. rewrite Forall_forall in Ha. specialize (Ha a Hin). lia.
Qed.

Lemma db_ok_NoDup (d : database) : db_ok d -> NoDup (map id (reminders d)).
Proof. intros [H _]. now apply sorted_ids_NoDup. Qed.

Lemma lookup_Some (i : Z) (d : database) (r : row) :
  lookup i d = Some r -> In r (reminders d) /\ id r = i.
Proof.
  unfold lookup. intros H. apply find_some in H.
  destruct H as [Hin Hid]. split; [exact Hin | lia].
Qed.

Lemma lookup_None (i : Z) (d : database) (r : row) :
  lookup i d = None -> In r (reminders d) -> id r <> i.
Proof.
  unfold lookup. intros H Hin. apply (find_none _ _ H) in Hin. lia.
Qed.

Lemma filter_id_NoDup (i : Z) (l : list row) :
  NoDup (map id l) ->
  filter (fun r => id r =? i) l
  = match find (fun r => id r =? i) l with Some r => [r] | None => [] end.
Proof.
  induction l as [|x l IH]; simpl; [reflexivity|].
  intros Hnd. inversion Hnd as [|? ? Hx Hl]; subst.
  destruct (id x =? i) eqn:E.
  - f_equal. apply Z.eqb_eq in E.
    destruct (filter (fun r => id r =? i) l) as [|y ys] eqn:F; [reflexivity|].
    exfalso. assert (Hy : In y (filter (fun r => id r =? i) l))
      by (rewrite F; now left).
    apply filter_In in Hy. destruct Hy as [Hy Hid].
    apply Hx. apply Z.eqb_eq in Hid. rewrite E, <- Hid. now apply in_map.
  - now apply IH.
Qed.

Lemma filter_id_lookup (i : Z) (d : database) :
  db_ok d ->
  filter (fun r => id r =? i) (reminders d)
  = match lookup i d with Some r => [r] | None => [] end.
Proof. intros H. apply filter_id_NoDup. now apply db_ok_NoDup. Qed.

Lemma lookup_In (d : database) (r : row) :
  db_ok d -> In r (reminders d) -> lookup (id r) d = Some r.
Proof.
  intros Hok Hin.
  assert (Hf : In r (filter (fun x => id x =? id r) (reminders d)))
    by (apply filter_In; split; [exact Hin | apply Z.eqb_refl]).
  rewrite filter_id_lookup in Hf by exact Hok.
  destruct (lookup (id r) d) as [x|]; simpl in Hf; [|tauto].
  destruct Hf as [->|[]]. reflexivity.
Qed.

Lemma find_map_id (g : row -> row) (i : Z) (l : list row) :
  (forall r, id (g r) = id r) ->
  find (fun r => id r =? i) (map g l)
  = option_map g (find (fun r => id r =? i) l).
Proof.
  intros Hg. induction l as [|x l IH]; simpl; [reflexivity|].
  rewrite Hg. now destruct (id x =? i).
Qed.

Lemma map_id_preserved (g : row -> row) (l : list row) :
  (forall r, id (g r) = id r) -> map id (map g l) = map id l.
Proof.
  intros Hg. rewrite map_map. apply map_ext. exact Hg.
Qed.

(** ** The statements keep the table well formed *)

Lemma db_ok_init : db_ok init_db.
Proof. split; constructor. Qed.

Lemma flags_id (g : row -> row) (r : row) : flags g -> id (g r) = id r.
Proof. intros Hg. now destruct (Hg r) as [-> | ->]. Qed.

Lemma db_ok_map (g : row -> row) (d : database) :
  flags g -> db_ok d ->
  db_ok (mk_database (map g (reminders d)) (sqlite_sequence d)).
Proof.
  intros Hg [Hs Hb]. split; simpl.
  - rewrite map_id_preserved; [exact Hs | intros r; now apply flags_id].
  - rewrite Forall_forall in *. intros r Hr.
    apply in_map_iff in Hr. destruct Hr as [x [<- Hx]].
    specialize (Hb x Hx).
    destruct (Hg x) as [-> | ->]; [exact Hb|].
    unfold row_ok in *. simpl. intuition lia.
Qed.

Lemma db_ok_update (i : Z) (d : database) : db_ok d -> db_ok (sql_update i d).
Proof.
  apply db_ok_map. intros r. destruct (id r =? i); auto.
Qed.

Lemma sorted_map_filter (f : row -> bool) (l : list row) :
  StronglySorted Z.lt (map id l) -> StronglySorted Z.lt (map id (filter f l)).
Proof.
  induction l as [|x l IH]; simpl; [constructor|].
  intros H. inversion H as [|? ? Hl Hx]; subst.
  destruct (f x); simpl; [|now apply IH].
  constructor; [now apply IH|].
  rewrite Forall_forall in *. intros y Hy. apply Hx.
  apply in_map_iff in Hy. destruct Hy as [z [<- Hz]].
  apply filter_In in Hz. apply in_map. tauto.
Qed.

Lemma db_ok_delete (i : Z) (d : database) : db_ok d -> db_ok (sql_delete i d).
Proof.
  intros [Hs Hb]. split; simpl.
  - now apply sorted_map_filter.
  - now apply Forall_filter.
Qed.

Lemma sorted_snoc (l : list Z) (a : Z) :
  StronglySorted Z.lt l -> Forall (fun x => x < a) l ->
  StronglySorted Z.lt (l ++ [a]).
Proof.
  induction 1 as [|x l Hl IH Hx]; simpl; intros Ha.
  - repeat constructor.
  - inversion Ha; subst. constructor; [now apply IH|].
    apply Forall_app. split; [exact Hx | now repeat constructor].
Qed.

Lemma db_ok_insert (m ds dt nt : string) (d : database) :
  db_ok d -> sqlite_integer (sqlite_sequence d + 1) = true ->
  db_ok (sql_insert m ds dt nt d).
Proof.
  intros [Hs Hb] Hr. split; simpl.
  - rewrite map_app. simpl. apply sorted_snoc; [exact Hs|].
    rewrite Forall_forall in *. intros x Hx.
    apply in_map_iff in Hx. destruct Hx as [r [<- Hin]].
    specialize (Hb r Hin). unfold row_ok in Hb. lia.
  - apply Forall_app. split.
    + eapply Forall_impl; [|exact Hb]. unfold row_ok. intros; intuition lia.
    + constructor; [|constructor].
      unfold row_ok. simpl. split; [exact Hr | lia].
Qed.

(** ** What the statements do to one rowid *)

Lemma lookup_update (i j : Z) (d : database) :
  lookup j (sql_update i d)
  = if j =? i then option_map set_notified (lookup j d) else lookup j d.
Proof.
  unfold lookup, sql_update. simpl.
  rewrite find_map_id by (intros r; now destruct (id r =? i)).
  destruct (find (fun r => id r =? j) (reminders d)) as [r|] eqn:F; simpl.
  - apply find_some in F. destruct F as [_ F]. apply Z.eqb_eq in F. subst j.
    now destruct (id r =? i).
  - now destruct (j =? i).
Qed.

Lemma find_filter_other (i j : Z) (l : list row) :
  i <> j ->
  find (fun r => id r =? j) (filter (fun r => negb (id r =? i)) l)
  = find (fun r => id r =? j) l.
Proof.
  intros Hij. induction l as [|x l IH]; simpl; [reflexivity|].
  destruct (id x =? i) eqn:Ei; simpl.
  - apply Z.eqb_eq in Ei.
    destruct (id x =? j) eqn:Ej; [apply Z.eqb_eq in Ej; lia | exact IH].
  - destruct (id x =? j); [reflexivity | exact IH].
Qed.

Lemma lookup_delete (i j : Z) (d : database) :
  lookup j (sql_delete i d) = if j =? i then None else lookup j d.
Proof.
  unfold lookup, sql_delete. simpl.
  destruct (j =? i) eqn:E.
  - apply Z.eqb_eq in E. subst j.
    destruct (find _ _) as [r|] eqn:F; [|reflexivity].
    apply find_some in F. destruct F as [Hin Hid].
    apply filter_In in Hin. destruct Hin as [_ Hn].
    rewrite Hid in Hn. discriminate.
  - apply find_filter_other. apply Z.eqb_neq in E. lia.
Qed.

Lemma find_app_None (f : row -> bool) (l l' : list row) :
  find f l = None -> find f (l ++ l') = find f l'.
Proof.
  induction l as [|x l IH]; simpl; [reflexivity|].
  destruct (f x); [discriminate | exact IH].
Qed.

Lemma find_app_Some (f : row -> bool) (l l' : list row) (r : row) :
  find f l = Some r -> find f (l ++ l') = Some r.
Proof.
  induction l as [|x l IH]; simpl; [discriminate|].
  destruct (f x); [trivial | exact IH].
Qed.

Lemma lookup_beyond (j : Z) (d : database) :
  db_ok d -> sqlite_sequence d < j -> lookup j d = None.
Proof.
  intros [_ Hb] Hj. unfold lookup.
  destruct (find _ _) as [r|] eqn:F; [|reflexivity].
  apply find_some in F. destruct F as [Hin Hid].
  rewrite Forall_forall in Hb. specialize (Hb r Hin).
  unfold row_ok in Hb. lia.
Qed.

Lemma lookup_insert (m ds dt nt : string) (j : Z) (d : database) :
  db_ok d ->
  lookup j (sql_insert m ds dt nt d)
  = if j =? sqlite_sequence d + 1
    then Some (mk_row (sqlite_sequence d + 1) m ds dt 0 nt)
    else lookup j d.
Proof.
  intros Hok. unfold sql_insert. unfold lookup at 1. simpl.
  destruct (j =? sqlite_sequence d + 1) eqn:E.
  - apply Z.eqb_eq in E.
    rewrite find_app_None.
    + simpl. subst j. now rewrite Z.eqb_refl.
    + apply (lookup_beyond j d Hok). lia.
  - destruct (lookup j d) as [r|] eqn:F.
    + unfold lookup in F. now apply find_app_Some.
    + unfold lookup in F. rewrite find_app_None by exact F.
      simpl. rewrite Z.eqb_sym, E. reflexivity.
Qed.

(** ** The helpers, one call at a time *)

Lemma filter_all {A} (f : A -> bool) (l : list A) :
  (forall x, In x l -> f x = true) -> filter f l = l.
Proof.
  induction l as [|x l IH]; simpl; intros H; [reflexivity|].
  rewrite (H x) by now left. f_equal. apply IH. intros y Hy. apply H. now right.
Qed.

Lemma map_unchanged {A} (g : A -> A) (l : list A) :
  (forall x, In x l -> g x = x) -> map g l = l.
Proof.
  intros H. rewrite <- (map_id l) at 2. now apply map_ext_in.
Qed.

Lemma set_notified_fired (seq : Z) (r : row) :
  row_ok seq r -> fired r = true -> set_notified r = r.
Proof.
  unfold row_ok, fired, set_notified. destruct r as [i m ds dt n nt]. simpl.
  intros [_ [_ [-> | ->]]]; [discriminate | reflexivity].
Qed.

Lemma sql_update_idem (i : Z) (d : database) :
  sql_update i (sql_update i d) = sql_update i d.
Proof.
  unfold sql_update. simpl. f_equal. rewrite map_map.
  apply map_ext. intros r. destruct (id r =? i) eqn:E; simpl; now rewrite E.
Qed.

Lemma sql_update_absent (i : Z) (d : database) :
  lookup i d = None -> sql_update i d = d.
Proof.
  intros H. destruct d as [rows s]. unfold sql_update. simpl. f_equal.
  apply map_unchanged. intros r Hr.
  pose proof (lookup_None i _ r H Hr) as N. simpl in N.
  apply Z.eqb_neq in N. now rewrite N.
Qed.

Lemma sql_update_fired (i : Z) (d : database) (r : row) :
  db_ok d -> lookup i d = Some r -> fired r = true -> sql_update i d = d.
Proof.
  intros Hok L F. pose proof Hok as [_ Hb]. rewrite Forall_forall in Hb.
  destruct d as [rows s]. unfold sql_update. simpl in *. f_equal.
  apply map_unchanged. intros x Hx.
  destruct (id x =? i) eqn:E; [|reflexivity].
  apply Z.eqb_eq in E.
  pose proof (lookup_In _ x Hok Hx) as Lx. rewrite E, L in Lx.
  injection Lx as <-. apply (set_notified_fired s); [now apply Hb | exact F].
Qed.

Lemma sql_delete_absent (i : Z) (d : database) :
  lookup i d = None -> sql_delete i d = d.
Proof.
  intros H. destruct d as [rows s]. unfold sql_delete. simpl. f_equal.
  apply filter_all. intros r Hr.
  pose proof (lookup_None i _ r H Hr) as N. simpl in N.
  apply Z.eqb_neq in N. now rewrite N.
Qed.

Lemma sql_delete_In (i : Z) (d : database) (r : row) :
  In r (reminders (sql_delete i d)) <-> In r (reminders d) /\ id r <> i.
Proof.
  unfold sql_delete. simpl. rewrite filter_In, negb_true_iff, Z.eqb_neq.
  reflexivity.
Qed.

(** A rowid that is no INTEGER names no row, so that the helper which
    refuses it and the statement it would have run leave the same table. *)
Lemma not_integer_absent (i : Z) (d : database) :
  db_ok d -> sqlite_integer i = false -> lookup i d = None.
Proof.
  intros [_ Hb] Hi. unfold lookup.
  destruct (find _ _) as [r|] eqn:F; [|reflexivity].
  apply find_some in F. destruct F as [Hin Hid].
  apply Z.eqb_eq in Hid. subst i.
  rewrite Forall_forall in Hb. destruct (Hb r Hin) as [R _]. congruence.
Qed.

Lemma snd_mark_reminder_notified (i : Z) (d : database) :
  db_ok d -> snd (mark_reminder_notified i d) = sql_update i d.
Proof.
  intros Hok. unfold mark_reminder_notified.
  destruct (sqlite_integer i) eqn:R; [reflexivity|]. simpl.
  symmetry. apply sql_update_absent. now apply not_integer_absent.
Qed.

Lemma snd_delete_reminder_from_db (i : Z) (d : database) :
  db_ok d -> snd (delete_reminder_from_db i d) = sql_delete i d.
Proof.
  intros Hok. unfold delete_reminder_from_db.
  destruct (sqlite_integer i) eqn:R; [reflexivity|]. simpl.
  symmetry. apply sql_delete_absent. now apply not_integer_absent.
Qed.

Lemma snd_add_reminder_to_db (m ds dt nt : string) (d : database) :
  snd (add_reminder_to_db m ds dt nt d)
  = if sqlite_integer (sqlite_sequence d + 1) then sql_insert m ds dt nt d
    else d.
Proof.
  unfold add_reminder_to_db. now destruct (sqlite_integer _).
Qed.

Lemma db_ok_add (m ds dt nt : string) (d : database) :
  db_ok d -> db_ok (snd (add_reminder_to_db m ds dt nt d)).
Proof.
  intros Hok. rewrite snd_add_reminder_to_db.
  destruct (sqlite_integer _) eqn:R; [now apply db_ok_insert | exact Hok].
Qed.

(** ** Comparing datetimes *)

Lemma lex_opp (c1 c2 : comparison) :
  CompOpp (lex c1 c2) = lex (CompOpp c1) (CompOpp c2).
Proof. now destruct c1. Qed.

Lemma datetime_compare_antisym (a b : datetime) :
  datetime_compare b a = CompOpp (datetime_compare a b).
Proof.
  unfold datetime_compare.
  rewrite !lex_opp, <- !Z.compare_antisym. reflexivity.
Qed.

Lemma datetime_gt_not_ge (a b : datetime) :
  datetime_gt a b = true -> datetime_ge b a = false.
Proof.
  unfold datetime_gt, datetime_ge.
  rewrite (datetime_compare_antisym a b).
  now destruct (datetime_compare a b).
Qed.

(** ** Zero-padded texts: the text order is the time order *)

Lemma in_bind {A B} (p : matcher A) (f : A -> matcher B) (s : string)
    (y : B * string) :
  In y (m_bind p f s) <-> exists a s', In (a, s') (p s) /\ In y (f a s').
Proof.
  unfold m_bind. rewrite in_flat_map. split.
  - intros [[a s'] [H1 H2]]. eauto.
  - intros (a & s' & H1 & H2). now exists (a, s').
Qed.

Lemma in_alt {A} (p q : matcher A) (s : string) (y : A * string) :
  In y ((p <|> q) s) <-> In y (p s) \/ In y (q s).
Proof. unfold m_alt. apply in_app_iff. Qed.

Lemma in_char (ok : ascii -> bool) (s : string) (c : ascii) (s' : string) :
  In (c, s') (m_char ok s) <-> s = String c s' /\ ok c = true.
Proof.
  unfold m_char. destruct s as [|x s]; simpl.
  - split; [tauto | intros [H _]; discriminate].
  - destruct (ok x) eqn:E; simpl.
    + split.
      * intros [H|[]]. injection H as -> ->. now split.
      * intros [H _]. injection H as -> ->. now left.
    + split; [tauto|]. intros [H K]. injection H as -> ->. congruence.
Qed.

Lemma in_dig (lo hi : Z) (s : string) (v : Z) (s' : string) :
  In (v, s') (m_dig lo hi s) ->
  exists c, s = String c s' /\ is_digit c = true /\ v = digit_value c.
Proof.
  unfold m_dig. rewrite in_bind. intros (c & r & H1 & H2).
  apply in_char in H1. destruct H1 as [-> H1].
  destruct H2 as [H2|[]]. injection H2 as Hv Hs. subst v s'.
  exists c. repeat split. now destruct (is_digit c).
Qed.

Lemma in_two (a b c d : Z) (s : string) (v : Z) (s' : string) :
  In (v, s') (two a b c d s) ->
  exists c1 c2, s = String c1 (String c2 s')
    /\ is_digit c1 = true /\ is_digit c2 = true
    /\ v = 10 * digit_value c1 + digit_value c2.
Proof.
  unfold two. rewrite in_bind. intros (x & r & H1 & H2).
  rewrite in_bind in H2. destruct H2 as (y & r' & H2 & H3).
  apply in_dig in H1, H2.
  destruct H1 as (c1 & -> & D1 & ->), H2 as (c2 & -> & D2 & ->).
  destruct H3 as [H3|[]]. injection H3 as Hv Hs. subst v s'.
  now exists c1, c2.
Qed.

Ltac took_it H :=
  repeat (apply in_alt in H; destruct H as [H|H]);
  first
    [ apply in_two in H; destruct H as (c1 & c2 & E & D1 & D2 & V);
      now apply (took_two _ _ _ c1 c2)
    | apply in_dig in H; destruct H as (c1 & E & D1 & V);
      now apply (took_one _ _ _ c1) ].

Lemma re_m_took (s : string) (v : Z) (s' : string) :
  In (v, s') (re_m s) -> took s v s'.
Proof. unfold re_m. intros H. took_it H. Qed.

Lemma re_H_took (s : string) (v : Z) (s' : string) :
  In (v, s') (re_H s) -> took s v s'.
Proof. unfold re_H. intros H. took_it H. Qed.

Lemma re_M_took (s : string) (v : Z) (s' : string) :
  In (v, s') (re_M s) -> took s v s'.
Proof. unfold re_M. intros H. took_it H. Qed.

Lemma re_d_took (s : string) (v : Z) (s' : string) :
  In (v, s') (re_d s) -> took s v s'.
Proof.
  unfold re_d. intros H.
  do 4 (apply in_alt in H; destruct H as [H|H]; [took_it H|]).
  apply in_bind in H. destruct H as (x & r & H1 & H2).
  apply in_char in H1. destruct H1 as [-> H1].
  apply Ascii.eqb_eq in H1. subst x.
  apply in_dig in H2. destruct H2 as (c & -> & _ & ->).
  now apply (took_blank _ _ _ c).
Qed.

Lemma digit_not_space (c : ascii) : is_digit c = true -> is_space c = false.
Proof.
  unfold is_digit, is_space, in_range. intros H.
  apply andb_true_iff in H. destruct H as [H1 H2].
  apply Z.leb_le in H1, H2.
  repeat (apply orb_false_iff; split);
    first [ apply andb_false_iff; (left; apply Z.leb_gt; lia)
                                  || (right; apply Z.leb_gt; lia)
          | apply Z.eqb_neq; lia ].
Qed.

Lemma digit_range (c : ascii) :
  is_digit c = true -> 0 <= digit_value c <= 9.
Proof.
  unfold is_digit, in_range, digit_value. intros H.
  apply andb_true_iff in H. destruct H as [H1 H2].
  apply Z.leb_le in H1, H2. lia.
Qed.

(** After two digits and a separator that is no digit, a group followed by
    that separator has taken both digits. *)
Lemma took_then_lit (c1 c2 sep sep' : ascii) (rest : string)
    (v : Z) (s' : string) (x : ascii) (s'' : string) :
  is_digit c1 = true -> is_digit c2 = true -> is_digit sep' = false ->
  took (String c1 (String c2 (String sep rest))) v s' ->
  In (x, s'') (m_lit sep' s') ->
  v = 10 * digit_value c1 + digit_value c2 /\ s'' = rest.
Proof.
  intros D1 D2 Ds T L. apply in_char in L. destruct L as [-> L].
  apply Ascii.eqb_eq in L. subst x.
  destruct T as [a b E Da Db V | a E Da V | a E V];
    inversion E; subst; [now split | congruence | discriminate].
Qed.

Lemma took_then_spaces (c1 c2 sp h : ascii) (rest : string)
    (v : Z) (s' : string) (u : unit) (s'' : string) :
  is_digit c1 = true -> is_digit c2 = true -> is_digit h = true ->
  took (String c1 (String c2 (String sp (String h rest)))) v s' ->
  In (u, s'') (m_spaces s') ->
  v = 10 * digit_value c1 + digit_value c2 /\ s'' = String h rest.
Proof.
  intros D1 D2 Dh T L.
  destruct T as [a b E Da Db V | a E Da V | a E V];
    inversion E; subst; simpl in L.
  - destruct (is_space sp); [|destruct L].
    rewrite (digit_not_space h Dh) in L. simpl in L.
    destruct L as [L|[]]. inversion L. now split.
  - rewrite (digit_not_space _ D2) in L. destruct L.
  - discriminate.
Qed.

Lemma took_all (c1 c2 : ascii) (v : Z) :
  is_digit c1 = true ->
  took (String c1 (String c2 EmptyString)) v EmptyString ->
  v = 10 * digit_value c1 + digit_value c2.
Proof.
  intros D [a b E Da Db V | a E Da V | a E V];
    inversion E; subst; [reflexivity | discriminate].
Qed.

Local Opaque Z.mul.

(** The time [strptime] reads from a zero-padded text. *)
Lemma strptime_padded_time (y1 y2 y3 y4 m1 m2 d1 d2 h1 h2 n1 n2 : ascii)
    (t : datetime) :
  forallb is_digit [y1; y2; y3; y4; m1; m2; d1; d2; h1; h2; n1; n2] = true ->
  strptime
    (String y1 (String y2 (String y3 (String y4 (String "-"
    (String m1 (String m2 (String "-" (String d1 (String d2 (String " "
    (String h1 (String h2 (String ":" (String n1 (String n2 EmptyString))))))))))))))))
  = Some t ->
  t = mk_datetime
        (10 * (10 * (10 * digit_value y1 + digit_value y2) + digit_value y3)
         + digit_value y4)
        (10 * digit_value m1 + digit_value m2)
        (10 * digit_value d1 + digit_value d2)
        (10 * digit_value h1 + digit_value h2)
        (10 * digit_value n1 + digit_value n2) 0 0.
Proof.
  intros D. simpl in D. repeat (apply andb_true_iff in D; destruct D as [? D]).
  unfold strptime.
  match goal with |- context [format_regex ?s] =>
    destruct (format_regex s) as [|[t' r] l] eqn:F end; [discriminate|].
  destruct r; [|discriminate].
  destruct (_ && _); [|discriminate]. intros E. injection E as <-.
  assert (M : In (t', EmptyString) ((t', EmptyString) :: l)) by now left.
  rewrite <- F in M. clear F l.
  unfold format_regex in M.
  apply in_bind in M. destruct M as (Y & s1 & MY & M).
  unfold re_Y in MY.
  apply in_bind in MY. destruct MY as (a1 & r1 & A1 & MY).
  apply in_bind in MY. destruct MY as (a2 & r2 & A2 & MY).
  apply in_bind in MY. destruct MY as (a3 & r3 & A3 & MY).
  apply in_bind in MY. destruct MY as (a4 & r4 & A4 & MY).
  apply in_dig in A1. destruct A1 as (c & E & _ & ->). injection E as <- <-.
  apply in_dig in A2. destruct A2 as (c & E & _ & ->). injection E as <- <-.
  apply in_dig in A3. destruct A3 as (c & E & _ & ->). injection E as <- <-.
  apply in_dig in A4. destruct A4 as (c & E & _ & ->). injection E as <- <-.
  destruct MY as [MY|[]]. injection MY as <- <-.
  apply in_bind in M. destruct M as (x1 & s2 & L1 & M).
  unfold m_lit in L1. apply in_char in L1. destruct L1 as [E _].
  injection E as _ <-.
  apply in_bind in M. destruct M as (mo & s3 & Mm & M).
  apply in_bind in M. destruct M as (x2 & s4 & L2 & M).
  apply re_m_took in Mm.
  destruct (took_then_lit m1 m2 "-" "-" _ _ _ _ _ H3 H4 eq_refl Mm L2)
    as [-> ->].
  apply in_bind in M. destruct M as (dy & s5 & Md & M).
  apply in_bind in M. destruct M as (x3 & s6 & L3 & M).
  apply re_d_took in Md.
  destruct (took_then_spaces _ _ _ _ _ _ _ _ _ H5 H6 H7 Md L3) as [-> ->].
  apply in_bind in M. destruct M as (hr & s7 & Mh & M).
  apply in_bind in M. destruct M as (x4 & s8 & L4 & M).
  apply re_H_took in Mh.
  destruct (took_then_lit h1 h2 ":" ":" _ _ _ _ _ H7 H8 eq_refl Mh L4)
    as [-> ->].
  apply in_bind in M. destruct M as (mi & s9 & Mn & M).
  destruct M as [M|[]]. injection M as <- ->.
  apply re_M_took, took_all in Mn; [|assumption]. subst mi.
  f_equal. lia.
Qed.

Local Transparent Z.mul.

Lemma padded_inv (s : string) :
  padded s = true ->
  exists y1 y2 y3 y4 m1 m2 d1 d2 h1 h2 n1 n2,
    s = String y1 (String y2 (String y3 (String y4 (String "-"
        (String m1 (String m2 (String "-" (String d1 (String d2 (String " "
        (String h1 (String h2 (String ":" (String n1 (String n2 EmptyString)))))))))))))))
    /\ forallb is_digit [y1; y2; y3; y4; m1; m2; d1; d2; h1; h2; n1; n2] = true.
Proof.
  unfold padded. intros H.
  do 16 (destruct s as [|? s]; cbn [has_shape] in H; [discriminate|];
         apply andb_true_iff in H; destruct H as [? H]).
  destruct s; [|discriminate].
  repeat match goal with
         | E : Ascii.eqb _ _ = true |- _ => apply Ascii.eqb_eq in E; subst
         end.
  do 12 eexists. split; [reflexivity|].
  cbn [forallb].
  repeat match goal with
         | E : is_digit _ = true |- _ => rewrite E; clear E
         end.
  reflexivity.
Qed.

Lemma lex_assoc (a b c : comparison) : lex (lex a b) c = lex a (lex b c).
Proof. now destruct a. Qed.

Lemma lex_Eq_r (a : comparison) : lex a Eq = a.
Proof. now destruct a. Qed.

Lemma compare_cons (a b : ascii) (s t : string) :
  String.compare (String a s) (String b t)
  = lex (Ascii.compare a b) (String.compare s t).
Proof. simpl. now destruct (Ascii.compare a b). Qed.

Lemma ascii_compare_digit (a b : ascii) :
  Ascii.compare a b = (digit_value a ?= digit_value b).
Proof.
  unfold Ascii.compare, digit_value, code.
  rewrite <- N2Z.inj_compare.
  destruct (Z.compare_spec (Z.of_N (N_of_ascii a)) (Z.of_N (N_of_ascii b)));
    symmetry;
    [apply Z.compare_eq_iff | apply Z.compare_lt_iff | apply Z.compare_gt_iff];
    lia.
Qed.

Lemma compare_base10 (x y x' y' : Z) :
  0 <= y <= 9 -> 0 <= y' <= 9 ->
  (10 * x + y ?= 10 * x' + y') = lex (x ?= x') (y ?= y').
Proof.
  intros Hy Hy'.
  destruct (Z.compare_spec x x') as [E|L|G]; cbn [lex].
  - subst x'.
    destruct (Z.compare_spec y y');
      [apply Z.compare_eq_iff | apply Z.compare_lt_iff | apply Z.compare_gt_iff];
      lia.
  - apply Z.compare_lt_iff. lia.
  - apply Z.compare_gt_iff. lia.
Qed.

Local Opaque Z.mul.

(** On zero-padded texts the byte order of the texts is the order of the
    times they denote. *)
Lemma padded_compare (a b : string) (ta tb : datetime) :
  padded a = true -> padded b = true ->
  strptime a = Some ta -> strptime b = Some tb ->
  String.compare a b = datetime_compare ta tb.
Proof.
  intros Pa Pb Sa Sb.
  apply padded_inv in Pa, Pb.
  destruct Pa as (y1 & y2 & y3 & y4 & m1 & m2 & d1 & d2 & h1 & h2 & n1 & n2
                  & -> & Da).
  destruct Pb as (z1 & z2 & z3 & z4 & o1 & o2 & e1 & e2 & k1 & k2 & p1 & p2
                  & -> & Db).
  apply (strptime_padded_time _ _ _ _ _ _ _ _ _ _ _ _ _ Da) in Sa.
  apply (strptime_padded_time _ _ _ _ _ _ _ _ _ _ _ _ _ Db) in Sb.
  subst ta tb.
  simpl in Da, Db.
  repeat (apply andb_true_iff in Da; destruct Da as [?%digit_range Da]).
  repeat (apply andb_true_iff in Db; destruct Db as [?%digit_range Db]).
  rewrite !compare_cons. unfold datetime_compare. simpl.
  rewrite !ascii_compare_digit, !compare_base10 by assumption.
  rewrite !lex_assoc. simpl. rewrite !lex_Eq_r. reflexivity.
Qed.

Local Transparent Z.mul.

Lemma padded_time_le (a b : row) :
  padded (remind_datetime a) = true -> padded (remind_datetime b) = true ->
  text_le a b -> time_le a b.
Proof.
  intros Pa Pb T ta tb Sa Sb.
  unfold text_le, String.leb in T.
  rewrite (padded_compare _ _ ta tb Pa Pb Sa Sb) in T.
  unfold datetime_ge. rewrite (datetime_compare_antisym ta tb).
  now destruct (datetime_compare ta tb).
Qed.

Lemma sorted_padded_times (l : list row) :
  Forall (fun r => padded (remind_datetime r) = true) l ->
  StronglySorted text_le l -> StronglySorted time_le l.
Proof.
  intros P S. induction S as [|x l S IH Hx]; [constructor|].
  inversion P as [|? ? Px Pl]; subst.
  constructor; [now apply IH|].
  rewrite Forall_forall in *. intros y Hy.
  apply padded_time_le; auto.
Qed.

(** Texts that [strptime] accepts but that are not zero-padded are listed
    in text order, which is then not the order of their times. *)
Example unpadded_texts_in_text_order :
  let d := snd (add_reminder_to_db "B" "" "2024-10-01 08:00" ""
             (snd (add_reminder_to_db "A" "" "2024-9-01 08:00" "" init_db))) in
  strptime "2024-9-01 08:00" = Some (mk_datetime 2024 9 1 8 0 0 0)
  /\ map remind_datetime (listAll d) = ["2024-10-01 08:00"; "2024-9-01 08:00"].
Proof. split; reflexivity. Qed.

(** ** One pass, row by row *)

Lemma mark_row_id (ids : list Z) (r : row) : id (mark_row ids r) = id r.
Proof. unfold mark_row. now destruct (existsb _ _). Qed.

Lemma check_rows_marks (now : datetime) (rows : list row) :
  marks (check_rows now rows) = map id (filter (due now) rows).
Proof.
  induction rows as [|r rows IH]; simpl; [reflexivity|].
  unfold due. destruct (strptime (remind_datetime r)) as [t|]; [|exact IH].
  destruct (datetime_ge now t); simpl; now rewrite IH.
Qed.

Lemma check_rows_calls (now : datetime) (rows : list row) :
  calls (check_rows now rows) = filter (due now) rows.
Proof.
  induction rows as [|r rows IH]; simpl; [reflexivity|].
  unfold due. destruct (strptime (remind_datetime r)) as [t|]; [|exact IH].
  destruct (datetime_ge now t); simpl; now rewrite IH.
Qed.

Lemma run_call_after (es : list effect) (w : world) :
  call_after (run es w) = (call_after w ++ calls es)%list.
Proof.
  revert w. induction es as [|e es IH]; intros w; simpl.
  - now rewrite app_nil_r.
  - unfold run in *. simpl. rewrite IH.
    destruct e; simpl; [reflexivity|].
    now rewrite <- app_assoc.
Qed.

Lemma run_db (es : list effect) (w : world) :
  db_ok (db w) ->
  db (run es w)
  = mk_database (map (mark_row (marks es)) (reminders (db w)))
                (sqlite_sequence (db w)).
Proof.
  revert w. induction es as [|e es IH]; intros w Hok.
  - simpl. destruct (db w) as [rows s]. simpl. f_equal.
    rewrite <- (map_id rows) at 1. apply map_ext. reflexivity.
  - unfold run in *. simpl.
    destruct e as [i|r]; [|now rewrite IH].
    rewrite IH by (simpl; rewrite snd_mark_reminder_notified by exact Hok;
                   now apply db_ok_update).
    simpl. rewrite snd_mark_reminder_notified by exact Hok. simpl.
    f_equal. rewrite map_map. apply map_ext. intros r.
    unfold mark_row. simpl.
    destruct (id r =? i) eqn:E; simpl.
    + destruct (existsb _ _); reflexivity.
    + reflexivity.
Qed.

Lemma fire_id (now : datetime) (r : row) : id (fire now r) = id r.
Proof. unfold fire. now destruct (_ && _). Qed.

Lemma marked_iff (now : datetime) (d : database) (r : row) :
  db_ok d -> In r (reminders d) ->
  existsb (Z.eqb (id r))
    (map id (filter (due now) (get_reminders_from_db false d)))
  = pending r && due now r.
Proof.
  intros Hok Hin.
  apply eq_true_iff_eq. rewrite existsb_exists, andb_true_iff. split.
  - intros [i [Hi E]]. apply Z.eqb_eq in E. subst i.
    apply in_map_iff in Hi. destruct Hi as [x [Hid Hx]].
    apply filter_In in Hx. destruct Hx as [Hx Hdue].
    apply order_by_In, filter_In in Hx. destruct Hx as [Hx Hp].
    assert (x = r) as ->.
    { apply (lookup_In d) in Hx; [|exact Hok].
      apply (lookup_In d) in Hin; [|exact Hok].
      rewrite Hid in Hx. congruence. }
    tauto.
  - intros [Hp Hdue]. exists (id r). split; [|apply Z.eqb_refl].
    apply in_map, filter_In. split; [|exact Hdue].
    apply order_by_In, filter_In. tauto.
Qed.

Lemma poll_cycle_db (now : datetime) (w : world) :
  db_ok (db w) ->
  db (poll_cycle now w)
  = mk_database (map (fire now) (reminders (db w))) (sqlite_sequence (db w)).
Proof.
  intros Hok. unfold poll_cycle, cycle_effects.
  rewrite run_db, check_rows_marks by exact Hok. f_equal.
  apply map_ext_in. intros r Hr.
  unfold mark_row, fire. now rewrite marked_iff.
Qed.

Lemma poll_cycle_call_after (now : datetime) (w : world) :
  call_after (poll_cycle now w)
  = (call_after w ++ filter (due now) (listPending (db w)))%list.
Proof.
  unfold poll_cycle, cycle_effects.
  now rewrite run_call_after, check_rows_calls.
Qed.

Lemma db_ok_poll_cycle (now : datetime) (w : world) :
  db_ok (db w) -> db_ok (db (poll_cycle now w)).
Proof.
  intros Hok. rewrite poll_cycle_db by exact Hok.
  apply db_ok_map; [|exact Hok].
  intros r. unfold fire. destruct (pending r && due now r); auto.
Qed.

Lemma lookup_poll_cycle (now : datetime) (i : Z) (w : world) :
  db_ok (db w) ->
  lookup i (db (poll_cycle now w)) = option_map (fire now) (lookup i (db w)).
Proof.
  intros Hok. rewrite poll_cycle_db by exact Hok.
  unfold lookup. simpl. apply find_map_id. apply fire_id.
Qed.

Lemma filter_selected_id (i : Z) (now : datetime) (l : list row) :
  filter (fun r => id r =? i) (filter (due now) (filter pending l))
  = filter (fun r => pending r && due now r) (filter (fun r => id r =? i) l).
Proof.
  induction l as [|x l IH]; simpl; [reflexivity|].
  destruct (pending x) eqn:P, (due now x) eqn:D, (id x =? i) eqn:I;
    repeat (simpl; rewrite ?P, ?D, ?I); rewrite ?IH; reflexivity.
Qed.

Lemma dispatched_poll_cycle (now : datetime) (i : Z) (w : world) :
  db_ok (db w) ->
  dispatched i (poll_cycle now w)
  = (dispatched i w + fresh_calls i now (db w))%nat.
Proof.
  intros Hok. unfold dispatched.
  rewrite poll_cycle_call_after, filter_app, length_app. f_equal.
  unfold listPending, get_reminders_from_db, sql_select.
  rewrite !filter_order_by.
  rewrite (Permutation_length (order_by_perm _)).
  rewrite filter_selected_id, filter_id_lookup by exact Hok.
  unfold fresh_calls. destruct (lookup i (db w)) as [r|]; simpl; [|reflexivity].
  now destruct (pending r && due now r).
Qed.

Lemma not_fired_pending (r : row) : fired r = false <-> pending r = true.
Proof. unfold fired, pending. now destruct (notified r =? 0). Qed.

Lemma listPending_In (d : database) (r : row) :
  In r (listPending d) <-> In r (reminders d) /\ fired r = false.
Proof.
  unfold listPending, get_reminders_from_db, sql_select.
  now rewrite order_by_In, filter_In, not_fired_pending.
Qed.

Lemma listAll_In (d : database) (r : row) :
  In r (listAll d) <-> In r (reminders d).
Proof. apply order_by_In. Qed.

(** A row the pass does not select is left as it is and nothing is queued
    for it. *)
Lemma poll_cycle_skips (now : datetime) (w : world) (r : row) :
  db_ok (db w) -> In r (reminders (db w)) ->
  pending r && due now r = false ->
  lookup (id r) (db (poll_cycle now w)) = Some r
  /\ dispatched (id r) (poll_cycle now w) = dispatched (id r) w.
Proof.
  intros Hok Hin Hsel.
  rewrite lookup_poll_cycle, dispatched_poll_cycle by exact Hok.
  unfold fresh_calls. rewrite (lookup_In _ _ Hok Hin). simpl.
  unfold fire. rewrite Hsel. split; [reflexivity | lia].
Qed.

(** A row the pass selects is marked and queued once. *)
Lemma poll_cycle_selects (now : datetime) (w : world) (r : row) :
  db_ok (db w) -> In r (reminders (db w)) ->
  pending r && due now r = true ->
  lookup (id r) (db (poll_cycle now w)) = Some (set_notified r)
  /\ dispatched (id r) (poll_cycle now w) = S (dispatched (id r) w).
Proof.
  intros Hok Hin Hsel.
  rewrite lookup_poll_cycle, dispatched_poll_cycle by exact Hok.
  unfold fresh_calls. rewrite (lookup_In _ _ Hok Hin). simpl.
  unfold fire. rewrite Hsel. split; [reflexivity | lia].
Qed.

(** ** Along a run of the program *)

Ltac by_flags i w w' :=
  unfold fired_at, phase;
  destruct (lookup i (db w)) as [?r|], (lookup i (db w')) as [?r|]; simpl;
  repeat match goal with
         | |- context [fired ?x] => destruct (fired x)
         | |- context [?a <=? ?b] => destruct (a <=? b)
         end; reflexivity.

Lemma rises_phase (i : Z) (w w' : world) :
  rises i w w' = (phase i w =? 1)%nat && (phase i w' =? 2)%nat.
Proof. unfold rises. by_flags i w w'. Qed.

Lemma falls_phase (i : Z) (w w' : world) :
  falls i w w' = (phase i w =? 2)%nat && (phase i w' =? 1)%nat.
Proof. unfold falls. by_flags i w w'. Qed.

Lemma fired_at_phase (i : Z) (w : world) :
  fired_at i w = Some true <-> phase i w = 2%nat.
Proof.
  unfold fired_at, phase.
  destruct (lookup i (db w)) as [r|]; simpl.
  - destruct (fired r); split; congruence.
  - destruct (i <=? _); split; congruence.
Qed.

Lemma step_ok_same_db (i : Z) (w : world) (a : action) :
  db_ok (db w) -> step w a = w -> step_ok i w a.
Proof.
  intros Hok E. split; rewrite E; try assumption; try lia.
  destruct (phase i w =? 1)%nat eqn:P; simpl; [|lia].
  apply Nat.eqb_eq in P. rewrite P. simpl. lia.
Qed.

Lemma snd_on_add_reminder (f : reminder_form) (d : database) :
  snd (on_add_reminder f d)
  = if is_empty (strip (rem_med_name f)) || is_empty (strip (rem_datetime f))
    then d
    else match strptime (strip (rem_datetime f)) with
         | None => d
         | Some _ =>
             snd (add_reminder_to_db (strip (rem_med_name f))
                    (strip (rem_dose f)) (strip (rem_datetime f))
                    (strip (rem_note f)) d)
         end.
Proof.
  unfold on_add_reminder. destruct (_ || _); [reflexivity|].
  destruct (strptime _); [|reflexivity].
  now destruct (add_reminder_to_db _ _ _ _ d) as [[v|exc] d'].
Qed.

Lemma snd_on_quick_add_reminder (f : quick_form) (d : database) :
  snd (on_quick_add_reminder f d)
  = if is_empty (strip (quick_med_name f)) || is_empty (strip (quick_dt f))
    then d
    else match strptime (strip (quick_dt f)) with
         | None => d
         | Some _ =>
             snd (add_reminder_to_db (strip (quick_med_name f))
                    (strip (quick_dose f)) (strip (quick_dt f)) "" d)
         end.
Proof.
  unfold on_quick_add_reminder. destruct (_ || _); [reflexivity|].
  destruct (strptime _); [|reflexivity].
  now destruct (add_reminder_to_db _ _ _ _ d) as [[v|exc] d'].
Qed.

Lemma step_ok_insert (i : Z) (w : world) (a : action) (m ds dt nt : string) :
  db_ok (db w) ->
  step w a = mk_world (snd (add_reminder_to_db m ds dt nt (db w)))
               (call_after w) ->
  step_ok i w a.
Proof.
  intros Hok E. rewrite snd_add_reminder_to_db in E.
  destruct (sqlite_integer (sqlite_sequence (db w) + 1)) eqn:R;
    [|apply step_ok_same_db; [exact Hok | rewrite E; now destruct w]].
  assert (P : (phase i w <= phase i (step w a))%nat
              /\ (phase i w = 1%nat -> phase i (step w a) = 1%nat)).
  { rewrite E. unfold phase. simpl.
    rewrite lookup_insert by exact Hok.
    destruct (i =? sqlite_sequence (db w) + 1) eqn:I.
    - apply Z.eqb_eq in I.
      rewrite (lookup_beyond i (db w) Hok) by lia. simpl.
      destruct (i <=? sqlite_sequence (db w)) eqn:L; [lia|].
      split; [lia | discriminate].
    - apply Z.eqb_neq in I.
      destruct (lookup i (db w)) as [r|]; [split; [lia | trivial]|].
      destruct (i <=? sqlite_sequence (db w)) eqn:L;
        destruct (i <=? sqlite_sequence (db w) + 1) eqn:L'; try lia;
        split; lia || discriminate. }
  destruct P as [P1 P2].
  split.
  - rewrite E. simpl. now apply db_ok_insert.
  - exact P1.
  - replace (dispatched i (step w a)) with (dispatched i w)
      by (rewrite E; reflexivity).
    destruct (phase i w =? 1)%nat eqn:Q; simpl; [|lia].
    apply Nat.eqb_eq in Q. rewrite (P2 Q). simpl. lia.
  - intros H1 H2. rewrite (P2 H1) in H2. discriminate.
Qed.

Lemma step_ok_add (i : Z) (w : world) (f : reminder_form) :
  db_ok (db w) -> step_ok i w (AddReminder f).
Proof.
  intros Hok.
  destruct (is_empty (strip (rem_med_name f))
            || is_empty (strip (rem_datetime f))) eqn:E1.
  - apply step_ok_same_db; [exact Hok|].
    simpl. unfold on_add_reminder. rewrite E1. now destruct w.
  - destruct (strptime (strip (rem_datetime f))) as [t|] eqn:E2.
    + eapply step_ok_insert; [exact Hok|].
      simpl. rewrite snd_on_add_reminder, E1, E2. reflexivity.
    + apply step_ok_same_db; [exact Hok|].
      simpl. unfold on_add_reminder. rewrite E1, E2. now destruct w.
Qed.

Lemma step_ok_quick_add (i : Z) (w : world) (f : quick_form) :
  db_ok (db w) -> step_ok i w (QuickAddReminder f).
Proof.
  intros Hok.
  destruct (is_empty (strip (quick_med_name f))
            || is_empty (strip (quick_dt f))) eqn:E1.
  - apply step_ok_same_db; [exact Hok|].
    simpl. unfold on_quick_add_reminder. rewrite E1. now destruct w.
  - destruct (strptime (strip (quick_dt f))) as [t|] eqn:E2.
    + eapply step_ok_insert; [exact Hok|].
      simpl. rewrite snd_on_quick_add_reminder, E1, E2. reflexivity.
    + apply step_ok_same_db; [exact Hok|].
      simpl. unfold on_quick_add_reminder. rewrite E1, E2. now destruct w.
Qed.

Lemma step_ok_delete (i j : Z) (w : world) :
  db_ok (db w) -> step_ok i w (DeleteReminder j).
Proof.
  intros Hok.
  assert (P : (phase i w <= phase i (step w (DeleteReminder j)))%nat
              /\ phase i (step w (DeleteReminder j)) <> 2%nat
                 \/ phase i (step w (DeleteReminder j)) = phase i w).
  { unfold phase. simpl. unfold on_delete_reminder.
    rewrite snd_delete_reminder_from_db by exact Hok. rewrite lookup_delete.
    simpl. destruct (i =? j); [left | now right].
    destruct (lookup i (db w)) as [r|] eqn:L.
    - apply lookup_Some in L. destruct L as [Hin Hid].
      destruct Hok as [_ Hb]. rewrite Forall_forall in Hb.
      specialize (Hb r Hin). unfold row_ok in Hb.
      destruct (i <=? sqlite_sequence (db w)) eqn:B; [|lia].
      destruct (fired r); split; (lia || discriminate).
    - destruct (i <=? sqlite_sequence (db w)); split; (lia || discriminate). }
  assert (Q : (phase i w =? 1)%nat
              && (phase i (step w (DeleteReminder j)) =? 2)%nat = false).
  { destruct P as [[_ P]|P].
    - apply Nat.eqb_neq in P. rewrite P. apply andb_false_r.
    - rewrite P. destruct (phase i w) as [|[|[|n]]]; reflexivity. }
  split.
  - simpl. unfold on_delete_reminder.
    rewrite snd_delete_reminder_from_db by exact Hok. now apply db_ok_delete.
  - destruct P as [[P _]|P]; lia.
  - rewrite Q. unfold dispatched. simpl. lia.
  - intros H1 H2. rewrite H1, H2 in Q. discriminate.
Qed.

Lemma step_ok_poll (i : Z) (now : datetime) (w : world) :
  db_ok (db w) -> step_ok i w (Poll now).
Proof.
  intros Hok. simpl.
  assert (S' : sqlite_sequence (db (poll_cycle now w)) = sqlite_sequence (db w))
    by (rewrite poll_cycle_db by exact Hok; reflexivity).
  pose proof (lookup_poll_cycle now i w Hok) as L.
  pose proof (dispatched_poll_cycle now i w Hok) as D.
  unfold fresh_calls in D.
  split; simpl; [now apply db_ok_poll_cycle | | |];
    unfold phase; rewrite ?S', ?L, ?D;
    destruct (lookup i (db w)) as [r|] eqn:Lr; simpl.
  - unfold fire, fired, pending.
    destruct (notified r =? 0) eqn:N, (due now r);
      repeat (simpl; rewrite ?N); lia.
  - lia.
  - unfold fire, fired, pending.
    destruct (notified r =? 0) eqn:N, (due now r);
      repeat (simpl; rewrite ?N); lia.
  - destruct (i <=? sqlite_sequence (db w)); simpl; lia.
  - unfold fire, fired, pending.
    destruct (notified r =? 0) eqn:N, (due now r) eqn:Du;
      repeat (simpl; rewrite ?N); try discriminate.
    intros _ _. unfold due in Du.
    destruct (strptime (remind_datetime r)) as [t|] eqn:Pt; [|discriminate].
    now exists now, r, t.
  - destruct (i <=? sqlite_sequence (db w)); discriminate.
Qed.

Lemma step_is_ok (i : Z) (w : world) (a : action) :
  db_ok (db w) -> step_ok i w a.
Proof.
  destruct a;
    [apply step_ok_add | apply step_ok_quick_add
     | apply step_ok_delete | apply step_ok_poll].
Qed.

Lemma db_ok_execute (acts : list action) (w : world) :
  db_ok (db w) -> db_ok (db (execute acts w)).
Proof.
  revert w. induction acts as [|a acts IH]; intros w Hok; [exact Hok|].
  apply IH. apply (step_db_ok 0 w a). now apply step_is_ok.
Qed.

(** Every table the program reaches from a new file is well formed. *)
Lemma db_ok_reachable (acts : list action) :
  db_ok (db (execute acts (mk_world init_db []))).
Proof. apply db_ok_execute. exact db_ok_init. Qed.

Lemma count_steps_trajectory (p : world -> world -> bool)
    (w : world) (a : action) (acts : list action) :
  count_steps p (trajectory w (a :: acts))
  = ((if p w (step w a) then 1 else 0)
     + count_steps p (trajectory (step w a) acts))%nat.
Proof. simpl. now destruct acts. Qed.

(** Along any run a rowid's flag rises at most once and never falls, and at
    most one notification is queued for it: none once it has fired. *)
Lemma life_of_a_rowid (i : Z) (acts : list action) (w : world) :
  db_ok (db w) ->
  (count_steps (rises i) (trajectory w acts) <= 1)%nat
  /\ ((2 <= phase i w)%nat -> count_steps (rises i) (trajectory w acts) = 0%nat)
  /\ count_steps (falls i) (trajectory w acts) = 0%nat
  /\ (dispatched i (execute acts w) <= S (dispatched i w))%nat
  /\ ((2 <= phase i w)%nat -> dispatched i (execute acts w) = dispatched i w).
Proof.
  revert w. induction acts as [|a acts IH]; intros w Hok.
  - simpl. repeat split; lia.
  - destruct (step_is_ok i w a Hok) as [Hok' Hfw Hq _].
    destruct (IH (step w a) Hok') as (R1 & R2 & F & D1 & D2).
    rewrite !count_steps_trajectory, rises_phase, falls_phase.
    change (execute (a :: acts) w) with (execute acts (step w a)).
    destruct (phase i w =? 1)%nat eqn:P1; simpl in *.
    + apply Nat.eqb_eq in P1.
      destruct (phase i (step w a) =? 2)%nat eqn:P2; simpl in *.
      * apply Nat.eqb_eq in P2.
        rewrite R2, D2 by lia. rewrite P1. simpl. repeat split; lia.
      * rewrite P1. simpl. repeat split; lia.
    + apply Nat.eqb_neq in P1.
      destruct (phase i w =? 2)%nat eqn:P2; simpl.
      * apply Nat.eqb_eq in P2.
        assert (N : (phase i (step w a) =? 1)%nat = false)
          by (apply Nat.eqb_neq; lia).
        rewrite N. simpl.
        repeat split; try lia; intros _; first [apply R2 | rewrite D2]; lia.
      * repeat split; try lia; intros H; first [apply R2 | rewrite D2]; lia.
Qed.

(** ** A pass cut short *)

Lemma calls_app (es es' : list effect) :
  calls (es ++ es') = (calls es ++ calls es')%list.
Proof.
  induction es as [|[i|r] es IH]; simpl; [reflexivity | exact IH | now rewrite IH].
Qed.

Lemma In_marks (i : Z) (es : list effect) :
  In i (marks es) <-> In (MarkNotified i) es.
Proof.
  induction es as [|[j|r] es IH]; simpl; [tauto | | ].
  - rewrite IH. split; intros [H|H]; auto; left; congruence.
  - rewrite IH. split; [auto | intros [H|H]; [discriminate | exact H]].
Qed.

Lemma In_calls (r : row) (es : list effect) :
  In r (calls es) <-> In (CallAfter r) es.
Proof.
  induction es as [|[j|x] es IH]; simpl; [tauto | | ].
  - rewrite IH. split; [auto | intros [H|H]; [discriminate | exact H]].
  - rewrite IH. split; intros [H|H]; auto; left; congruence.
Qed.

(** In the effects of a pass every [wx.CallAfter] comes right after the
    [mark_reminder_notified] of the same row. *)
Lemma check_rows_paired (now : datetime) (rows : list row) :
  forall pre rem post,
    check_rows now rows = (pre ++ CallAfter rem :: post)%list ->
    exists pre', pre = (pre' ++ [MarkNotified (id rem)])%list.
Proof.
  induction rows as [|r rows IH]; intros pre rem post E; simpl in E.
  - destruct pre; discriminate.
  - destruct (strptime (remind_datetime r)) as [t|]; [|now apply IH in E].
    destruct (datetime_ge now t); [|now apply IH in E].
    destruct pre as [|e1 [|e2 pre]]; simpl in E.
    + discriminate.
    + injection E as E1 E2 _. subst e1 rem. now exists [].
    + injection E as E1 E2 E. subst e1 e2.
      apply IH in E. destruct E as [pre' ->].
      now exists (MarkNotified (id r) :: CallAfter r :: pre').
Qed.

Lemma prefix_marked (now : datetime) (rows : list row) (k : nat) (rem : row) :
  In (CallAfter rem) (firstn k (check_rows now rows)) ->
  In (MarkNotified (id rem)) (firstn k (check_rows now rows)).
Proof.
  intros Hin. apply in_split in Hin. destruct Hin as [a [b E]].
  pose proof (firstn_skipn k (check_rows now rows)) as S.
  rewrite E, <- app_assoc in S. simpl in S. symmetry in S.
  apply check_rows_paired in S. destruct S as [a' ->].
  rewrite E. apply in_or_app. left. apply in_or_app. right. now left.
Qed.

Lemma lookup_run (i : Z) (es : list effect) (w : world) :
  db_ok (db w) ->
  lookup i (db (run es w))
  = option_map (mark_row (marks es)) (lookup i (db w)).
Proof.
  intros Hok. rewrite run_db by exact Hok. unfold lookup. simpl.
  apply find_map_id. apply mark_row_id.
Qed.

Lemma db_ok_run (es : list effect) (w : world) :
  db_ok (db w) -> db_ok (db (run es w)).
Proof.
  intros Hok. rewrite run_db by exact Hok. apply db_ok_map; [|exact Hok].
  intros r. unfold mark_row. destruct (existsb _ _); auto.
Qed.

Lemma count_id_app (i : Z) (l l' : list row) :
  count_id i (l ++ l') = (count_id i l + count_id i l')%nat.
Proof. unfold count_id. now rewrite filter_app, length_app. Qed.

Lemma count_id_pos (i : Z) (l : list row) :
  count_id i l <> 0%nat -> exists r, In r l /\ id r = i.
Proof.
  unfold count_id. intros H.
  destruct (filter (fun r => id r =? i) l) as [|r rs] eqn:F; [now elim H|].
  assert (Hr : In r (filter (fun r => id r =? i) l)) by (rewrite F; now left).
  apply filter_In in Hr. exists r. split; [tauto | lia].
Qed.

Lemma dispatched_run (i : Z) (es : list effect) (w : world) :
  dispatched i (run es w) = (dispatched i w + count_id i (calls es))%nat.
Proof.
  unfold dispatched. rewrite run_call_after. apply count_id_app.
Qed.

Lemma count_id_cycle (i : Z) (now : datetime) (w : world) :
  db_ok (db w) ->
  count_id i (calls (cycle_effects now w)) = fresh_calls i now (db w).
Proof.
  intros Hok.
  pose proof (dispatched_poll_cycle now i w Hok) as D.
  unfold poll_cycle in D. rewrite dispatched_run in D. lia.
Qed.

Lemma fresh_calls_le (i : Z) (now : datetime) (d : database) :
  (fresh_calls i now d <= 1)%nat.
Proof.
  unfold fresh_calls. destruct (lookup i d) as [r|]; [|lia].
  destruct (pending r && due now r); lia.
Qed.

Lemma called_row_stored (now : datetime) (w : world) (rem : row) :
  In (CallAfter rem) (cycle_effects now w) -> In rem (reminders (db w)).
Proof.
  intros H. apply In_calls in H.
  unfold cycle_effects in H. rewrite check_rows_calls in H.
  apply filter_In in H. destruct H as [H _].
  apply listPending_In in H. tauto.
Qed.

(** Once a stored row has been marked, the restarted program never queues a
    notification for it. *)
Lemma marked_then_silent (es : list effect) (w : world) (rem : row)
    (acts : list action) :
  db_ok (db w) -> In rem (reminders (db w)) ->
  In (MarkNotified (id rem)) es ->
  fired_at (id rem) (run es w) = Some true
  /\ dispatched (id rem) (execute acts (restart (run es w))) = 0%nat.
Proof.
  intros Hok Hin Hm.
  assert (F : fired_at (id rem) (run es w) = Some true).
  { unfold fired_at. rewrite lookup_run by exact Hok.
    rewrite (lookup_In _ _ Hok Hin). simpl.
    unfold mark_row.
    replace (existsb (Z.eqb (id rem)) (marks es)) with true; [reflexivity|].
    symmetry. apply existsb_exists. exists (id rem).
    split; [now apply In_marks | apply Z.eqb_refl]. }
  split; [exact F|].
  assert (Hok' : db_ok (db (restart (run es w)))) by (simpl; now apply db_ok_run).
  destruct (life_of_a_rowid (id rem) acts _ Hok') as (_ & _ & _ & _ & D).
  rewrite D; [reflexivity|].
  assert (P : phase (id rem) (restart (run es w)) = 2%nat)
    by (apply fired_at_phase; exact F).
  lia.
Qed.

Lemma firstn_middle {A} (pre : list A) (x : A) (post : list A) :
  firstn (S (List.length pre)) (pre ++ x :: post) = (pre ++ [x])%list.
Proof. induction pre as [|a pre IH]; [reflexivity | simpl; f_equal; exact IH]. Qed.

(** * The claims *)

(** C1. A pending reminder whose text parses to a time at or before [now]
    is, after one pass run at [now], stored with [notified = 1], and the
    pass queued exactly one notification for it, the one that captured the
    row.  Nothing bounds how far in the past the time lies. *)
Theorem C1_due_reminder_fires_once
    (now rem_dt : datetime) (w : world) (r : row) :
  db_ok (db w) ->
  In r (reminders (db w)) ->
  fired r = false ->
  strptime (remind_datetime r) = Some rem_dt ->
  datetime_ge now rem_dt = true ->
  let w' := poll_cycle now w in
  lookup (id r) (db w') = Some (set_notified r)
  /\ fired (set_notified r) = true
  /\ dispatched (id r) w' = S (dispatched (id r) w)
  /\ filter (fun x => id x =? id r) (calls (cycle_effects now w)) = [r].
Proof.
  intros Hok Hin Hf Hparse Hge w'.
  assert (Hsel : pending r && due now r = true).
  { apply not_fired_pending in Hf. unfold due. now rewrite Hf, Hparse. }
  destruct (poll_cycle_selects now w r Hok Hin Hsel) as [Hl Hd].
  repeat split; try assumption.
  unfold cycle_effects. rewrite check_rows_calls.
  unfold get_reminders_from_db, sql_select.
  rewrite !filter_order_by.
  rewrite filter_selected_id, filter_id_lookup by exact Hok.
  rewrite (lookup_In _ _ Hok Hin). simpl. now rewrite Hsel.
Qed.

(** C2. Along every run of the program from a well-formed table, the
    [notified] flag of a reminder goes from false to true at most once and
    never from true to false; a step in which it goes to true is a pass of
    the poller run at a [now] at or after the reminder's parsed time; a
    reminder that has fired is never notified again, and no reminder is
    ever notified twice. *)
Theorem C2_fired_rises_once_never_falls
    (w : world) (acts : list action) (i : Z) :
  db_ok (db w) ->
  (count_steps (rises i) (trajectory w acts) <= 1)%nat
  /\ count_steps (falls i) (trajectory w acts) = 0%nat
  /\ (forall a,
        rises i (execute acts w) (step (execute acts w) a) = true ->
        exists now r rem_dt,
          a = Poll now
          /\ lookup i (db (execute acts w)) = Some r
          /\ strptime (remind_datetime r) = Some rem_dt
          /\ datetime_ge now rem_dt = true)
  /\ (fired_at i w = Some true ->
        dispatched i (execute acts w) = dispatched i w)
  /\ (dispatched i (execute acts w) <= S (dispatched i w))%nat.
Proof.
  intros Hok.
  destruct (life_of_a_rowid i acts w Hok) as (R1 & _ & F & D1 & D2).
  repeat split; try assumption.
  - intros a Hr. rewrite rises_phase in Hr.
    apply andb_true_iff in Hr. destruct Hr as [H1 H2].
    apply Nat.eqb_eq in H1, H2.
    apply (step_cause i (execute acts w) a); try assumption.
    apply step_is_ok. now apply db_ok_execute.
  - intros Hf. apply D2. apply fired_at_phase in Hf. lia.
Qed.

(** C3. In a pass, every notification is handed to [wx.CallAfter] right
    after [mark_reminder_notified] was called for its row.  If the process
    stops between the two calls, the row is stored as fired, no
    notification was queued for it, and none is ever queued after a
    restart.  Wherever the pass stops, the notifications queued for a
    rowid before the stop and after any restart are at most one. *)
Theorem C3_mark_before_notify (now : datetime) (w : world) :
  db_ok (db w) ->
  (forall pre rem post,
      cycle_effects now w = (pre ++ CallAfter rem :: post)%list ->
      exists pre', pre = (pre' ++ [MarkNotified (id rem)])%list)
  /\ (forall pre rem post acts,
        cycle_effects now w
        = (pre ++ MarkNotified (id rem) :: CallAfter rem :: post)%list ->
        let crashed := crashed_cycle (S (List.length pre)) now w in
        fired_at (id rem) crashed = Some true
        /\ dispatched (id rem) crashed = dispatched (id rem) w
        /\ dispatched (id rem) (execute acts (restart crashed)) = 0%nat)
  /\ (forall k i acts,
        let crashed := crashed_cycle k now w in
        (dispatched i crashed - dispatched i w
         + dispatched i (execute acts (restart crashed)) <= 1)%nat).
Proof.
  intros Hok. split; [|split].
  - intros pre rem post E. unfold cycle_effects in E.
    now apply check_rows_paired in E.
  - intros pre rem post acts E crashed.
    assert (Hin : In rem (reminders (db w))).
    { apply (called_row_stored now). rewrite E.
      apply in_or_app. right. right. now left. }
    assert (C : crashed = run (pre ++ [MarkNotified (id rem)]) w).
    { unfold crashed, crashed_cycle. now rewrite E, firstn_middle. }
    assert (Hm : In (MarkNotified (id rem)) (pre ++ [MarkNotified (id rem)]))
      by (apply in_or_app; right; now left).
    destruct (marked_then_silent _ w rem acts Hok Hin Hm) as [F S].
    rewrite C. repeat split; try assumption.
    rewrite dispatched_run, calls_app. simpl. rewrite app_nil_r.
    pose proof (count_id_cycle (id rem) now w Hok) as T.
    pose proof (fresh_calls_le (id rem) now (db w)) as L.
    rewrite E, calls_app in T. simpl in T.
    rewrite count_id_app in T. unfold count_id at 2 in T. simpl in T.
    rewrite Z.eqb_refl in T. simpl in T. lia.
  - intros k i acts crashed. unfold crashed, crashed_cycle.
    rewrite dispatched_run.
    pose proof (count_id_cycle i now w Hok) as T.
    pose proof (fresh_calls_le i now (db w)) as L.
    rewrite <- (firstn_skipn k (cycle_effects now w)) in T at 1.
    rewrite calls_app, count_id_app in T.
    destruct (count_id i (calls (firstn k (cycle_effects now w)))) as [|n] eqn:C.
    + assert (Hok' : db_ok (db (restart (run (firstn k (cycle_effects now w)) w))))
        by (simpl; now apply db_ok_run).
      destruct (life_of_a_rowid i acts _ Hok') as (_ & _ & _ & D & _).
      unfold dispatched at 2 in D. simpl in D. lia.
    + assert (Hpos : count_id i (calls (firstn k (cycle_effects now w))) <> 0%nat)
        by lia.
      apply count_id_pos in Hpos. destruct Hpos as [rem [Hc <-]].
      apply In_calls in Hc.
      assert (Hin : In rem (reminders (db w))).
      { apply (called_row_stored now).
        rewrite <- (firstn_skipn k (cycle_effects now w)).
        apply in_or_app. now left. }
      apply prefix_marked in Hc.
      destruct (marked_then_silent _ w rem acts Hok Hin Hc) as [_ S].
      unfold cycle_effects in *. rewrite S. lia.
Qed.


(** C5. A pass run at [now] leaves a reminder whose time is after [now] as
    it is stored and queues no notification for it. *)
Theorem C5_future_reminder_untouched
    (now rem_dt : datetime) (w : world) (r : row) :
  db_ok (db w) ->
  In r (reminders (db w)) ->
  strptime (remind_datetime r) = Some rem_dt ->
  datetime_gt rem_dt now = true ->
  let w' := poll_cycle now w in
  lookup (id r) (db w') = Some r
  /\ dispatched (id r) w' = dispatched (id r) w
  /\ ~ In (MarkNotified (id r)) (cycle_effects now w).
Proof.
  intros Hok Hin Hparse Hgt w'.
  assert (Hdue : due now r = false).
  { unfold due. rewrite Hparse. now apply datetime_gt_not_ge. }
  assert (Hsel : pending r && due now r = false)
    by (rewrite Hdue; apply andb_false_r).
  destruct (poll_cycle_skips now w r Hok Hin Hsel) as [Hl Hd].
  repeat split; try assumption.
  intros Hm.
  pose proof (marked_iff now (db w) r Hok Hin) as M.
  rewrite Hsel in M.
  assert (T : existsb (Z.eqb (id r))
                (map id (filter (due now) (get_reminders_from_db false (db w))))
              = true).
  { apply existsb_exists. exists (id r). split; [|apply Z.eqb_refl].
    rewrite <- check_rows_marks.
    unfold cycle_effects in Hm.
    induction (check_rows now (get_reminders_from_db false (db w)))
      as [|e es IH]; simpl in *; [tauto|].
    destruct Hm as [->|Hm]; [now left|].
    destruct e; [right|]; now apply IH. }
  congruence.
Qed.

(** C6, as the code has it.  [add_reminder_to_db] checks nothing and
    returns nothing: whatever the texts, it stores a new pending row under
    the next rowid, as long as AUTOINCREMENT has a rowid left; with the
    counter at the largest INTEGER it raises [OperationalError] and stores
    nothing.  The check is made by [on_add_reminder] on the stripped
    fields: with an empty name, an empty date text or a date text that
    [strptime] rejects it shows an "Error" box and leaves the table as it
    is; otherwise it calls the helper with the stripped fields, and shows
    "Reminder added." when the helper returns. *)
Theorem C6_helper_stores_and_form_validates
    (med ds dt nt : string) (f : reminder_form) (d : database) :
  db_ok d ->
  let d1 := snd (add_reminder_to_db med ds dt nt d) in
  let new := mk_row (sqlite_sequence d + 1) med ds dt 0 nt in
  let name := strip (rem_med_name f) in
  let dt_str := strip (rem_datetime f) in
  (0 <= sqlite_sequence d < max_integer ->
     fst (add_reminder_to_db med ds dt nt d) = Returned PyNone
     /\ reminders d1 = (reminders d ++ [new])%list
     /\ lookup (id new) d = None
     /\ In new (listAll d1) /\ In new (listPending d1))
  /\ (max_integer <= sqlite_sequence d ->
        add_reminder_to_db med ds dt nt d = (Raised "OperationalError", d))
  /\ (name = "" \/ dt_str = "" \/ strptime dt_str = None ->
        exists text,
          on_add_reminder f d = (Shows (MessageBox text "Error"), d))
  /\ (name <> "" -> dt_str <> "" -> strptime dt_str <> None ->
        (0 <= sqlite_sequence d < max_integer ->
           on_add_reminder f d
           = (Shows (MessageBox "Reminder added." "OK"),
              sql_insert name (strip (rem_dose f)) dt_str
                (strip (rem_note f)) d))
        /\ (max_integer <= sqlite_sequence d ->
              on_add_reminder f d = (Escapes "OperationalError", d))).
Proof.
  intros Hok d1 new name dt_str.
  assert (In_range : 0 <= sqlite_sequence d < max_integer ->
                     sqlite_integer (sqlite_sequence d + 1) = true).
  { unfold sqlite_integer, min_integer, max_integer. intros H.
    apply andb_true_iff. split; apply Z.leb_le; lia. }
  assert (Full : max_integer <= sqlite_sequence d ->
                 sqlite_integer (sqlite_sequence d + 1) = false).
  { unfold sqlite_integer, max_integer. intros H.
    apply andb_false_iff. right. apply Z.leb_gt. lia. }
  split; [|split; [|split]].
  - intros H. unfold d1, add_reminder_to_db. rewrite (In_range H). simpl.
    assert (Hnew : In new (reminders (sql_insert med ds dt nt d)))
      by (simpl; apply in_or_app; right; now left).
    split; [reflexivity|]. split; [reflexivity|].
    split; [apply lookup_beyond; [exact Hok | simpl; lia]|].
    split; [now apply listAll_In | now apply listPending_In].
  - intros H. unfold add_reminder_to_db. now rewrite (Full H).
  - unfold on_add_reminder. fold name dt_str.
    intros [-> | [-> | ->]]; simpl.
    + now eexists.
    + rewrite orb_true_r. now eexists.
    + destruct (is_empty name || is_empty dt_str); now eexists.
  - intros H1 H2 H3.
    assert (E : is_empty name || is_empty dt_str = false).
    { destruct name; [congruence|]. destruct dt_str; [congruence|].
      reflexivity. }
    unfold on_add_reminder, add_reminder_to_db. fold name dt_str.
    rewrite E. destruct (strptime dt_str); [|congruence].
    split; intros H;
      [rewrite (In_range H) | rewrite (Full H)]; reflexivity.
Qed.

(** C7, as the code has it.  [mark_reminder_notified] returns normally
    for every rowid that is an INTEGER of SQLite, whether it names a row
    or not; for any other [int] it raises [OverflowError] and leaves the
    table as it is.  If a row has the rowid, its [notified] becomes 1 and
    nothing else changes; calling it again, or calling it for a row that
    has already fired, changes nothing; and for a rowid that names no row
    it changes nothing. *)
Theorem C7_mark_sets_flag_without_not_found (i : Z) (d : database) :
  db_ok d ->
  let d' := snd (mark_reminder_notified i d) in
  (min_integer <= i <= max_integer ->
     fst (mark_reminder_notified i d) = Returned PyNone)
  /\ (i < min_integer \/ max_integer < i ->
        mark_reminder_notified i d = (Raised "OverflowError", d))
  /\ (forall r, lookup i d = Some r ->
        fst (mark_reminder_notified i d) = Returned PyNone
        /\ lookup i d' = Some (set_notified r)
        /\ fired (set_notified r) = true)
  /\ (forall j, j <> i -> lookup j d' = lookup j d)
  /\ snd (mark_reminder_notified i d') = d'
  /\ (forall r, lookup i d = Some r -> fired r = true -> d' = d)
  /\ (lookup i d = None -> d' = d).
Proof.
  intros Hok d'.
  assert (Hok' : db_ok d')
    by (unfold d'; rewrite snd_mark_reminder_notified by exact Hok;
        now apply db_ok_update).
  assert (E : d' = sql_update i d)
    by (now apply snd_mark_reminder_notified).
  split.
  { intros H. unfold mark_reminder_notified, sqlite_integer.
    destruct (min_integer <=? i) eqn:A; [|apply Z.leb_gt in A; lia].
    destruct (i <=? max_integer) eqn:B; [reflexivity|apply Z.leb_gt in B; lia]. }
  split.
  { intros H. unfold mark_reminder_notified, sqlite_integer.
    destruct (min_integer <=? i) eqn:A; [|reflexivity].
    destruct (i <=? max_integer) eqn:B; [|reflexivity].
    apply Z.leb_le in A, B. lia. }
  split.
  { intros r L. split.
    - unfold mark_reminder_notified.
      destruct (sqlite_integer i) eqn:R; [reflexivity|].
      rewrite (not_integer_absent i d Hok R) in L. discriminate L.
    - rewrite E, lookup_update, Z.eqb_refl, L. now split. }
  split.
  { intros j Hj. rewrite E, lookup_update.
    apply Z.eqb_neq in Hj. now rewrite Hj. }
  split.
  { rewrite snd_mark_reminder_notified by exact Hok'. rewrite E.
    apply sql_update_idem. }
  split; rewrite E;
    [intros r; now apply sql_update_fired | apply sql_update_absent].
Qed.

(** C8, as the code has it.  [delete_reminder_from_db] returns normally
    for every rowid that is an INTEGER of SQLite, whether it names a row
    or not: afterwards no row has the rowid and the other rows are listed
    by [listAll] and [listPending] as before.  For any other [int] it
    raises [OverflowError] and leaves the table as it is.  For a rowid that
    names no row the table is unchanged. *)
Theorem C8_delete_removes_without_not_found (i : Z) (d : database) :
  let d' := snd (delete_reminder_from_db i d) in
  (min_integer <= i <= max_integer ->
     fst (delete_reminder_from_db i d) = Returned PyNone
     /\ lookup i d' = None
     /\ (forall r, In r (listAll d') <-> In r (listAll d) /\ id r <> i)
     /\ (forall r, In r (listPending d')
                   <-> In r (listPending d) /\ id r <> i))
  /\ (i < min_integer \/ max_integer < i ->
        delete_reminder_from_db i d = (Raised "OverflowError", d))
  /\ (lookup i d = None -> d' = d).
Proof.
  intros d'. unfold d', delete_reminder_from_db, sqlite_integer.
  destruct (min_integer <=? i) eqn:A, (i <=? max_integer) eqn:B; simpl;
    try apply Z.leb_le in A; try apply Z.leb_le in B;
    try apply Z.leb_gt in A; try apply Z.leb_gt in B;
    (split; [intros H | split; [intros H | intros H]]);
    try lia; try reflexivity.
  - split; [reflexivity|].
    split; [rewrite lookup_delete; now rewrite Z.eqb_refl|].
    split.
    + intros r. now rewrite !listAll_In, sql_delete_In.
    + intros r. rewrite !listPending_In, sql_delete_In. tauto.
  - now apply sql_delete_absent.
Qed.

(** C9. A pending reminder whose text [strptime] rejects is passed over by
    every pass: after any number of passes, at whatever times, it is stored
    unchanged, it is still listed by [listPending], and no notification
    was queued for it. *)
Theorem C9_unparsable_reminder_stays_pending
    (nows : list datetime) (w : world) (r : row) :
  db_ok (db w) ->
  In r (reminders (db w)) ->
  fired r = false ->
  strptime (remind_datetime r) = None ->
  let w' := execute (map Poll nows) w in
  lookup (id r) (db w') = Some r
  /\ In r (listPending (db w'))
  /\ dispatched (id r) w' = dispatched (id r) w.
Proof.
  intros Hok Hin Hf Hparse. revert w Hok Hin.
  induction nows as [|now nows IH]; intros w Hok Hin; simpl.
  - split; [now apply lookup_In|].
    split; [now apply listPending_In | reflexivity].
  - assert (Hsel : pending r && due now r = false)
      by (unfold due; rewrite Hparse; apply andb_false_r).
    destruct (poll_cycle_skips now w r Hok Hin Hsel) as [Hl Hd].
    assert (Hin' : In r (reminders (db (poll_cycle now w))))
      by (apply lookup_Some in Hl; tauto).
    pose proof (db_ok_poll_cycle now w Hok) as Hok'.
    destruct (IH (poll_cycle now w) Hok' Hin') as (A & B & C).
    change (execute (Poll now :: map Poll nows) w)
      with (execute (map Poll nows) (poll_cycle now w)).
    repeat split; try assumption. congruence.
Qed.

(** C10. In every state of the table [listPending] is [listAll] with the
    fired rows removed: the same rows, with the same fields, in the same
    relative order. *)
Theorem C10_pending_is_filtered_all (d : database) :
  listPending d = filter (fun r => negb (fired r)) (listAll d).
Proof.
  unfold listPending, listAll, get_reminders_from_db, sql_select.
  rewrite filter_order_by. f_equal.
  apply filter_ext. intros r. unfold fired. now rewrite negb_involutive.
Qed.

(** ** Where the code departs from the specification's wording *)


(** C6 at a concrete input: with an empty name and a text that is no
    timestamp the helper raises nothing and stores the row, and for a valid
    reminder it returns [None], not the new rowid. *)
Lemma C6_counterexample :
  strptime "tomorrow" = None
  /\ add_reminder_to_db "" "" "tomorrow" "" init_db
     = (Returned PyNone, mk_database [mk_row 1 "" "" "tomorrow" 0 ""] 1)
  /\ fst (add_reminder_to_db "" "" "tomorrow" "" init_db)
     <> Raised "ValidationError"
  /\ fst (add_reminder_to_db "Aspirin" "1 tablet" "2024-01-01 08:00" "" init_db)
     <> Returned (PyInt 1).
Proof. repeat split; discriminate. Qed.

(** C7 at a concrete input: marking rowid 7, which names no row of the
    Aspirin table, returns normally and changes nothing. *)
Lemma C7_counterexample :
  lookup 7 aspirin_db = None
  /\ mark_reminder_notified 7 aspirin_db = (Returned PyNone, aspirin_db)
  /\ fst (mark_reminder_notified 7 aspirin_db) <> Raised "NotFoundError".
Proof. repeat split; discriminate. Qed.

(** C8 at a concrete input: deleting rowid 7, which names no row of the
    Aspirin table, returns normally and changes nothing. *)
Lemma C8_counterexample :
  lookup 7 aspirin_db = None
  /\ delete_reminder_from_db 7 aspirin_db = (Returned PyNone, aspirin_db)
  /\ fst (delete_reminder_from_db 7 aspirin_db) <> Raised "NotFoundError".
Proof. repeat split; discriminate. Qed.

(** ** The claims at concrete inputs *)

Ltac table_ok :=
  split; simpl;
  [ repeat constructor
  | repeat (constructor;
            [unfold row_ok; split; [reflexivity | simpl; lia]|]);
    constructor ].

(** C1 for a reminder that was due a quarter of a century before the poll. *)
Lemma C1_witness :
  db_ok insulin_db
  /\ lookup 1 (db (poll_cycle t_0805 (mk_world insulin_db [])))
     = Some (set_notified insulin)
  /\ dispatched 1 (poll_cycle t_0805 (mk_world insulin_db [])) = 1%nat.
Proof.
  assert (Hok : db_ok insulin_db) by table_ok.
  split; [exact Hok|].
  destruct (C1_due_reminder_fires_once
              t_0805 (mk_datetime 1999 12 31 23 59 0 0)
              (mk_world insulin_db []) insulin)
    as (L & _ & D & _);
    [exact Hok | simpl; now left | reflexivity | reflexivity | reflexivity |].
  split; [exact L | exact D].
Defined.

(** C2 along a run that polls twice, adds a reminder and deletes the first. *)
Lemma C2_witness :
  db_ok aspirin_db
  /\ (count_steps (rises 1) (trajectory aspirin_world busy_day) <= 1)%nat
  /\ count_steps (falls 1) (trajectory aspirin_world busy_day) = 0%nat
  /\ (dispatched 1 (execute busy_day aspirin_world) <= 1)%nat.
Proof.
  assert (Hok : db_ok aspirin_db) by table_ok.
  split; [exact Hok|].
  destruct (C2_fired_rises_once_never_falls aspirin_world busy_day 1 Hok)
    as (R & F & _ & _ & D).
  split; [exact R|]. split; [exact F | exact D].
Defined.

(** C3 for the Aspirin pass stopped after its first effect. *)
Lemma C3_witness :
  db_ok aspirin_db
  /\ fired_at 1 (crashed_cycle 1 t_0805 aspirin_world) = Some true
  /\ dispatched 1 (crashed_cycle 1 t_0805 aspirin_world) = 0%nat
  /\ dispatched 1
       (execute [Poll t_0805] (restart (crashed_cycle 1 t_0805 aspirin_world)))
     = 0%nat.
Proof.
  assert (Hok : db_ok aspirin_db) by table_ok.
  split; [exact Hok|].
  destruct (C3_mark_before_notify t_0805 aspirin_world Hok) as (_ & B & _).
  apply (B [] aspirin [] [Poll t_0805]). reflexivity.
Defined.


(** C5 for the Aspirin reminder polled one minute early. *)
Lemma C5_witness :
  db_ok aspirin_db
  /\ lookup 1 (db (poll_cycle t_0759 aspirin_world)) = Some aspirin
  /\ dispatched 1 (poll_cycle t_0759 aspirin_world) = 0%nat.
Proof.
  assert (Hok : db_ok aspirin_db) by table_ok.
  split; [exact Hok|].
  destruct (C5_future_reminder_untouched
              t_0759 (mk_datetime 2024 1 1 8 0 0 0) aspirin_world aspirin)
    as (L & D & _);
    [exact Hok | simpl; now left | reflexivity | reflexivity |].
  split; [exact L | exact D].
Defined.

(** C6 for a form with blanks around a valid reminder. *)
Lemma C6_witness :
  db_ok init_db
  /\ on_add_reminder aspirin_form init_db
     = (Shows (MessageBox "Reminder added." "OK"), aspirin_db).
Proof.
  assert (Hok : db_ok init_db) by table_ok.
  split; [exact Hok|].
  destruct (C6_helper_stores_and_form_validates
              "" "" "tomorrow" "" aspirin_form init_db Hok) as (_ & _ & _ & V).
  apply V; [discriminate | discriminate | discriminate |].
  unfold max_integer. simpl. lia.
Defined.

(** C7 for the Aspirin reminder. *)
Lemma C7_witness :
  db_ok aspirin_db
  /\ fst (mark_reminder_notified 1 aspirin_db) = Returned PyNone
  /\ lookup 1 (snd (mark_reminder_notified 1 aspirin_db))
     = Some (set_notified aspirin).
Proof.
  assert (Hok : db_ok aspirin_db) by table_ok.
  split; [exact Hok|].
  destruct (C7_mark_sets_flag_without_not_found 1 aspirin_db Hok)
    as (_ & _ & S & _).
  destruct (S aspirin) as (R & L & _); [reflexivity|].
  split; [exact R | exact L].
Defined.

(** C8 for the Aspirin reminder, and for a rowid that names no row. *)
Lemma C8_witness :
  listAll (snd (delete_reminder_from_db 1 aspirin_db)) = []
  /\ lookup 1 (snd (delete_reminder_from_db 1 aspirin_db)) = None
  /\ snd (delete_reminder_from_db 7 aspirin_db) = aspirin_db.
Proof.
  split; [reflexivity|].
  destruct (C8_delete_removes_without_not_found 1 aspirin_db)
    as (D & _ & _).
  destruct D as (_ & L & _); [unfold min_integer, max_integer; lia|].
  destruct (C8_delete_removes_without_not_found 7 aspirin_db)
    as (_ & _ & A).
  split; [exact L | apply A; reflexivity].
Defined.

(** C9 for a row whose text is no timestamp, polled three times. *)
Lemma C9_witness :
  db_ok tomorrow_db
  /\ strptime (remind_datetime tomorrow) = None
  /\ In tomorrow
       (listPending (db (execute (map Poll [t_0759; t_0805; t_0805])
                           (mk_world tomorrow_db []))))
  /\ dispatched 1 (execute (map Poll [t_0759; t_0805; t_0805])
                     (mk_world tomorrow_db [])) = 0%nat.
Proof.
  assert (Hok : db_ok tomorrow_db) by table_ok.
  split; [exact Hok|]. split; [reflexivity|].
  destruct (C9_unparsable_reminder_stays_pending
              [t_0759; t_0805; t_0805] (mk_world tomorrow_db []) tomorrow)
    as (_ & P & D);
    [exact Hok | simpl; now left | reflexivity | reflexivity |].
  split; [exact P | exact D].
Defined.

(** * Further properties of the reminder code *)

Lemma sorted_filter (f : row -> bool) (l : list row) :
  StronglySorted text_le l -> StronglySorted text_le (filter f l).
Proof.
  induction 1 as [|x l S IH Hx]; simpl; [constructor|].
  destruct (f x); [|exact IH].
  constructor; [exact IH | now apply Forall_filter].
Qed.

Lemma insert_row_map (g : row -> row) (r : row) (l : list row) :
  (forall x, remind_datetime (g x) = remind_datetime x) ->
  insert_row (g r) (map g l) = map g (insert_row r l).
Proof.
  intros Hg. induction l as [|x l IH]; simpl; [reflexivity|].
  rewrite !Hg. destruct (String.leb _ _); simpl; [reflexivity | now rewrite IH].
Qed.

Lemma order_by_map (g : row -> row) (l : list row) :
  (forall x, remind_datetime (g x) = remind_datetime x) ->
  order_by_remind_datetime (map g l) = map g (order_by_remind_datetime l).
Proof.
  intros Hg. induction l as [|x l IH]; simpl; [reflexivity|].
  rewrite IH. now apply insert_row_map.
Qed.

Lemma fire_text (now : datetime) (r : row) :
  remind_datetime (fire now r) = remind_datetime r.
Proof. unfold fire. now destruct (pending r && due now r). Qed.

(** X1. The notifications of one pass are handed to [wx.CallAfter] in the
    order of [listPending], that is in ascending text of [remind_datetime]:
    the queue grows by the pending rows that pass the test, in that order. *)
Theorem X1_pass_queues_in_text_order (now : datetime) (w : world) :
  let queued := filter (due now) (listPending (db w)) in
  call_after (poll_cycle now w) = (call_after w ++ queued)%list
  /\ StronglySorted text_le queued.
Proof.
  split; [apply poll_cycle_call_after|].
  apply sorted_filter. apply order_by_sorted.
Qed.

Lemma pending_after_pass (now : datetime) (w : world) :
  db_ok (db w) ->
  listPending (db (poll_cycle now w))
  = filter (fun r => negb (due now r)) (listPending (db w)).
Proof.
  intros Hok. rewrite poll_cycle_db by exact Hok.
  unfold listPending, get_reminders_from_db, sql_select. simpl.
  rewrite filter_order_by. f_equal.
  induction (reminders (db w)) as [|x l IH]; simpl; [reflexivity|].
  rewrite IH. unfold fire, pending.
  destruct (notified x =? 0) eqn:N, (due now x) eqn:D; simpl;
    rewrite ?N, ?D; reflexivity.
Qed.

(** X2. After a pass run at [now] the pending list is the former pending
    list without the rows that passed the test, in the same order. *)
Theorem X2_pass_leaves_the_rest_pending (now : datetime) (w : world) :
  db_ok (db w) ->
  listPending (db (poll_cycle now w))
  = filter (fun r => negb (due now r)) (listPending (db w)).
Proof. apply pending_after_pass. Qed.

(** X3. A pass changes nothing but the [notified] flag of the pending rows
    that pass the test: [listAll] keeps its rows, their order and their
    other fields. *)
Theorem X3_pass_only_sets_flags (now : datetime) (w : world) :
  db_ok (db w) ->
  listAll (db (poll_cycle now w)) = map (fire now) (listAll (db w))
  /\ (forall r, fire now r = r \/ fire now r = set_notified r).
Proof.
  intros Hok. split.
  - rewrite poll_cycle_db by exact Hok.
    unfold listAll, get_reminders_from_db, sql_select. simpl.
    apply order_by_map. apply fire_text.
  - intros r. unfold fire. destruct (pending r && due now r); auto.
Qed.

Lemma lex_not_Lt (x y : Z) (c : comparison) :
  lex (x ?= y) c <> Lt <-> y < x \/ (x = y /\ c <> Lt).
Proof.
  destruct (Z.compare_spec x y) as [E|L|G]; simpl.
  - split; [intros H; right; now split | intros [H|[_ H]]; [lia | exact H]].
  - split; [congruence | intros [H|[H _]]; lia].
  - split; [intros _; now left | discriminate].
Qed.

Lemma compare_not_Lt (x y : Z) : (x ?= y) <> Lt <-> y <= x.
Proof.
  destruct (Z.compare_spec x y); split; try discriminate; try congruence; lia.
Qed.

Lemma datetime_ge_spec (a b : datetime) :
  datetime_ge a b = true <->
  year b < year a \/ (year a = year b /\
  (month b < month a \/ (month a = month b /\
  (day b < day a \/ (day a = day b /\
  (hour b < hour a \/ (hour a = hour b /\
  (minute b < minute a \/ (minute a = minute b /\
  (second b < second a \/ (second a = second b /\
   microsecond b <= microsecond a))))))))))).
Proof.
  unfold datetime_ge, datetime_compare.
  rewrite <- compare_not_Lt, <- !lex_not_Lt.
  destruct (lex _ _); split; congruence.
Qed.

Lemma datetime_ge_trans (a b c : datetime) :
  datetime_ge a b = true -> datetime_ge b c = true -> datetime_ge a c = true.
Proof. rewrite !datetime_ge_spec. lia. Qed.

(** X4. A pass run again at the same or an earlier clock reading does
    nothing: it marks no row and queues no notification. *)
Theorem X4_repeated_pass_does_nothing (now now' : datetime) (w : world) :
  db_ok (db w) ->
  datetime_ge now now' = true ->
  poll_cycle now' (poll_cycle now w) = poll_cycle now w.
Proof.
  intros Hok Hge.
  assert (E : cycle_effects now' (poll_cycle now w) = []).
  { unfold cycle_effects.
    change (get_reminders_from_db false (db (poll_cycle now w)))
      with (listPending (db (poll_cycle now w))).
    rewrite pending_after_pass by exact Hok.
    induction (listPending (db w)) as [|x l IH]; simpl; [reflexivity|].
    destruct (due now x) eqn:D; simpl; [exact IH|].
    unfold due in *.
    destruct (strptime (remind_datetime x)) as [t|]; [|exact IH].
    destruct (datetime_ge now' t) eqn:G; [|exact IH].
    rewrite (datetime_ge_trans now now' t Hge G) in D. discriminate. }
  unfold poll_cycle at 1. now rewrite E.
Qed.

Lemma mark_row_entered (ids : list Z) (r : row) :
  entered_ok r -> entered_ok (mark_row ids r).
Proof. unfold mark_row. now destruct (existsb _ _). Qed.

Lemma entered_ok_add (m ds dt nt : string) (d : database) :
  m <> "" -> strptime dt <> None ->
  Forall entered_ok (reminders d) ->
  Forall entered_ok (reminders (snd (add_reminder_to_db m ds dt nt d))).
Proof.
  intros Hm Hdt H. rewrite snd_add_reminder_to_db.
  destruct (sqlite_integer _); [|exact H]. simpl.
  apply Forall_app. split; [exact H|]. now repeat constructor.
Qed.

Lemma entered_ok_run (es : list effect) (w : world) :
  Forall entered_ok (reminders (db w)) ->
  Forall entered_ok (reminders (db (run es w))).
Proof.
  revert w. induction es as [|e es IH]; intros w H; [exact H|].
  unfold run in *. simpl. apply IH.
  destruct e as [i|r]; simpl; [|exact H].
  unfold mark_reminder_notified. destruct (sqlite_integer i); [|exact H].
  simpl. rewrite Forall_forall in *. intros r Hr.
  apply in_map_iff in Hr. destruct Hr as [x [<- Hx]].
  destruct (id x =? i); [|now apply H].
  specialize (H x Hx). exact H.
Qed.

Lemma entered_ok_step (w : world) (a : action) :
  Forall entered_ok (reminders (db w)) ->
  Forall entered_ok (reminders (db (step w a))).
Proof.
  intros H. destruct a as [f|f|i|now]; simpl.
  - rewrite snd_on_add_reminder.
    destruct (is_empty (strip (rem_med_name f))) eqn:E1; simpl; [exact H|].
    destruct (is_empty (strip (rem_datetime f))); simpl; [exact H|].
    destruct (strptime (strip (rem_datetime f))) eqn:E2; simpl; [|exact H].
    apply entered_ok_add; [| congruence | exact H].
    intros N. rewrite N in E1. discriminate.
  - rewrite snd_on_quick_add_reminder.
    destruct (is_empty (strip (quick_med_name f))) eqn:E1; simpl; [exact H|].
    destruct (is_empty (strip (quick_dt f))); simpl; [exact H|].
    destruct (strptime (strip (quick_dt f))) eqn:E2; simpl; [|exact H].
    apply entered_ok_add; [| congruence | exact H].
    intros N. rewrite N in E1. discriminate.
  - unfold on_delete_reminder, delete_reminder_from_db.
    destruct (sqlite_integer i); [|exact H]. now apply Forall_filter.
  - now apply entered_ok_run.
Qed.

(** X5. Whatever is done through the two forms, the delete button and the
    poller, every stored reminder keeps a name that is not empty and a
    text that [strptime] accepts, provided the table started that way; so
    it is the case for every table built from a new file. *)
Theorem X5_forms_store_only_valid_reminders (acts : list action) (w : world) :
  Forall entered_ok (reminders (db w)) ->
  Forall entered_ok (reminders (db (execute acts w))).
Proof.
  revert w. induction acts as [|a acts IH]; intros w H; [exact H|].
  apply IH. now apply entered_ok_step.
Qed.

Lemma phase_le_3 (i : Z) (w : world) : (phase i w <= 3)%nat.
Proof.
  unfold phase. destruct (lookup i (db w)) as [r|].
  - destruct (fired r); lia.
  - destruct (i <=? _); lia.
Qed.

Lemma phase_execute (i : Z) (acts : list action) (w : world) :
  db_ok (db w) -> (phase i w <= phase i (execute acts w))%nat.
Proof.
  revert w. induction acts as [|a acts IH]; intros w Hok; [simpl; lia|].
  destruct (step_is_ok i w a Hok) as [Hok' Hfw _ _].
  specialize (IH (step w a) Hok').
  change (execute (a :: acts) w) with (execute acts (step w a)). lia.
Qed.

(** X6. A rowid is never given twice: once the reminder with an id that
    the table has already handed out is deleted, no later action of the
    program makes that id name a reminder again. *)
Theorem X6_deleted_id_never_returns
    (i : Z) (acts : list action) (w : world) :
  db_ok (db w) ->
  i <= sqlite_sequence (db w) ->
  lookup i (db (execute (DeleteReminder i :: acts) w)) = None.
Proof.
  intros Hok Hi.
  set (w1 := step w (DeleteReminder i)).
  assert (E1 : db w1 = sql_delete i (db w))
    by (now apply snd_delete_reminder_from_db).
  assert (Hok1 : db_ok (db w1)) by (rewrite E1; now apply db_ok_delete).
  assert (P1 : phase i w1 = 3%nat).
  { unfold phase. rewrite E1, lookup_delete, Z.eqb_refl. simpl.
    destruct (i <=? sqlite_sequence (db w)) eqn:L; [reflexivity | lia]. }
  pose proof (phase_execute i acts w1 Hok1) as M.
  pose proof (phase_le_3 i (execute acts w1)) as U.
  change (execute (DeleteReminder i :: acts) w) with (execute acts w1).
  rewrite P1 in M. unfold phase in M, U.
  destruct (lookup i (db (execute acts w1))) as [r|]; [|reflexivity].
  destruct (fired r); lia.
Qed.

(** X4 at the Aspirin table. *)
Lemma X4_witness :
  db_ok aspirin_db
  /\ poll_cycle t_0759 (poll_cycle t_0805 aspirin_world)
     = poll_cycle t_0805 aspirin_world.
Proof.
  assert (Hok : db_ok aspirin_db) by table_ok.
  split; [exact Hok|].
  apply (X4_repeated_pass_does_nothing t_0805 t_0759 aspirin_world Hok).
  reflexivity.
Defined.

(** X2 and X3 at the Aspirin table. *)
Lemma X2_witness :
  db_ok aspirin_db /\ listPending (db (poll_cycle t_0805 aspirin_world)) = [].
Proof.
  assert (Hok : db_ok aspirin_db) by table_ok.
  split; [exact Hok|].
  rewrite (X2_pass_leaves_the_rest_pending t_0805 aspirin_world Hok).
  reflexivity.
Defined.

Lemma X3_witness :
  db_ok aspirin_db
  /\ listAll (db (poll_cycle t_0805 aspirin_world)) = [set_notified aspirin].
Proof.
  assert (Hok : db_ok aspirin_db) by table_ok.
  split; [exact Hok|].
  destruct (X3_pass_only_sets_flags t_0805 aspirin_world Hok) as [E _].
  rewrite E. reflexivity.
Defined.

(** X5 for a run over the Aspirin table that ends with three reminders:
    the form with no name and no timestamp has stored nothing. *)
Lemma X5_witness :
  Forall entered_ok (reminders aspirin_db)
  /\ map med_name (reminders (db (execute full_day aspirin_world)))
     = ["Aspirin"; "Iron"; "Zinc"]
  /\ Forall entered_ok (reminders (db (execute full_day aspirin_world))).
Proof.
  assert (H : Forall entered_ok (reminders aspirin_db))
    by (repeat constructor; discriminate).
  split; [exact H|]. split; [reflexivity|].
  apply (X5_forms_store_only_valid_reminders full_day aspirin_world).
  exact H.
Defined.

(** X6 for the Aspirin reminder. *)
Lemma X6_witness :
  db_ok aspirin_db
  /\ lookup 1 (db (execute
       [DeleteReminder 1;
        AddReminder (mk_form "Iron" "1 pill" "2024-01-02 09:00" "");
        Poll t_0805] aspirin_world)) = None.
Proof.
  assert (Hok : db_ok aspirin_db) by table_ok.
  split; [exact Hok|].
  apply (X6_deleted_id_never_returns 1 _ aspirin_world Hok).
  simpl. lia.
Defined.

(** * The appointment code *)

(** ** The stable sort *)

Section StableSortFacts.
Context {A : Type} (leb : A -> A -> bool).
Hypothesis leb_total : forall a b, leb a b = true \/ leb b a = true.
Hypothesis leb_trans :
  forall a b c, leb a b = true -> leb b c = true -> leb a c = true.

Lemma insert_by_perm (x : A) (l : list A) :
  Permutation (insert_by leb x l) (x :: l).
Proof.
  induction l as [|y l IH]; simpl; [reflexivity|].
  destruct (leb x y); [reflexivity|].
  rewrite IH. apply perm_swap.
Qed.

Lemma sort_by_perm (l : list A) : Permutation (sort_by leb l) l.
Proof.
  induction l as [|x l IH]; simpl; [reflexivity|].
  rewrite insert_by_perm. now constructor.
Qed.

Lemma insert_by_sorted (x : A) (l : list A) :
  StronglySorted (fun a b => leb a b = true) l -> StronglySorted (fun a b => leb a b = true) (insert_by leb x l).
Proof.
  induction 1 as [|y l Hl IH Hy]; simpl.
  - repeat constructor.
  - destruct (leb x y) eqn:E.
    + constructor; [now constructor|].
      constructor; [exact E|].
      eapply Forall_impl; [|exact Hy].
      intros z Hz. now apply leb_trans with y.
    + constructor; [exact IH|].
      rewrite Forall_forall. intros z Hz.
      apply (Permutation_in _ (insert_by_perm x l)) in Hz.
      destruct Hz as [<-|Hz].
      * destruct (leb_total x y) as [T|T]; [congruence | exact T].
      * rewrite Forall_forall in Hy. now apply Hy.
Qed.

Lemma sort_by_sorted (l : list A) : StronglySorted (fun a b => leb a b = true) (sort_by leb l).
Proof.
  induction l; simpl; [constructor | now apply insert_by_sorted].
Qed.
End StableSortFacts.

Lemma compare_Lt_trans (a b c : string) :
  String.compare a b = Lt -> String.compare b c <> Gt ->
  String.compare a c = Lt.
Proof.
  intros Hab Hbc.
  assert (N : String.compare a c <> Gt)
    by (apply string_compare_le_trans with b; congruence).
  destruct (String.compare a c) eqn:E; [|reflexivity|congruence].
  apply String.compare_eq_iff in E. subst c.
  rewrite String.compare_antisym, Hab in Hbc. simpl in Hbc. congruence.
Qed.

Lemma date_time_leb_total (a b : appointment) :
  date_time_leb a b = true \/ date_time_leb b a = true.
Proof.
  unfold date_time_leb.
  rewrite (String.compare_antisym (app_date a) (app_date b)).
  destruct (String.compare (app_date b) (app_date a)); simpl; auto.
  apply String.leb_total.
Qed.

Lemma date_time_leb_trans (a b c : appointment) :
  date_time_leb a b = true -> date_time_leb b c = true ->
  date_time_leb a c = true.
Proof.
  unfold date_time_leb.
  destruct (String.compare (app_date a) (app_date b)) eqn:Eab;
    [|intros _|discriminate].
  - apply String.compare_eq_iff in Eab. rewrite Eab.
    destruct (String.compare (app_date b) (app_date c));
      [apply leb_trans | reflexivity | intros _; discriminate].
  - destruct (String.compare (app_date b) (app_date c)) eqn:Ebc;
      [intros _| intros _ | discriminate];
      rewrite (compare_Lt_trans _ _ _ Eab); congruence.
Qed.

Lemma get_appointments_In (t : appointments_db) (a : appointment) :
  In a (get_appointments t) <-> In a (appointments t).
Proof.
  unfold get_appointments.
  split; apply Permutation_in;
    [apply sort_by_perm | symmetry; apply sort_by_perm].
Qed.

(** X7. [get_appointments] returns every appointment once, in ascending
    order of the date text and, for equal date texts, of the time text. *)
Theorem X7_appointments_listed_by_date_and_time (t : appointments_db) :
  Permutation (get_appointments t) (appointments t)
  /\ StronglySorted date_time_le (get_appointments t).
Proof.
  split; [apply sort_by_perm|].
  apply (sort_by_sorted date_time_leb date_time_leb_total date_time_leb_trans).
Qed.

(** ** The roster *)

Ltac roster H :=
  simpl in H; destruct H as [<-|[<-|[<-|[<-|[]]]]].

Lemma roster_lookup (d : doctor) :
  In d DOCTORS -> find_doctor_by_id (d_id d) = Some d.
Proof. intros H. roster H; reflexivity. Qed.

Lemma py_index_In {A} (l : list A) (i : Z) (x : A) :
  py_index l i = Some x -> In x l.
Proof.
  unfold py_index.
  destruct (_ && _); [apply nth_error_In|].
  destruct (_ && _); [apply nth_error_In | discriminate].
Qed.

Lemma chosen_in_roster (doc : doctor) (choice : string) :
  In doc DOCTORS -> In (chosen_doctor doc choice) DOCTORS.
Proof.
  intros H. unfold chosen_doctor.
  destruct (is_empty choice); [exact H|].
  destruct (find _ DOCTORS) as [alt|] eqn:F; [|exact H].
  now apply find_some in F.
Qed.

Lemma never_on_sunday (d : doctor) (date_obj : pydate) :
  In d DOCTORS -> is_doctor_available_on d date_obj = true ->
  weekday date_obj <> 6.
Proof.
  unfold is_doctor_available_on. intros H A E. rewrite E in A.
  roster H; discriminate.
Qed.

(** ** One use of the booking form *)

(** The form either leaves the table as it is and says something else than
    "Appointment booked!", or it has made every check and appended one row. *)
Lemma book_cases (f : book_form) (t : appointments_db) :
  (fst (on_book_appointment f t) <> booked
   /\ snd (on_book_appointment f t) = t)
  \/ (exists doc0 date_obj tm,
        fst (on_book_appointment f t) = booked
        /\ strip (book_name f) <> ""
        /\ strptime_date (strip (book_date f)) = Some date_obj
        /\ strptime_time (strip (book_time f)) = Some tm
        /\ py_index DOCTORS (book_doctor f) = Some doc0
        /\ is_doctor_available_on
             (chosen_doctor doc0 (book_specialty f)) date_obj = true
        /\ existsb (same_slot (chosen_doctor doc0 (book_specialty f))
                      (strip (book_date f)) (strip (book_time f)))
             (get_appointments t) = false
        /\ snd (on_book_appointment f t)
           = mk_appointments_db
               (appointments t
                ++ [mk_appointment (appointments_seq t + 1)
                      (strip (book_name f))
                      (d_id (chosen_doctor doc0 (book_specialty f)))
                      (d_specialty (chosen_doctor doc0 (book_specialty f)))
                      (strip (book_date f)) (strip (book_time f))
                      (strip (book_notes f))])
               (appointments_seq t + 1)).
Proof.
  unfold on_book_appointment, booked.
  destruct (is_empty (strip (book_name f))) eqn:N;
    [left; split; [discriminate | reflexivity]|].
  destruct (strptime_date (strip (book_date f))) as [date_obj|] eqn:D;
    [|left; split; [discriminate | reflexivity]].
  destruct (strptime_time (strip (book_time f))) as [tm|] eqn:T;
    [|left; split; [discriminate | reflexivity]].
  destruct (py_index DOCTORS (book_doctor f)) as [doc0|] eqn:I;
    [|left; split; [discriminate | reflexivity]].
  pose proof (chosen_in_roster doc0 (book_specialty f) (py_index_In _ _ _ I))
    as R.
  destruct (is_doctor_available_on _ date_obj) eqn:A; simpl.
  - destruct (existsb _ (get_appointments t)) eqn:X.
    + left; split; [discriminate | reflexivity].
    + unfold add_appointment.
      replace (sqlite_integer (d_id (chosen_doctor doc0 (book_specialty f))))
        with true by (roster R; reflexivity).
      cbv zeta. cbn [negb].
      destruct (sqlite_integer (appointments_seq t + 1)); cbn [negb fst snd];
        [|left; split; [discriminate | reflexivity]].
      right. exists doc0, date_obj, tm. repeat split; try assumption.
      intros E. rewrite E in N. discriminate.
  - left. split; [|reflexivity].
    roster R; discriminate.
Qed.

Lemma same_slot_spec (doc : doctor) (ds ts : string) (l : list appointment) :
  existsb (same_slot doc ds ts) l = false <->
  ~ In (d_id doc, ds, ts) (map slot l).
Proof.
  split.
  - intros X Hin. apply in_map_iff in Hin. destruct Hin as [a [E Ha]].
    assert (T : existsb (same_slot doc ds ts) l = true).
    { apply existsb_exists. exists a. split; [exact Ha|].
      unfold slot in E. injection E as E1 E2 E3.
      unfold same_slot. rewrite E1, E2, E3.
      now rewrite Z.eqb_refl, !String.eqb_refl. }
    congruence.
  - intros Hn. destruct (existsb _ l) eqn:X; [|reflexivity].
    exfalso. apply Hn. apply existsb_exists in X. destruct X as [a [Ha S]].
    unfold same_slot in S.
    apply andb_true_iff in S. destruct S as [S S3].
    apply andb_true_iff in S. destruct S as [S1 S2].
    apply Z.eqb_eq in S1. apply String.eqb_eq in S2, S3.
    apply in_map_iff. exists a. split; [|exact Ha].
    unfold slot. now rewrite S1, S2, S3.
Qed.

Lemma slots_sorted_view (t : appointments_db) (x : Z * string * string) :
  In x (map slot (get_appointments t)) <-> In x (map slot (appointments t)).
Proof.
  rewrite !in_map_iff. split; intros [a [E Ha]]; exists a; split; trivial;
    now apply get_appointments_In.
Qed.

Lemma NoDup_map_filter {A B} (g : A -> B) (f : A -> bool) (l : list A) :
  NoDup (map g l) -> NoDup (map g (filter f l)).
Proof.
  induction l as [|x l IH]; simpl; [trivial|].
  intros H. inversion H as [|? ? Hx Hl]; subst.
  destruct (f x); simpl; [|now apply IH].
  constructor; [|now apply IH].
  intros Hin. apply Hx. apply in_map_iff in Hin. destruct Hin as [y [E Hy]].
  apply filter_In in Hy. apply in_map_iff. exists y. tauto.
Qed.

Lemma NoDup_snoc {A} (l : list A) (x : A) :
  NoDup l -> ~ In x l -> NoDup (l ++ [x]).
Proof.
  intros Hl Hx. apply NoDup_app; [exact Hl | repeat constructor; auto | ].
  intros y Hy [<-|[]]. contradiction.
Qed.

Lemma no_clash_step (t : appointments_db) (a : desk_action) :
  NoDup (map slot (appointments t)) ->
  NoDup (map slot (appointments (desk_step t a))).
Proof.
  intros H. destruct a as [f|i]; simpl.
  - destruct (book_cases f t) as [[_ ->]|(doc0 & d & tm & _ & _ & _ & _ & _ & _ & X & ->)];
      [exact H|].
    simpl. rewrite map_app. simpl. apply NoDup_snoc; [exact H|].
    apply same_slot_spec in X. now rewrite slots_sorted_view in X.
  - unfold on_delete_selected, delete_appointment.
    destruct (sqlite_integer i); [|exact H]. now apply NoDup_map_filter.
Qed.

Lemma booked_ok_step (t : appointments_db) (a : desk_action) :
  Forall booked_ok (appointments t) ->
  Forall booked_ok (appointments (desk_step t a)).
Proof.
  intros H. destruct a as [f|i]; simpl.
  - destruct (book_cases f t)
      as [[_ ->]|(doc0 & d & tm & _ & N & D & T & I & A & _ & ->)];
      [exact H|].
    simpl. apply Forall_app. split; [exact H|].
    constructor; [|constructor].
    split; [exact N|]. split; [simpl; congruence|].
    exists (chosen_doctor doc0 (book_specialty f)), d. simpl.
    split; [|auto].
    apply roster_lookup, chosen_in_roster. now apply py_index_In in I.
  - unfold on_delete_selected, delete_appointment.
    destruct (sqlite_integer i); [|exact H]. now apply Forall_filter.
Qed.

Lemma booked_ok_run (acts : list desk_action) (t : appointments_db) :
  Forall booked_ok (appointments t) ->
  Forall booked_ok (appointments (desk_run acts t)).
Proof.
  revert t. induction acts as [|a acts IH]; intros t H; [exact H|].
  apply IH. now apply booked_ok_step.
Qed.

(** X8. The booking form never stores two appointments with the same doctor,
    the same date text and the same time text: if no two stored
    appointments share all three, that is still so after any bookings and
    deletions.  The texts are compared, not the day and the minute they
    denote (see X27). *)
Theorem X8_no_two_appointments_share_texts
    (acts : list desk_action) (t : appointments_db) :
  NoDup (map slot (appointments t)) ->
  NoDup (map slot (appointments (desk_run acts t))).
Proof.
  revert t. induction acts as [|a acts IH]; intros t H; [exact H|].
  apply IH. now apply no_clash_step.
Qed.

(** X9. Every appointment the booking form stores has a patient name, a
    time text and a date text that [strptime] accepts, a doctor of the
    roster with that doctor's specialty, and a date on a weekday of that
    doctor's schedule; deleting keeps it so. *)
Theorem X9_stored_appointments_were_checked
    (acts : list desk_action) (t : appointments_db) :
  Forall booked_ok (appointments t) ->
  Forall booked_ok (appointments (desk_run acts t)).
Proof. apply booked_ok_run. Qed.

(** X10. No appointment is ever booked on a Sunday: no doctor of the roster
    is scheduled on weekday 6. *)
Theorem X10_never_booked_on_sunday
    (acts : list desk_action) (t : appointments_db)
    (a : appointment) (date_obj : pydate) :
  Forall booked_ok (appointments t) ->
  In a (appointments (desk_run acts t)) ->
  strptime_date (app_date a) = Some date_obj ->
  weekday date_obj <> 6.
Proof.
  intros H Ha D.
  pose proof (booked_ok_run acts t H) as R.
  rewrite Forall_forall in R. specialize (R a Ha).
  destruct R as (_ & _ & doc & d & F & _ & D' & A).
  rewrite D in D'. injection D' as <-.
  apply (never_on_sunday doc); [|exact A].
  unfold find_doctor_by_id in F. now apply find_some in F.
Qed.

Lemma chosen_by_specialty (doc0 d : doctor) :
  In d DOCTORS -> chosen_doctor doc0 (d_specialty d) = d.
Proof. intros H. roster H; reflexivity. Qed.

Lemma chosen_unknown (doc0 : doctor) (choice : string) :
  (forall d, In d DOCTORS -> d_specialty d <> choice) ->
  chosen_doctor doc0 choice = doc0.
Proof.
  intros H. unfold chosen_doctor.
  destruct (is_empty choice); [reflexivity|].
  destruct (find _ DOCTORS) as [alt|] eqn:F; [|reflexivity].
  apply find_some in F. destruct F as [Hin E].
  apply String.eqb_eq in E. now apply H in Hin.
Qed.

(** X11. When a booking succeeds, a chosen specialty that a doctor of the
    roster has decides the doctor, whatever doctor is selected; with no
    specialty chosen, or one that no doctor has, the selected doctor is
    booked. *)
Theorem X11_specialty_choice_overrides_doctor
    (f : book_form) (t : appointments_db) :
  fst (on_book_appointment f t) = booked ->
  exists a doc0,
    appointments (snd (on_book_appointment f t))
    = (appointments t ++ [a])%list
    /\ py_index DOCTORS (book_doctor f) = Some doc0
    /\ (forall d, In d DOCTORS -> d_specialty d = book_specialty f ->
          doctor_id a = d_id d /\ specialty a = book_specialty f)
    /\ ((forall d, In d DOCTORS -> d_specialty d <> book_specialty f) ->
          doctor_id a = d_id doc0 /\ specialty a = d_specialty doc0).
Proof.
  intros B.
  destruct (book_cases f t)
    as [[N _]|(doc0 & d & tm & _ & _ & _ & _ & I & _ & _ & E)];
    [contradiction|].
  rewrite E. simpl.
  eexists. exists doc0. split; [reflexivity|]. split; [exact I|]. simpl.
  split.
  - intros d' Hd <-. rewrite (chosen_by_specialty doc0 d' Hd). now split.
  - intros Hn. rewrite (chosen_unknown doc0 _ Hn). now split.
Qed.

(** X12. The booking form changes the table only when it answers
    "Appointment booked!"; it then appends one appointment, under the next
    rowid, holding the stripped name, date, time and notes of the form. *)
Theorem X12_booking_changes_table_only_on_success
    (f : book_form) (t : appointments_db) :
  (fst (on_book_appointment f t) <> booked ->
     snd (on_book_appointment f t) = t)
  /\ (fst (on_book_appointment f t) = booked ->
        exists a,
          snd (on_book_appointment f t)
          = mk_appointments_db (appointments t ++ [a]) (appointments_seq t + 1)
          /\ app_id a = appointments_seq t + 1
          /\ patient_name a = strip (book_name f)
          /\ app_date a = strip (book_date f)
          /\ app_time a = strip (book_time f)
          /\ notes a = strip (book_notes f)).
Proof.
  destruct (book_cases f t)
    as [[N U]|(doc0 & d & tm & B & _ & _ & _ & _ & _ & _ & E)].
  - split; [intros _; exact U | intros B; contradiction].
  - split; [intros N; contradiction|].
    intros _. rewrite E. simpl. eexists. split; [reflexivity|].
    simpl. repeat split.
Qed.

(** X13. Sending the same form again right after a successful booking is
    refused as already booked and changes nothing. *)
Theorem X13_same_booking_twice_is_refused
    (f : book_form) (t : appointments_db) :
  fst (on_book_appointment f t) = booked ->
  on_book_appointment f (snd (on_book_appointment f t))
  = (Label "That time is already booked with the selected doctor.",
     snd (on_book_appointment f t)).
Proof.
  intros B.
  destruct (book_cases f t)
    as [[N _]|(doc0 & d & tm & _ & Nm & D & T & I & A & _ & E)];
    [contradiction|].
  rewrite E. set (t' := mk_appointments_db _ _).
  unfold on_book_appointment.
  destruct (is_empty (strip (book_name f))) eqn:Em.
  { destruct (strip (book_name f)); [congruence | simpl in Em; discriminate]. }
  rewrite D, T, I, A. simpl.
  replace (existsb _ (get_appointments t')) with true; [reflexivity|].
  symmetry. apply existsb_exists.
  eexists. split.
  - apply get_appointments_In. unfold t'. simpl.
    apply in_or_app. right. left. reflexivity.
  - unfold same_slot. simpl.
    now rewrite Z.eqb_refl, !String.eqb_refl.
Qed.

(** X14. [find_doctor_by_id] finds each doctor of the roster by its id,
    returns only a doctor of the roster with the id asked for, and returns
    [None] for every other id. *)
Theorem X14_find_doctor_by_id (did : Z) :
  (forall d, In d DOCTORS -> find_doctor_by_id (d_id d) = Some d)
  /\ (forall d, find_doctor_by_id did = Some d ->
        In d DOCTORS /\ d_id d = did)
  /\ (find_doctor_by_id did = None <-> did < 1 \/ 4 < did).
Proof.
  split; [apply roster_lookup|]. split.
  - intros d F. unfold find_doctor_by_id in F. apply find_some in F.
    destruct F as [H E]. split; [exact H | lia].
  - unfold find_doctor_by_id, DOCTORS. cbn [find d_id].
    repeat match goal with
           | |- context [?k =? did] =>
               destruct (Z.eqb_spec k did);
               [split; [intros X; discriminate X | lia]|]
           end.
    split; [intros _; lia | reflexivity].
Qed.

Lemma find_app_id_filter (id : Z) (l : list appointment) :
  find (fun a => app_id a =? id)
    (filter (fun a => negb (app_id a =? id)) l) = None.
Proof.
  induction l as [|x l IH]; simpl; [reflexivity|].
  destruct (app_id x =? id) eqn:E; simpl; [exact IH|].
  now rewrite E.
Qed.

(** X15. [delete_appointment] returns normally for every id that is an
    INTEGER of SQLite: afterwards no appointment has the id and the others
    are listed as before.  For any other [int] it raises [OverflowError]
    and leaves the table as it is.  For an id that names no appointment the
    table is unchanged. *)
Theorem X15_delete_appointment (id : Z) (t : appointments_db) :
  let t' := snd (delete_appointment id t) in
  (min_integer <= id <= max_integer ->
     fst (delete_appointment id t) = Returned PyNone
     /\ find (fun a => app_id a =? id) (appointments t') = None
     /\ (forall a, In a (get_appointments t') <->
                   In a (get_appointments t) /\ app_id a <> id))
  /\ (id < min_integer \/ max_integer < id ->
        delete_appointment id t = (Raised "OverflowError", t))
  /\ (find (fun a => app_id a =? id) (appointments t) = None -> t' = t).
Proof.
  intros t'. unfold t', delete_appointment, sqlite_integer.
  destruct (min_integer <=? id) eqn:A, (id <=? max_integer) eqn:B; simpl;
    try apply Z.leb_le in A; try apply Z.leb_le in B;
    try apply Z.leb_gt in A; try apply Z.leb_gt in B;
    (split; [intros H | split; [intros H | intros H]]);
    try lia; try reflexivity.
  - split; [reflexivity|].
    split; [apply find_app_id_filter|].
    intros a. rewrite !get_appointments_In. simpl.
    now rewrite filter_In, negb_true_iff, Z.eqb_neq.
  - destruct t as [l s]. simpl in *. f_equal.
    apply filter_all. intros a Ha.
    apply (find_none _ _ H) in Ha. now rewrite Ha.
Qed.

Lemma length_append (s s' : string) :
  String.length (s ++ s') = (String.length s + String.length s')%nat.
Proof. induction s as [|c s IH]; simpl; [reflexivity | now rewrite IH]. Qed.

Lemma booked_next_rowid (f : book_form) (t : appointments_db) :
  fst (on_book_appointment f t) = booked ->
  sqlite_integer (appointments_seq t + 1) = true.
Proof.
  unfold on_book_appointment, add_appointment, booked.
  destruct (is_empty _); [discriminate|].
  destruct (strptime_date _); [|discriminate].
  destruct (strptime_time _); [|discriminate].
  destruct (py_index _ _); [|discriminate].
  destruct (negb (is_doctor_available_on _ _)).
  { intros Q. simpl in Q. injection Q as Q.
    apply (f_equal String.length) in Q. rewrite length_append in Q.
    simpl in Q. lia. }
  destruct (existsb _ _); [discriminate|]. cbv zeta.
  destruct (negb (sqlite_integer (d_id _))); [discriminate|].
  destruct (sqlite_integer (appointments_seq t + 1)); [reflexivity|].
  discriminate.
Qed.

(** X27. The test for a booked slot compares the stripped texts.  A form
    that the table would accept is still accepted after another booking
    when its date text or its time text differs from that booking's, also
    when both forms name the same doctor and their texts denote the same
    day and the same minute. *)
Theorem X27_other_texts_are_booked_again
    (f f' : book_form) (t : appointments_db) :
  fst (on_book_appointment f t) = booked ->
  fst (on_book_appointment f' t) = booked ->
  strip (book_date f') <> strip (book_date f)
  \/ strip (book_time f') <> strip (book_time f) ->
  appointments_seq t + 1 < max_integer ->
  exists a a',
    appointments (snd (on_book_appointment f' (snd (on_book_appointment f t))))
    = (appointments t ++ [a; a'])%list
    /\ fst (on_book_appointment f' (snd (on_book_appointment f t))) = booked
    /\ app_date a = strip (book_date f) /\ app_time a = strip (book_time f)
    /\ app_date a' = strip (book_date f')
    /\ app_time a' = strip (book_time f').
Proof.
  intros B B' Hne Hseq.
  destruct (book_cases f t)
    as [[N _]|(doc0 & d & tm & _ & _ & _ & _ & _ & _ & _ & E)];
    [contradiction|].
  destruct (book_cases f' t)
    as [[N _]|(doc0' & d' & tm' & _ & Nm & D & T & I & A & X & E')];
    [contradiction|].
  pose proof (booked_next_rowid f t B) as R1.
  rewrite E. set (a := mk_appointment _ _ _ _ _ _ _).
  set (t1 := mk_appointments_db _ _).
  assert (R2 : sqlite_integer (appointments_seq t1 + 1) = true).
  { unfold t1. simpl. unfold sqlite_integer in *.
    apply andb_true_iff in R1. destruct R1 as [L _]. apply Z.leb_le in L.
    apply andb_true_iff. split; apply Z.leb_le; lia. }
  assert (X1 : existsb (same_slot (chosen_doctor doc0' (book_specialty f'))
                          (strip (book_date f')) (strip (book_time f')))
                 (get_appointments t1) = false).
  { apply same_slot_spec. rewrite slots_sorted_view.
    apply same_slot_spec in X. rewrite slots_sorted_view in X.
    unfold t1. simpl. rewrite map_app. intros Hin.
    apply in_app_or in Hin. destruct Hin as [Hin|[Hin|[]]]; [now apply X|].
    unfold slot, a in Hin. simpl in Hin. injection Hin as _ H2 H3.
    destruct Hne as [Hne|Hne]; congruence. }
  assert (Rd : sqlite_integer (d_id (chosen_doctor doc0' (book_specialty f')))
               = true).
  { pose proof (chosen_in_roster doc0' (book_specialty f')
                  (py_index_In _ _ _ I)) as R.
    roster R; reflexivity. }
  assert (Em : is_empty (strip (book_name f')) = false).
  { destruct (strip (book_name f')); [congruence | reflexivity]. }
  exists a.
  eexists (mk_appointment (appointments_seq t1 + 1) _ _ _ _ _ _).
  unfold on_book_appointment at 1 2, add_appointment.
  rewrite Em, D, T, I, A, X1, Rd, R2. simpl.
  rewrite <- app_assoc. now repeat split.
Qed.

(** ** The appointment properties at concrete inputs *)

Lemma X8_witness :
  NoDup (map slot (appointments (desk_run desk_day no_appointments)))
  /\ map slot (appointments (desk_run desk_day no_appointments))
     = [(3, "2024-01-02", "9:30"); (1, "2024-01-01", "10:00")].
Proof.
  split; [|reflexivity].
  apply (X8_no_two_appointments_share_texts desk_day no_appointments).
  constructor.
Defined.

Lemma X9_witness :
  Forall booked_ok (appointments (desk_run desk_day no_appointments)).
Proof.
  apply (X9_stored_appointments_were_checked desk_day no_appointments).
  constructor.
Defined.

Lemma X10_witness :
  weekday (mk_date 2024 1 2) <> 6.
Proof.
  apply (X10_never_booked_on_sunday desk_day no_appointments
           (mk_appointment 2 "Ravi" 3 "Dermatologist" "2024-01-02" "9:30" "")
           (mk_date 2024 1 2)).
  - constructor.
  - simpl. now left.
  - reflexivity.
Defined.

Lemma X11_witness :
  exists a doc0,
    appointments (snd (on_book_appointment tuesday_form no_appointments))
    = ([] ++ [a])%list
    /\ py_index DOCTORS 0 = Some doc0
    /\ (forall d, In d DOCTORS -> d_specialty d = "Dermatologist" ->
          doctor_id a = d_id d /\ specialty a = "Dermatologist")
    /\ ((forall d, In d DOCTORS -> d_specialty d <> "Dermatologist") ->
          doctor_id a = d_id doc0 /\ specialty a = d_specialty doc0).
Proof.
  apply (X11_specialty_choice_overrides_doctor tuesday_form no_appointments).
  reflexivity.
Defined.

Lemma X12_witness :
  snd (on_book_appointment
         (mk_book_form "Asha" 0 "" "2024-01-07" "10:00" "") no_appointments)
  = no_appointments.
Proof.
  destruct (X12_booking_changes_table_only_on_success
              (mk_book_form "Asha" 0 "" "2024-01-07" "10:00" "")
              no_appointments) as [U _].
  apply U. discriminate.
Defined.

Lemma X13_witness :
  on_book_appointment monday_form
    (snd (on_book_appointment monday_form no_appointments))
  = (Label "That time is already booked with the selected doctor.",
     snd (on_book_appointment monday_form no_appointments)).
Proof.
  apply (X13_same_booking_twice_is_refused monday_form no_appointments).
  reflexivity.
Defined.

(** X15 for the appointment of the Monday form, and for an id that is no
    INTEGER. *)
Lemma X15_witness :
  get_appointments
    (snd (delete_appointment 1
            (snd (on_book_appointment monday_form no_appointments)))) = []
  /\ fst (delete_appointment 1
            (snd (on_book_appointment monday_form no_appointments)))
     = Returned PyNone
  /\ delete_appointment 9223372036854775808
       (snd (on_book_appointment monday_form no_appointments))
     = (Raised "OverflowError",
        snd (on_book_appointment monday_form no_appointments)).
Proof.
  split; [reflexivity|].
  destruct (X15_delete_appointment 1
              (snd (on_book_appointment monday_form no_appointments)))
    as (D & _ & _).
  destruct D as (R & _); [unfold min_integer, max_integer; lia|].
  destruct (X15_delete_appointment 9223372036854775808
              (snd (on_book_appointment monday_form no_appointments)))
    as (_ & O & _).
  split; [exact R | apply O; unfold max_integer; lia].
Defined.

(** X27 for the Monday form and the same visit written without zero
    padding: the doctor is booked twice for the same day and minute. *)
Lemma X27_witness :
  strptime_date "2024-1-1" = strptime_date "2024-01-01"
  /\ strptime_time "10:0" = strptime_time "10:00"
  /\ map slot
       (appointments
          (snd (on_book_appointment monday_form_unpadded
                  (snd (on_book_appointment monday_form no_appointments)))))
     = [(1, "2024-01-01", "10:00"); (1, "2024-1-1", "10:0")]
  /\ fst (on_book_appointment monday_form_unpadded
            (snd (on_book_appointment monday_form no_appointments)))
     = booked.
Proof.
  split; [reflexivity|]. split; [reflexivity|]. split; [reflexivity|].
  destruct (X27_other_texts_are_booked_again
              monday_form monday_form_unpadded no_appointments)
    as (a & a' & _ & B & _);
    [reflexivity | reflexivity | left; discriminate
     | unfold max_integer; simpl; lia | exact B].
Defined.

(** * The guidance lookup *)

Lemma py_in_unfold (sub s : string) :
  py_in sub s
  = String.prefix sub s
    || match s with
       | EmptyString => false
       | String _ rest => py_in sub rest
       end.
Proof. now destruct s. Qed.

Lemma prefix_py_in (sub s : string) :
  String.prefix sub s = true -> py_in sub s = true.
Proof. intros H. rewrite py_in_unfold, H. reflexivity. Qed.

Lemma py_in_cons (sub : string) (c : ascii) (s : string) :
  py_in sub s = true -> py_in sub (String c s) = true.
Proof. intros H. simpl. rewrite H. apply orb_true_r. Qed.

(** Every run that [scan_words] cuts out is a part of the text. *)
Lemma scan_words_parts (s : string) :
  String.prefix (fst (scan_words s)) s = true
  /\ forall w, In w (snd (scan_words s)) -> py_in w s = true.
Proof.
  induction s as [|c s [IHp IHw]]; simpl.
  - split; [reflexivity | intros w []].
  - destruct (scan_words s) as [run ws]. simpl in *.
    destruct (is_word c); simpl.
    + split.
      * destruct (Ascii.ascii_dec c c); [exact IHp | congruence].
      * intros w Hw. rewrite (IHw w Hw). apply orb_true_r.
    + split; [reflexivity|].
      intros w Hw. apply py_in_cons.
      destruct (is_empty run); [now apply IHw|].
      destruct Hw as [<-|Hw]; [now apply prefix_py_in | now apply IHw].
Qed.

Lemma findall_words_parts (s w : string) :
  In w (findall_words s) -> py_in w s = true.
Proof.
  unfold findall_words. intros H.
  destruct (scan_words_parts s) as [Hp Hw].
  destruct (scan_words s) as [run ws]. simpl in *.
  destruct (is_empty run); [now apply Hw|].
  destruct H as [<-|H]; [now apply prefix_py_in | now apply Hw].
Qed.

Lemma key_is_one_word (key : string) :
  In key DISEASE_GUIDANCE -> findall_words key = [key].
Proof.
  intros H. simpl in H.
  destruct H as [<-|[<-|[<-|[<-|[<-|[<-|[]]]]]]]; reflexivity.
Qed.

Lemma filter_none {A} (f : A -> bool) (l : list A) :
  (forall x, In x l -> f x = false) -> filter f l = [].
Proof.
  induction l as [|x l IH]; simpl; intros H; [reflexivity|].
  rewrite (H x) by now left. apply IH. intros y Hy. apply H. now right.
Qed.

Lemma no_common_word (q key : string) :
  In key DISEASE_GUIDANCE -> py_in key q = false ->
  common_words (findall_words q) (findall_words key) = 0.
Proof.
  intros Hk Hn. rewrite (key_is_one_word key Hk). unfold common_words.
  rewrite filter_none; [reflexivity|].
  intros w Hw. simpl. rewrite orb_false_r.
  apply String.eqb_neq. intros ->.
  apply findall_words_parts in Hw. congruence.
Qed.

Lemma fold_overlap_none (q_words : list string) (keys : list string) :
  (forall key, In key keys ->
     common_words q_words (findall_words key) = 0) ->
  fold_left
    (fun '(best, best_score) key =>
       let score := common_words q_words (findall_words key) in
       if best_score <? score then (Some key, score) else (best, best_score))
    keys (None, 0)
  = (None, 0).
Proof.
  induction keys as [|key keys IH]; intros H; [reflexivity|].
  simpl. rewrite (H key) by now left. simpl.
  apply IH. intros k Hk. apply H. now right.
Qed.

Lemma best_overlap_none (q : string) :
  (forall key, In key DISEASE_GUIDANCE -> py_in key q = false) ->
  best_overlap (findall_words q) = (None, 0).
Proof.
  intros H. apply fold_overlap_none.
  intros key Hk. apply no_common_word; auto.
Qed.

(** X16. [lookup_disease_guidance] returns nothing for the empty query;
    otherwise, with the query stripped and lowered, it returns the query
    itself when it is a key, and else the first key of the table that
    contains the query or is contained in it.  The count of common words
    never decides: when no key is so related, no key shares a word with
    the query. *)
Theorem X16_lookup_is_first_related_key (query : string) :
  lookup_disease_guidance query
  = if is_empty query then None
    else
      let q := lower (strip query) in
      if existsb (String.eqb q) DISEASE_GUIDANCE then Some q
      else find (related q) DISEASE_GUIDANCE.
Proof.
  unfold lookup_disease_guidance.
  destruct (is_empty query); [reflexivity|]. cbv zeta.
  destruct (existsb _ DISEASE_GUIDANCE); [reflexivity|].
  destruct (find _ DISEASE_GUIDANCE) as [key|] eqn:F; [reflexivity|].
  rewrite best_overlap_none; [reflexivity|].
  intros key Hk. apply (find_none _ _ F) in Hk.
  unfold related in Hk. now apply orb_false_iff in Hk.
Qed.

(** X17. A key is returned only for a query it is related to: the result,
    when there is one, is a key of the table, and the stripped and lowered
    query is part of it or it is part of the query. *)
Theorem X17_lookup_result_is_a_related_key (query key : string) :
  lookup_disease_guidance query = Some key ->
  In key DISEASE_GUIDANCE
  /\ related (lower (strip query)) key = true
  /\ query <> "".
Proof.
  unfold lookup_disease_guidance.
  destruct (is_empty query) eqn:E; [discriminate|]. cbv zeta.
  assert (Q : query <> "") by (intros ->; discriminate).
  destruct (existsb _ DISEASE_GUIDANCE) eqn:X.
  - intros H. injection H as <-.
    apply existsb_exists in X. destruct X as [k [Hk Ek]].
    apply String.eqb_eq in Ek. subst k.
    repeat split; trivial. unfold related.
    assert (P : String.prefix (lower (strip query)) (lower (strip query)) = true).
    { clear. induction (lower (strip query)) as [|c s IH]; simpl; [reflexivity|].
      destruct (Ascii.ascii_dec c c); [exact IH | congruence]. }
    rewrite (prefix_py_in _ _ P). reflexivity.
  - destruct (find _ DISEASE_GUIDANCE) as [k|] eqn:F.
    + intros H. injection H as <-. apply find_some in F.
      destruct F as [Hk R]. now repeat split.
    + rewrite best_overlap_none; [discriminate|].
      intros k Hk. apply (find_none _ _ F) in Hk.
      unfold related in Hk. now apply orb_false_iff in Hk.
Qed.

(** X18. A query made of blanks only is not empty for the function, and
    since the empty text is part of every key it returns the first key of
    the table. *)
Theorem X18_blank_query_returns_first_key (query : string) :
  query <> "" -> strip query = "" ->
  lookup_disease_guidance query = Some "diabetes".
Proof.
  intros Q S. unfold lookup_disease_guidance.
  destruct query; [congruence|]. simpl is_empty. cbv iota.
  rewrite S. reflexivity.
Qed.

Lemma X17_witness :
  In "asthma" DISEASE_GUIDANCE
  /\ related (lower (strip " My Asthma! ")) "asthma" = true
  /\ " My Asthma! " <> "".
Proof.
  apply (X17_lookup_result_is_a_related_key " My Asthma! " "asthma").
  reflexivity.
Defined.

Lemma X18_witness : lookup_disease_guidance "   " = Some "diabetes".
Proof.
  apply (X18_blank_query_returns_first_key "   ");
    [discriminate | reflexivity].
Defined.

(** * The symptom checker *)

Lemma descending_sorted (l : list Z) :
  descending l = true -> StronglySorted (fun a b => b <= a) l.
Proof.
  induction l as [|a l IH]; simpl; intros H; [constructor|].
  apply andb_true_iff in H. destruct H as [H1 H2].
  constructor; [now apply IH|].
  rewrite forallb_forall in H1. rewrite Forall_forall.
  intros b Hb. apply Z.leb_le. now apply H1.
Qed.

Lemma mem_In (c : string) (l : list string) : mem c l = true <-> In c l.
Proof.
  unfold mem. rewrite existsb_exists. split.
  - intros [x [Hx E]]. apply String.eqb_eq in E. now subst.
  - intros H. exists c. split; [exact H | apply String.eqb_refl].
Qed.

Lemma distinct_NoDup (l : list string) : distinct l = true -> NoDup l.
Proof.
  induction l as [|c l IH]; simpl; intros H; [constructor|].
  apply andb_true_iff in H. destruct H as [H1 H2].
  constructor; [|now apply IH].
  intros Hin. apply mem_In in Hin. rewrite Hin in H1. discriminate H1.
Qed.

Lemma same_members_spec (l1 l2 : list string) :
  same_members l1 l2 = true -> forall c, In c l1 <-> In c l2.
Proof.
  unfold same_members. intros H c.
  apply andb_true_iff in H. destruct H as [H1 H2].
  rewrite forallb_forall in H1, H2.
  split; intros Hc; apply mem_In; auto.
Qed.

(** The loop looks at the text through its eight tests only. *)
Ltac each_hit_vector hit :=
  unfold count_conditions, hit_conditions, SYMPTOM_RULES;
  cbn [fold_left flat_map map fst existsb];
  destruct (hit "fever"), (hit "cough"), (hit "rash"), (hit "stomach"),
    (hit "headache"), (hit "pain"), (hit "sore throat"), (hit "breath").

Lemma ranking_checked (hit : string -> bool) :
  existsb hit (map fst SYMPTOM_RULES) = true ->
  let r := rank_conditions (count_conditions hit) in
  (descending (map snd r)
   && forallb (fun p => (4 <=? snd p) && (snd p <=? 100)) r
   && (85 <=? fold_right Z.add 0 (map snd r))
   && (fold_right Z.add 0 (map snd r) <=? 100)
   && distinct (map fst r)
   && same_members (map fst r) (hit_conditions hit)) = true.
Proof.
  each_hit_vector hit; vm_compute;
    first [ intros _; reflexivity | intros X; discriminate X ].
Qed.

Lemma no_match_cases (hit : string -> bool) :
  rank_conditions (count_conditions hit) = [("No matches found", 0)]
  <-> existsb hit (map fst SYMPTOM_RULES) = false.
Proof.
  each_hit_vector hit; vm_compute;
    split; first [ reflexivity | intros X; discriminate X ].
Qed.

Lemma confidence_cases (hit : string -> bool) :
  let found := count_conditions hit in
  let total := fold_right Z.add 0 (map snd found) in
  found <> [] ->
  rank_conditions found
  = map (fun '(cond, score) => (cond, 100 * score / total))
      (sort_by score_leb found).
Proof.
  each_hit_vector hit; vm_compute;
    first [ intros _; reflexivity | intros X; exfalso; apply X; reflexivity ].
Qed.

Lemma some_hit (hit : string -> bool) (symptom : string) :
  In symptom (map fst SYMPTOM_RULES) -> hit symptom = true ->
  existsb hit (map fst SYMPTOM_RULES) = true.
Proof.
  intros Hs Hh. apply existsb_exists. now exists symptom.
Qed.

(** X19. The checker answers "No matches found" with confidence 0 exactly
    when none of the eight symptom words of the rules occurs in the lowered
    text. *)
Theorem X19_no_match_iff_no_symptom_word (text : string) :
  analyze_symptoms text = [("No matches found", 0)]
  <-> (forall symptom, In symptom (map fst SYMPTOM_RULES) ->
         py_in symptom (lower text) = false).
Proof.
  unfold analyze_symptoms. cbv zeta.
  set (hit := fun symptom => py_in symptom (lower text)).
  rewrite no_match_cases. split.
  - intros H symptom Hs.
    destruct (hit symptom) eqn:E; [|exact E].
    rewrite (some_hit hit symptom Hs E) in H. discriminate H.
  - intros H. destruct (existsb hit (map fst SYMPTOM_RULES)) eqn:E; [|reflexivity].
    apply existsb_exists in E. destruct E as [s [Hs E]].
    unfold hit in E. rewrite (H s Hs) in E. discriminate E.
Qed.

(** X20. Whatever the text, the floating-point expression
    [int((score / total) * 100)] gives the exact integer part of
    [100 * score / total] for every condition of the answer: the counts the
    rules can produce are too small for a rounding error to show. *)
Theorem X20_confidence_is_exact_floor (text : string) :
  let found := count_conditions (fun symptom => py_in symptom (lower text)) in
  let total := fold_right Z.add 0 (map snd found) in
  found <> [] ->
  analyze_symptoms text
  = map (fun '(cond, score) => (cond, 100 * score / total))
      (sort_by score_leb found).
Proof.
  intros found total H. unfold analyze_symptoms. cbv zeta.
  now apply confidence_cases.
Qed.

(** X21. When a symptom word occurs in the text, the answer lists its
    conditions by descending confidence, every confidence lies between 4 and
    100, and the confidences add up to at least 85 and at most 100. *)
Theorem X21_confidences_descend_and_add_up (text symptom : string) :
  In symptom (map fst SYMPTOM_RULES) ->
  py_in symptom (lower text) = true ->
  let r := analyze_symptoms text in
  StronglySorted (fun a b => b <= a) (map snd r)
  /\ Forall (fun p => 4 <= snd p <= 100) r
  /\ 85 <= fold_right Z.add 0 (map snd r) <= 100.
Proof.
  intros Hs Hh. unfold analyze_symptoms. cbv zeta.
  set (hit := fun s => py_in s (lower text)).
  pose proof (ranking_checked hit (some_hit hit symptom Hs Hh)) as C.
  cbv zeta in C. repeat (apply andb_true_iff in C; destruct C as [C ?]).
  split; [now apply descending_sorted|]. split.
  - rewrite Forall_forall. intros p Hp.
    match goal with F : forallb _ _ = true |- _ =>
      rewrite forallb_forall in F; specialize (F p Hp);
      apply andb_true_iff in F; destruct F as [F1 F2] end.
    apply Z.leb_le in F1, F2. lia.
  - split; apply Z.leb_le; assumption.
Qed.

(** X22. When a symptom word occurs in the text, the conditions of the
    answer are those the rules list for the symptom words that occur, each
    of them once. *)
Theorem X22_answer_lists_the_conditions_once (text symptom : string) :
  In symptom (map fst SYMPTOM_RULES) ->
  py_in symptom (lower text) = true ->
  let r := analyze_symptoms text in
  NoDup (map fst r)
  /\ forall cond,
       In cond (map fst r)
       <-> In cond (hit_conditions (fun s => py_in s (lower text))).
Proof.
  intros Hs Hh. unfold analyze_symptoms. cbv zeta.
  set (hit := fun s => py_in s (lower text)).
  pose proof (ranking_checked hit (some_hit hit symptom Hs Hh)) as C.
  cbv zeta in C. repeat (apply andb_true_iff in C; destruct C as [C ?]).
  split; [now apply distinct_NoDup | now apply same_members_spec].
Qed.

Lemma X20_witness :
  analyze_symptoms "Cough and a sore throat"
  = [("Common cold", 40); ("Bronchitis", 20); ("COVID-19", 20);
     ("Strep throat", 20)].
Proof.
  apply (X20_confidence_is_exact_floor "Cough and a sore throat").
  vm_compute. discriminate.
Defined.

Lemma X21_witness :
  let r := analyze_symptoms "Fever, then a RASH" in
  StronglySorted (fun a b => b <= a) (map snd r)
  /\ Forall (fun p => 4 <= snd p <= 100) r
  /\ 85 <= fold_right Z.add 0 (map snd r) <= 100.
Proof.
  apply (X21_confidences_descend_and_add_up "Fever, then a RASH" "rash");
    [ simpl; tauto | reflexivity ].
Defined.

Lemma X22_witness :
  let r := analyze_symptoms "short of breath" in
  NoDup (map fst r)
  /\ forall cond,
       In cond (map fst r)
       <-> In cond (hit_conditions (fun s => py_in s (lower "short of breath"))).
Proof.
  apply (X22_answer_lists_the_conditions_once "short of breath" "breath");
    [ simpl; tauto | reflexivity ].
Defined.

(** * The chatbot *)

Lemma find_unique_perm {A : Type} (f : A -> bool) (l1 l2 : list A) :
  Permutation l1 l2 ->
  (forall a b, In a l1 -> In b l1 -> f a = true -> f b = true -> a = b) ->
  find f l1 = find f l2.
Proof.
  intros P U.
  destruct (find f l1) as [a|] eqn:F1.
  - apply find_some in F1. destruct F1 as [Ia Fa].
    destruct (find f l2) as [b|] eqn:F2.
    + apply find_some in F2. destruct F2 as [Ib Fb].
      f_equal. apply U; trivial.
      apply (Permutation_in _ (Permutation_sym P) Ib).
    + rewrite (find_none _ _ F2 a (Permutation_in _ P Ia)) in Fa.
      discriminate Fa.
  - destruct (find f l2) as [b|] eqn:F2; [|reflexivity].
    apply find_some in F2. destruct F2 as [Ib Fb].
    rewrite (find_none _ _ F1 b (Permutation_in _ (Permutation_sym P) Ib)) in Fb.
    discriminate Fb.
Qed.

Lemma small_talk_not_yes (m : string) :
  String.prefix "Yes" (small_talk m) = false.
Proof.
  unfold small_talk.
  destruct (_ || _); [reflexivity|].
  destruct (_ || _); [reflexivity|].
  destruct (_ || _); reflexivity.
Qed.

Lemma doctor_reply_yes (d : doctor) (day_name : string) (day_idx : Z) :
  String.prefix "Yes" (doctor_reply d day_name day_idx)
  = existsb (Z.eqb day_idx) (schedule d).
Proof.
  unfold doctor_reply. cbv zeta.
  destruct (existsb _ _); reflexivity.
Qed.

Lemma specialty_reply_yes (s day_name : string) (day_idx : Z) :
  String.prefix "Yes" (specialty_reply s day_name day_idx) = true ->
  exists d, In d DOCTORS /\ lower (d_specialty d) = s
            /\ existsb (Z.eqb day_idx) (schedule d) = true.
Proof.
  unfold specialty_reply. cbv zeta.
  destruct (filter _ DOCTORS) as [|d rest] eqn:F; [discriminate|].
  intros _. assert (I : In d (filter
    (fun d => String.eqb (lower (d_specialty d)) s
              && existsb (Z.eqb day_idx) (schedule d)) DOCTORS))
    by (rewrite F; now left).
  apply filter_In in I. destruct I as [I T].
  apply andb_true_iff in T. destruct T as [T1 T2].
  apply String.eqb_eq in T1. now exists d.
Qed.

Lemma available_on_weekday (d : doctor) (date_obj : pydate) :
  is_doctor_available_on d date_obj
  = existsb (Z.eqb (weekday date_obj)) (schedule d).
Proof. reflexivity. Qed.

(** X23. When the message names a day and a doctor, the reply is the one
    about that doctor and that day, whatever the order of the set of
    specialties, and it starts with Yes exactly when the booking form's
    test accepts the doctor on a date of that weekday. *)
Theorem X23_named_doctor_answer_agrees_with_booking
    (order : list string) (message day_name : string) (day_idx : Z)
    (d : doctor) (date_obj : pydate) :
  day_found (strip (lower message)) = Some (day_name, day_idx) ->
  doctor_found (strip (lower message)) = Some d ->
  weekday date_obj = day_idx ->
  chatbot_reply order message = doctor_reply d day_name day_idx
  /\ String.prefix "Yes" (chatbot_reply order message)
     = is_doctor_available_on d date_obj.
Proof.
  intros Hd Hdoc Hw. unfold chatbot_reply. cbv zeta.
  rewrite Hd, Hdoc. split; [reflexivity|].
  rewrite doctor_reply_yes, available_on_weekday, Hw. reflexivity.
Qed.

(** X24. The reply does not depend on the order in which the loop meets the
    set of specialties when the message names a doctor, or no day, or at
    most one specialty. *)
Theorem X24_reply_independent_of_set_order
    (o1 o2 : list string) (message : string) :
  Permutation o1 specialities_set ->
  Permutation o2 specialities_set ->
  (doctor_found (strip (lower message)) <> None
   \/ day_found (strip (lower message)) = None
   \/ forall s1 s2, In s1 specialities_set -> In s2 specialities_set ->
        py_in s1 (strip (lower message)) = true ->
        py_in s2 (strip (lower message)) = true -> s1 = s2) ->
  chatbot_reply o1 message = chatbot_reply o2 message.
Proof.
  intros P1 P2 H. unfold chatbot_reply. cbv zeta.
  destruct (day_found _) as [[day_name day_idx]|]; [|reflexivity].
  destruct (doctor_found _) as [d|]; [reflexivity|].
  destruct H as [H|[H|H]]; [now elim H | discriminate H |].
  unfold specialty_found.
  rewrite (find_unique_perm _ o1 o2); [reflexivity | |].
  - now rewrite P1, P2.
  - intros a b Ia Ib. apply H.
    + apply (Permutation_in _ P1 Ia).
    + apply (Permutation_in _ P1 Ib).
Qed.

Lemma specialty_replies_differ (s1 s2 day_name : string) (day_idx : Z) :
  In s1 specialities_set -> In s2 specialities_set -> s1 <> s2 ->
  In (day_name, day_idx) days ->
  specialty_reply s1 day_name day_idx <> specialty_reply s2 day_name day_idx.
Proof.
  intros I1 I2 N D E. apply String.eqb_eq in E. revert E.
  unfold specialities_set in I1, I2. cbn in I1, I2. unfold days in D.
  cbn [In] in D.
  repeat (destruct I1 as [<-|I1]); try (elim I1);
  repeat (destruct I2 as [<-|I2]); try (elim I2);
  try (now elim N);
  repeat (destruct D as [D|D]; [injection D as <- <-|]); try (elim D);
  vm_compute; intros X; discriminate X.
Qed.

Lemma order_from (s : string) :
  In s specialities_set ->
  exists rest, Permutation (s :: rest) specialities_set.
Proof.
  intros I. apply in_split in I. destruct I as [l1 [l2 E]].
  exists (l1 ++ l2)%list. rewrite E. apply Permutation_middle.
Qed.

(** X25. When the message names a day, no doctor and two different
    specialties, the reply depends on the order in which the loop meets the
    set of specialties: two orders of the same set give two different
    replies. *)
Theorem X25_two_specialties_make_reply_depend_on_order
    (message s1 s2 : string) :
  day_found (strip (lower message)) <> None ->
  doctor_found (strip (lower message)) = None ->
  In s1 specialities_set -> In s2 specialities_set -> s1 <> s2 ->
  py_in s1 (strip (lower message)) = true ->
  py_in s2 (strip (lower message)) = true ->
  exists o1 o2,
    Permutation o1 specialities_set /\ Permutation o2 specialities_set
    /\ chatbot_reply o1 message <> chatbot_reply o2 message.
Proof.
  intros Hday Hdoc I1 I2 N H1 H2.
  destruct (order_from s1 I1) as [r1 P1].
  destruct (order_from s2 I2) as [r2 P2].
  exists (s1 :: r1), (s2 :: r2). split; [exact P1|]. split; [exact P2|].
  unfold chatbot_reply. cbv zeta.
  destruct (day_found _) as [[day_name day_idx]|] eqn:D; [|now elim Hday].
  rewrite Hdoc. unfold specialty_found. cbn [find]. rewrite H1, H2.
  assert (E : forall s, In s specialities_set -> is_empty s = false).
  { intros s I. unfold specialities_set in I. cbn in I.
    repeat (destruct I as [<-|I]; [reflexivity|]). elim I. }
  rewrite (E s1 I1), (E s2 I2).
  apply specialty_replies_differ; trivial.
  unfold day_found in D. apply find_some in D. apply D.
Qed.

(** X26. A reply starts with Yes only when the message names a day on which
    a doctor of the roster is scheduled, so that the booking form accepts
    that doctor on every date of that weekday; that day is never Sunday. *)
Theorem X26_yes_only_for_a_scheduled_day
    (order : list string) (message : string) :
  String.prefix "Yes" (chatbot_reply order message) = true ->
  exists day_name day_idx d,
    day_found (strip (lower message)) = Some (day_name, day_idx)
    /\ In d DOCTORS
    /\ day_idx <> 6
    /\ forall date_obj, weekday date_obj = day_idx ->
         is_doctor_available_on d date_obj = true.
Proof.
  unfold chatbot_reply. cbv zeta.
  assert (S : forall d i, In d DOCTORS ->
            existsb (Z.eqb i) (schedule d) = true -> i <> 6).
  { intros d i I X ->. unfold DOCTORS in I. cbn [In] in I.
    repeat (destruct I as [<-|I]; [discriminate X|]). elim I. }
  destruct (day_found _) as [[day_name day_idx]|];
    [|now rewrite small_talk_not_yes].
  destruct (doctor_found _) as [d|] eqn:Hdoc.
  - rewrite doctor_reply_yes. intros X.
    apply find_some in Hdoc. destruct Hdoc as [I _].
    exists day_name, day_idx, d. repeat split; trivial.
    + now apply (S d).
    + intros date_obj <-. now rewrite available_on_weekday.
  - destruct (specialty_found order _) as [s|];
      [|now rewrite small_talk_not_yes].
    destruct (is_empty s); [now rewrite small_talk_not_yes|].
    intros X. apply specialty_reply_yes in X.
    destruct X as [d [I [_ X]]].
    exists day_name, day_idx, d. repeat split; trivial.
    + now apply (S d).
    + intros date_obj <-. now rewrite available_on_weekday.
Qed.

Lemma X23_witness :
  chatbot_reply [] "Is Dr. Aisha Khan in on Saturday or Monday?"
  = doctor_reply (mk_doctor 3 "Dr. Aisha Khan" "Dermatologist" [1; 3; 5])
      "monday" 0
  /\ String.prefix "Yes"
       (chatbot_reply [] "Is Dr. Aisha Khan in on Saturday or Monday?")
     = is_doctor_available_on
         (mk_doctor 3 "Dr. Aisha Khan" "Dermatologist" [1; 3; 5])
         (mk_date 2024 1 1).
Proof.
  apply (X23_named_doctor_answer_agrees_with_booking []
           "Is Dr. Aisha Khan in on Saturday or Monday?" "monday" 0
           (mk_doctor 3 "Dr. Aisha Khan" "Dermatologist" [1; 3; 5])
           (mk_date 2024 1 1)); reflexivity.
Defined.

Lemma X24_witness :
  chatbot_reply specialities_set "Will child specialist be available on Sunday?"
  = chatbot_reply (rev specialities_set)
      "Will child specialist be available on Sunday?".
Proof.
  apply (X24_reply_independent_of_set_order specialities_set
           (rev specialities_set)
           "Will child specialist be available on Sunday?").
  - apply Permutation_refl.
  - apply Permutation_sym, Permutation_rev.
  - right. right. intros s1 s2 I1 I2.
    unfold specialities_set in I1, I2. cbn in I1, I2.
    repeat (destruct I1 as [<-|I1]); try (elim I1);
    repeat (destruct I2 as [<-|I2]); try (elim I2);
    vm_compute; intros X1 X2;
    first [ reflexivity | discriminate X1 | discriminate X2 ].
Defined.

Lemma X25_witness :
  exists o1 o2,
    Permutation o1 specialities_set /\ Permutation o2 specialities_set
    /\ chatbot_reply o1 "Dermatologist or orthopedic on Monday?"
       <> chatbot_reply o2 "Dermatologist or orthopedic on Monday?".
Proof.
  apply (X25_two_specialties_make_reply_depend_on_order
           "Dermatologist or orthopedic on Monday?"
           "dermatologist" "orthopedic").
  - vm_compute. discriminate.
  - reflexivity.
  - vm_compute. tauto.
  - vm_compute. tauto.
  - discriminate.
  - reflexivity.
  - reflexivity.
Defined.

Lemma X26_witness :
  exists day_name day_idx d,
    day_found (strip (lower "Is the orthopedic in on Friday?"))
    = Some (day_name, day_idx)
    /\ In d DOCTORS
    /\ day_idx <> 6
    /\ forall date_obj, weekday date_obj = day_idx ->
         is_doctor_available_on d date_obj = true.
Proof.
  apply (X26_yes_only_for_a_scheduled_day specialities_set
           "Is the orthopedic in on Friday?").
  reflexivity.
Defined.
